(* ===== verification/_CoqProject ===== *)
-Q . S2P
Prelude.v
Models.v
DebtModel.v
PaymentModel.v
Invariant.v
Serializers.v
Views.v
DetailViews.v
Access.v
Users.v
Schema.v
Urls.v
Money.v
Render.v
Tokens.v
Ledger.v
Bounds.v
Lifecycle.v
Spec.v
Race.v
