(* ===== verification/Prelude.v ===== *)
(** * Verification of the bookkeeping backend (Django, [src/backend])

    The program is a Django REST backend that tracks the clients of a
    company, the debts those clients owe and the payments recorded against
    the debts.  Its consistency engine is spread over two overridden
    [save] methods and a handful of DRF serializers and generic views:

    - [debts/models.py] [Debt.save]: on the first save (no [id] yet) it sets
      [remaining_amount := total_amount], adds [total_amount] to the owning
      client's [balanse] and saves the client; on every save it sets
      [is_paid := True] when [remaining_amount == 0]; then it writes the row.
    - [payments/models.py] [Payment.save]: if [debt.remaining_amount >=
      amount] it subtracts [amount] from the debt's remaining amount and
      from the client's balance, else raises [ValueError]; then it writes the
      payment row, re-saves the debt (which may flip [is_paid]) and the
      client.
    - the serializers ([debts/serializers.py], [payments/serializers.py],
      [clients/serializers.py]) validate request data and scope related
      objects to the caller's company; the views ([*/views.py]) compose
      permission check, object lookup, validation and save.
    - [users/models.py] [User.save] runs [clean] ([check_email] lower-cases
      the address, [check_username] draws [instagram-<uuid tail>] plus
      random digits until the name is free) before the row write;
      [users/serializers.py] and [users/views.py] register and log users in.

    ** Layout of the development (one file per component, in dependency order)

    - [Prelude] (this file): money as [Z] cents of a [DecimalField(10,2)],
      dates as day numbers, the Python/DRF error taxonomy ([verror],
      [error]), the [result] error monad with its notations in
      [ledger_scope], sums over stdpp [gmap]s ([map_sumZ]) and their lemmas,
      the [result_inv]/[bool_cases] tactics and the [ledger] hint databases.
    - [Models]: the model classes as records in one Module per app
      ([companies], [users], [clients], [debts] with its cached client,
      [payments] with its cached debt), the database [Store] as a record of
      [gmap]s keyed by primary key, and Django's [Model.save] for each
      table (row upsert, AutoField allocation for debts), plus loading an
      instance from its row ([get_debt] builds the cached client).
    - [DebtModel]: [debts/models.py] [default_due_date] and [Debt.save]
      ([Debt_save]), with its effect on a new and on a stored debt.
    - [PaymentModel]: [payments/models.py] [Payment.save] ([Payment_save]).
    - [Serializers]: DRF field validation ([PrimaryKeyRelatedField] lookups
      in their querysets, [DecimalField] digit bounds, [CharField] lengths),
      [DebtSerializer.validate], the ModelSerializer [create]/[update] of the
      debt, payment and client serializers.
    - [Invariant]: the consistency invariant [ledger_ok] of spec section 8
      (balance equals the sum of remaining amounts, bounds, paid flag,
      payments sum, referential facts) over the whole store, decidable.
    - [Views]: the list/create handlers of [DebtListCreateView],
      [PaymentListCreateView], [ClientListCreateView] and
      [ClientListDebtsView], each a function of the store and the request
      returning a [result]; the concrete stores of the scenario; the
      findings on the create paths (caller-supplied balance, unchecked
      payments).
    - [DetailViews]: [DebtDetailView], [PaymentDetailView] and
      [DebtDetailPaymentView] (retrieve, update, delete, list) and the
      findings on those paths, which the spec puts out of scope.
    - [Access]: the company scoping the views implement one by one (the
      spec's Access Scope Guard): what each queryset returns, the company of
      a new debt.
    - [Users]: [str.lower]/[str.strip] on ASCII, [User.save] with [clean]
      (the username loop takes the drawn digits as a list), the unique
      columns, registration and login.  [EmailField]'s validator,
      [validate_password] and the password hasher are section parameters.
    - [Schema]: the field declarations of [BaseModel], [Payment],
      [Company] and [User] as data, the operations of
      [payments/migrations/0001_initial.py], Django's [migrate] and the
      field part of [makemigrations], and the options of the two admin
      classes with the admin checks.
    - [Urls]: the [urlpatterns] of the clients, debts and users apps with
      their route strings, compiled as [_route_to_regex] does, Django's
      [int] and [uuid] path converters ([IntConverter] through stdpp's
      [pretty], [UUIDConverter] as 32 hexadecimal digits written with
      [N.shiftr]/[N.land]), [resolve] and [reverse].
    - [Money]: the text form of amounts: [str()] of a two-place
      [Decimal] as [Debt.__str__] and [Payment.__str__] print it, and
      DRF's [DecimalField.to_internal_value] (strip, length limit, the
      [[+-]digits[.digits]] forms of [decimal.Decimal], the digit counts
      of [validate_precision], [quantize]) reading it back.
    - [Render]: what the read endpoints send back ([UserSerializer], the
      debts app's [PaymentSerializer], the clients app's nested
      [DebtSerializer]) as records, and the write paths of those two
      nested serializers, which no view reaches.
    - [Tokens]: the JWT part: simplejwt as the typeclass interface
      [JwtBackend] with its laws [JwtLaws], the login response with its
      tokens, [User.token], [UserProfileView] and the token refresh
      endpoint; a concrete instance evaluates the witnesses.
    - [Ledger]: the step relation [core_step] of the operations the spec
      keeps in scope (create client, create debt, non-negative payment),
      and preservation of [ledger_ok] by rule induction over [reachable]
      stores.
    - [Bounds]: the [DecimalField] columns: debt rows always fit, the
      client's balance can outgrow its column.
    - [Lifecycle]: the OPEN/PAID state machine of spec section 4.4 along
      runs of [core_step]: PAID is terminal, remaining never grows, and
      every debt can be settled in one step.
    - [Spec]: the abstract ledger of spec section 4 ([createDebt],
      [applyPayment]) as an interface (typeclasses [LedgerSpec] and
      [LedgerLaws]), the spec's scenario proved against the interface, the
      code's instance by an abstraction function, and the refinement theorems.
    - [Race]: the three phases of concurrent payment requests, split at
      the queries of the code (validation loads the debt,
      [PaymentSerializer.create] fetches the client, [Payment.save]
      writes), interleaved by a schedule; the lost update of a debt and of
      a client's balance.

    ** What the theorems show

    - invariants: every reachable store satisfies [ledger_ok] (balance,
      bounds, paid flag, payments sum); a successful [User.save] keeps the
      users table consistent; debt rows follow the spec's state machine;
    - type: an accepted debt body yields well-formed attributes; every
      name the admin classes list is a field of their model;
    - functional behaviour and errors of the handlers: the overdraw
      rejection, negative debts, the list filters, the [PermissionDenied]
      check, attribution of payments to the caller, registration errors,
      and what the read endpoints render (the payments of a debt add up to
      what was paid, a client's listing agrees with its balance);
    - refinement: [POST /debts/] and [POST /payments/] implement the
      abstract [createDebt] and [applyPayment] on consistent stores;
    - equivalence: the fold modelling [.first()] returns the least key;
    - termination and liveness: the username loop stops once enough digits
      are drawn; every debt can be settled by one payment;
    - roundtrip: registering then logging in returns the registered user;
      the refresh token of a login is accepted by the refresh endpoint and
      its access token refused; [reverse] then [resolve] gives back the
      view and the arguments for every route (the converters' round trips
      [int(str(n)) = n] and [UUID(str(u)) = u] below it); an amount's
      text is read back by its [DecimalField] as the same amount exactly
      when the amount fits the field;
    - findings: the lost update, updates and deletes that break the
      invariant, unchecked payments, the e-mail case conflict, the balance
      overflow, the unstripped [full_name], the payments migration that
      lacks the [user] column.

    ** Bounds and choices

    Amounts are integers of cents: DRF's [DecimalField(max_digits=10,
    decimal_places=2)] rejects inputs with more than two decimals and more
    than ten digits, so every accepted input is [x] cents with
    [|x| < 10^10] ([decimal_fits]).  Stored sums (a client's balance) are not
    re-validated by the code; the model keeps them as unbounded [Z], as a
    database that does not enforce [numeric(10,2)] stores them, and the
    overflow is shown in [Bounds] (a database that enforces the column
    refuses the [client.save()] instead).  UUID primary keys ([uuid4]) are
    modelled as a fresh key of the table; debt ids (AutoField) by a counter
    that never reuses an id.  No fuel is needed for the handlers (straight
    line code over finite maps); the one loop of the program, in
    [check_username], consumes one drawn digit per iteration, and
    [User_save_total] shows that as many digits as there are stored
    usernames always suffice.  Strings are ASCII: [str.lower] and
    [str.strip] are modelled on ASCII characters only.  A UUID is its
    128-bit integer; the router's round trip holds for values below
    [2^128], which is every UUID.  The greedy [[0-9]+] of the [int]
    converter is modelled by the longest digit prefix, exact because in
    every route the text after an [int] group starts with [/] ([delimited]).

    ** Not modelled

    The internals of [simplejwt] (signatures, expiry, [jti], blacklist:
    the clock and cryptography, stated as the laws of [JwtLaws]), password
    hashing itself (a parameter), photo uploads (file storage),
    timestamps ([created_at], [updated_at], never read), the JSON text of
    a response (fields are rendered as values; the text of an amount and
    its reading back are in [Money], without [decimal.Decimal]'s exponent,
    underscore, [Infinity] and [NaN] forms), the
    admin's pages (library code; the options are in [Schema]), the
    project's settings and root [urls.py] (not in the sources: the
    default permission of [TokenRefreshView] is a parameter, paths are
    relative to each app's prefix, and no [urls.py] of the sources routes
    the payments views), the migrations of the other apps (not in the
    sources).  Transactions: the code runs without
    [transaction.atomic], which the [Race] component makes explicit.
    DRF collects every field error of a request; the model stops at the
    first, which changes the error's detail, never whether a request is
    refused.  [DebtSerializer.validate] compares with [date.today()] while
    the overdue filter uses [timezone.now().date()]; the model has one
    [req_today] for both, which is exact when the server's local date and
    the UTC date agree. *)

From stdpp Require Export gmap strings.
From Stdlib Require Export ZArith Lia.

Declare Scope ledger_scope.
Delimit Scope ledger_scope with ledger.
Open Scope Z_scope.

(** ** Money and dates *)

(** [models.DecimalField(max_digits=10, decimal_places=2)]: a value is an
    integer number of cents whose absolute value has at most ten digits. *)
Definition max_digits : Z := 10.
Definition decimal_places : Z := 2.

Definition decimal_fits (x : Z) : bool := Z.abs x <? 10 ^ max_digits.

(** [models.DateField]: a day number; [timedelta(days=n)] adds [n]. *)
Abbreviation date := Z (only parsing).

(** ** Errors raised by the code or by DRF on its behalf *)

Inductive verror :=
| InvalidPk            (** [PrimaryKeyRelatedField]: object not in queryset *)
| RequiredField        (** a required field is missing *)
| DecimalInvalid       (** [DecimalField]: more digits than allowed *)
| NotANumber           (** [DecimalField]: "A valid number is required." *)
| MaxLength            (** [CharField]: longer than [max_length] *)
| NegativeDebt         (** "Сумма долга не может быть отрицательной." *)
| DueDateNotFuture     (** "Срок должен быть позже сегодняшнего дня." *)
| NoCompany            (** "У пользователя нет связанной компании." *)
| NotUnique            (** [UniqueValidator]: the value is already stored *)
| InvalidChoice        (** [ChoiceField]: not one of the choices *)
| InvalidEmail         (** [EmailField]: not an e-mail address *)
| InvalidUsername      (** [UnicodeUsernameValidator] refused the username *)
| WeakPassword         (** [validate_password] refused the password *)
| PasswordMismatch     (** "Пароли не совпадают!" *)
| BadCredentials       (** "Неверные учетные данные" *)
| InvalidToken.        (** "Невалидный refresh-токен" *)

Inductive error :=
| NotAuthenticated     (** [permissions.IsAuthenticated] refused *)
| ValidationError (v : verror)
| ValueError           (** [Payment.save]: payment exceeds remaining debt *)
| TypeError            (** [None < 0] in [DebtSerializer.validate] *)
| PermissionDenied     (** [rest_framework.exceptions.PermissionDenied] *)
| NotFound             (** [get_object_or_404] / [get_object] *)
| IntegrityError       (** a database constraint refused the write *)
| KeyError             (** [data['email']] on a body without the key *)
| AttributeError       (** [None.lower()] *)
| DoesNotExist.        (** a related object's row is gone when first accessed *)

#[export] Instance verror_eq_dec : EqDecision verror.
Proof. solve_decision. Defined.
#[export] Instance error_eq_dec : EqDecision error.
Proof. solve_decision. Defined.

(** ** The result monad *)

Inductive result (A : Type) :=
| Ok (a : A)
| Err (e : error).
Arguments Ok {A} a.
Arguments Err {A} e.

#[export] Instance result_ret : MRet result := λ A a, Ok a.
#[export] Instance result_bind : MBind result :=
  λ A B f r, match r with Ok a => f a | Err e => Err e end.

Definition of_option {A} (e : error) (o : option A) : result A :=
  match o with Some a => Ok a | None => Err e end.

Notation "'raise' e" := (Err e) (at level 10) : ledger_scope.
Notation "'check' b 'else' e ; k" := (if b then k else Err e)
  (at level 10, b at level 100, e at level 100, k at level 200)
  : ledger_scope.

Open Scope ledger_scope.

Lemma bind_Ok {A B} (m : result A) (f : A → result B) b :
  (m ≫= f) = Ok b ↔ ∃ a, m = Ok a ∧ f a = Ok b.
Proof.
  destruct m as [a|e]; simpl; split.
  - eauto.
  - intros (? & [= ->] & ?); done.
  - discriminate.
  - by intros (? & ? & ?).
Qed.

Lemma bind_Err {A B} (m : result A) (f : A → result B) e :
  (m ≫= f) = Err e ↔ m = Err e ∨ ∃ a, m = Ok a ∧ f a = Err e.
Proof.
  destruct m as [a|e']; simpl; split.
  - eauto.
  - by intros [|(? & [= ->] & ?)].
  - intros [= ->]; auto.
  - by intros [[= ->]|(? & ? & ?)].
Qed.

Lemma of_option_Ok {A} e (o : option A) a : of_option e o = Ok a ↔ o = Some a.
Proof. destruct o; simpl; split; intros; congruence. Qed.

Lemma of_option_Err {A} e e' (o : option A) : of_option e o = Err e' → o = None ∧ e' = e.
Proof. destruct o; simpl; intros; split; congruence. Qed.

(** Split every [match] on a [result] or an [option] in hypotheses and goal
    of the shape produced by unfolding a handler. *)
Ltac result_simpl :=
  repeat match goal with
  | H : Ok _ = Ok _ |- _ => injection H as H
  | H : Err _ = Ok _ |- _ => discriminate H
  | H : Ok _ = Err _ |- _ => discriminate H
  | H : Err _ = Err _ |- _ => injection H as H
  | H : (_ ≫= _) = Ok _ |- _ => apply bind_Ok in H as (? & ? & ?)
  | H : of_option _ _ = Ok _ |- _ => apply of_option_Ok in H
  end.

(** Case on every [bool_decide] of the goal, discard the contradictory
    branches and simplify the Boolean connectives that remain. *)
Ltac bool_cases :=
  repeat (case_bool_decide; simpl in *);
  try (exfalso; lia);
  rewrite ?orb_true_r, ?orb_false_r, ?andb_true_r, ?andb_false_r.

(** Invert a hypothesis [H : handler ... = Ok _] (or [= Err _]): split
    every [bool_decide] and every [match] it contains, keep the branches
    that agree with [H] and substitute the equations they give. *)
Ltac result_inv H :=
  repeat (unfold mbind, result_bind, option_bind, of_option in H; simpl in H;
    match type of H with
    | Err _ = Ok _ => discriminate H
    | Ok _ = Err _ => discriminate H
    | context [@bool_decide ?P ?dec] => destruct (@bool_decide_reflect P dec)
    | context [match ?x with _ => _ end] =>
        lazymatch x with
        | context [match _ with _ => _ end] => fail
        | _ => destruct x eqn:?
        end
    end);
  simplify_eq/=.

(** ** Sums over finite maps *)

Section map_sum.
Context {K A : Type} `{Countable K}.

(** [Σ (g k v) for k, v in m.items()] *)
Definition map_sumZ (g : K → A → Z) (m : gmap K A) : Z :=
  map_fold (λ k v acc, g k v + acc) 0 m.

Lemma map_sumZ_empty g : map_sumZ g ∅ = 0.
Proof. unfold map_sumZ. apply map_fold_empty. Qed.

Lemma map_sumZ_insert_fresh g m i x :
  m !! i = None → map_sumZ g (<[i:=x]> m) = g i x + map_sumZ g m.
Proof. intros. unfold map_sumZ. rewrite map_fold_insert_L; [done | intros; lia | done]. Qed.

Lemma map_sumZ_delete g m i x :
  m !! i = Some x → map_sumZ g m = g i x + map_sumZ g (delete i m).
Proof. intros. unfold map_sumZ. rewrite (map_fold_delete_L _ _ i x m); [done | intros; lia | done]. Qed.

Lemma map_sumZ_insert_update g m i x y :
  m !! i = Some y → map_sumZ g (<[i:=x]> m) = map_sumZ g m - g i y + g i x.
Proof.
  intros Hy. rewrite (map_sumZ_delete g m i y Hy), <-insert_delete_eq.
  rewrite map_sumZ_insert_fresh by apply lookup_delete_eq. lia.
Qed.

Lemma map_sumZ_ext g g' m :
  (∀ i x, m !! i = Some x → g i x = g' i x) → map_sumZ g m = map_sumZ g' m.
Proof.
  induction m as [|i x m Hi IH] using map_ind; intros Hg.
  - by rewrite !map_sumZ_empty.
  - rewrite !map_sumZ_insert_fresh by done.
    rewrite Hg by apply lookup_insert_eq. f_equal.
    apply IH. intros j y Hj. apply Hg.
    rewrite lookup_insert_ne; [done|]. intros ->; congruence.
Qed.

Lemma map_sumZ_zero g m :
  (∀ i x, m !! i = Some x → g i x = 0) → map_sumZ g m = 0.
Proof.
  intros Hg. rewrite (map_sumZ_ext g (λ _ _, 0)) by done.
  induction m as [|i x m Hi IH] using map_ind.
  - apply map_sumZ_empty.
  - rewrite map_sumZ_insert_fresh by done. rewrite IH; [done|].
    intros j y Hj. apply Hg. rewrite lookup_insert_ne; [done|]. intros ->; congruence.
Qed.
End map_sum.

Section map_sum_views.
Context {K A B : Type} `{Countable K}.

(** The sum over a filtered map: the entries that fail the filter count 0. *)
Lemma map_sumZ_filter (P : K * A → Prop) `{∀ x, Decision (P x)} (g : K → A → Z) (m : gmap K A) :
  map_sumZ g (filter P m) = map_sumZ (λ k v, if bool_decide (P (k, v)) then g k v else 0) m.
Proof.
  induction m as [|i x m Hi IH] using map_ind.
  - by rewrite map_filter_empty, !map_sumZ_empty.
  - rewrite (map_sumZ_insert_fresh _ m) by done. case_bool_decide.
    + rewrite map_filter_insert_True by done.
      rewrite map_sumZ_insert_fresh by (apply map_lookup_filter_None; by left). by rewrite IH.
    + rewrite map_filter_insert_False, delete_id by done. by rewrite IH.
Qed.

(** The sum over a map transformed entry by entry. *)
Lemma map_sumZ_imap (f : K → A → B) (g : K → B → Z) (m : gmap K A) :
  map_sumZ g (map_imap (λ k v, Some (f k v)) m) = map_sumZ (λ k v, g k (f k v)) m.
Proof.
  induction m as [|i x m Hi IH] using map_ind.
  - by rewrite map_imap_empty, !map_sumZ_empty.
  - rewrite map_imap_insert_Some with (y := f i x) by done.
    rewrite !map_sumZ_insert_fresh; [by rewrite IH | done |].
    by rewrite map_lookup_imap, Hi.
Qed.
End map_sum_views.

Create HintDb ledger discriminated.
Create Rewrite HintDb ledger_rw.
#[export] Hint Resolve map_sumZ_empty map_sumZ_insert_fresh : ledger.
#[export] Hint Rewrite @map_sumZ_empty : ledger_rw.
#[export] Hint Rewrite @lookup_insert_eq @lookup_empty : ledger_rw.
