(* ===== verification/Models.v ===== *)
(** * Models: the Django model classes and the database

    One Module per Django app ([companies], [users], [clients], [debts],
    [payments]) holds the record of its model class, field for field, and
    the in-memory instance Python manipulates.  A [debts.Debt] instance
    carries its related [clients.Client] instance ([self.client], cached by
    the ORM on first access) and a [payments.Payment] carries its
    [debts.Debt] instance: [Debt.save] and [Payment.save] mutate these cached
    objects and write them back, so the copy an instance holds and the row
    in the database are distinct values here, as they are in Django.

    The database is [Store], one [gmap] per table keyed by primary key.
    [Model.save] (Django's generic save, [super().save()]) writes every
    field of the instance to its row ([UPDATE] when the row exists,
    [INSERT] otherwise); for [Debt], whose key is an AutoField, the first
    save allocates the next value of the table's sequence. *)

From S2P Require Import Prelude.

Module companies.
(** [companies/models.py] [class Company(BaseModel)]. *)
Record Company := mkCompany { id : N; name : string }.
End companies.

Module users.
(** [users/models.py]: [SELLER, MANAGER, ADMIN] and [USER_ROLES]. *)
Inductive role := SELLER | MANAGER.

(** [class User(AbstractUser, BaseModel)]: the fields the backend reads or
    writes.  [password] is the stored (hashed) value of [AbstractUser];
    [last_login], [is_staff], [is_active], [date_joined] and [photo] are
    never read by the code. *)
Record User := mkUser {
  id : N;
  company : option N;
  user_roles : role;
  email : option string;
  username : string;
  password : string;
  first_name : string;
  last_name : string;
  phone_number : option string
}.
End users.

Module clients.
(** [clients/models.py] [class Client(BaseModel)]. *)
Record Client := mkClient {
  id : N;
  name : string;
  phone : string;
  balanse : Z;
  company : option N
}.

Definition set_balanse (b : Z) (c : Client) : Client :=
  mkClient c.(id) c.(name) c.(phone) b c.(company).
End clients.

Module debts.
(** [debts/models.py] [class Debt(models.Model)] as a Python instance:
    [id] is [None] until the first save (AutoField), [client] is the
    related instance. *)
Record Debt := mkDebt {
  id : option N;
  client : clients.Client;
  total_amount : Z;
  remaining_amount : Z;
  due_date : date;
  is_paid : bool
}.

(** The row of table [debts_debt]: the foreign key holds the client's id. *)
Record Row := mkRow {
  client_id : N;
  row_total_amount : Z;
  row_remaining_amount : Z;
  row_due_date : date;
  row_is_paid : bool
}.

Definition row_of (d : Debt) : Row :=
  mkRow d.(client).(clients.id) d.(total_amount) d.(remaining_amount)
        d.(due_date) d.(is_paid).

Definition set_id (i : N) (d : Debt) : Debt :=
  mkDebt (Some i) d.(client) d.(total_amount) d.(remaining_amount) d.(due_date) d.(is_paid).
Definition set_client (c : clients.Client) (d : Debt) : Debt :=
  mkDebt d.(id) c d.(total_amount) d.(remaining_amount) d.(due_date) d.(is_paid).
Definition set_total_amount (t : Z) (d : Debt) : Debt :=
  mkDebt d.(id) d.(client) t d.(remaining_amount) d.(due_date) d.(is_paid).
Definition set_remaining_amount (r : Z) (d : Debt) : Debt :=
  mkDebt d.(id) d.(client) d.(total_amount) r d.(due_date) d.(is_paid).
Definition set_due_date (dd : date) (d : Debt) : Debt :=
  mkDebt d.(id) d.(client) d.(total_amount) d.(remaining_amount) dd d.(is_paid).
Definition set_is_paid (p : bool) (d : Debt) : Debt :=
  mkDebt d.(id) d.(client) d.(total_amount) d.(remaining_amount) d.(due_date) p.
End debts.

Module payments.
(** [payments/models.py] [class Payment(BaseModel)] as a Python instance:
    [debt] is the related [Debt] instance, [user] the recording user's id. *)
Record Payment := mkPayment {
  id : N;
  debt : debts.Debt;
  amount : Z;
  user : N
}.

(** The row of table [payments_payment]. *)
Record Row := mkRow {
  debt_id : N;
  row_amount : Z;
  user_id : N
}.

Definition set_debt (d : debts.Debt) (p : Payment) : Payment :=
  mkPayment p.(id) d p.(amount) p.(user).
Definition set_amount (a : Z) (p : Payment) : Payment :=
  mkPayment p.(id) p.(debt) a p.(user).
End payments.

(** ** The database *)

Record Store := mkStore {
  clients_tbl : gmap N clients.Client;
  debts_tbl : gmap N debts.Row;
  payments_tbl : gmap N payments.Row;
  debt_seq : N                      (** next value of the debts id sequence *)
}.

Definition empty_store : Store := mkStore ∅ ∅ ∅ 1.

Definition set_clients_tbl (t : gmap N clients.Client) (db : Store) : Store :=
  mkStore t db.(debts_tbl) db.(payments_tbl) db.(debt_seq).
Definition set_debts_tbl (t : gmap N debts.Row) (db : Store) : Store :=
  mkStore db.(clients_tbl) t db.(payments_tbl) db.(debt_seq).
Definition set_payments_tbl (t : gmap N payments.Row) (db : Store) : Store :=
  mkStore db.(clients_tbl) db.(debts_tbl) t db.(debt_seq).

(** [client.save()]: every field of the instance is written to its row. *)
Definition client_save (c : clients.Client) (db : Store) : Store :=
  set_clients_tbl (<[c.(clients.id) := c]> db.(clients_tbl)) db.

(** [super().save()] in [Debt.save]: an instance without id is inserted
    under the next value of the sequence and receives that id; otherwise
    its row is overwritten. *)
Definition debt_model_save (d : debts.Debt) (db : Store) : debts.Debt * Store :=
  match d.(debts.id) with
  | None =>
      let i := db.(debt_seq) in
      (debts.set_id i d,
       mkStore db.(clients_tbl) (<[i := debts.row_of d]> db.(debts_tbl))
               db.(payments_tbl) (i + 1)%N)
  | Some i => (d, set_debts_tbl (<[i := debts.row_of d]> db.(debts_tbl)) db)
  end.

(** [super().save()] in [Payment.save]. *)
Definition payment_model_save (p : payments.Payment) (db : Store) : Store :=
  set_payments_tbl
    (<[p.(payments.id) := payments.mkRow (default 0%N p.(payments.debt).(debts.id))
                                         p.(payments.amount) p.(payments.user)]>
       db.(payments_tbl)) db.

(** ** Loading instances: [Model.objects.get(pk=...)] and the related
    object fetched on first attribute access. *)

Definition get_client (db : Store) (cid : N) : option clients.Client :=
  db.(clients_tbl) !! cid.

Definition get_debt (db : Store) (did : N) : option debts.Debt :=
  r ← db.(debts_tbl) !! did;
  c ← db.(clients_tbl) !! r.(debts.client_id);
  Some (debts.mkDebt (Some did) c r.(debts.row_total_amount) r.(debts.row_remaining_amount)
                     r.(debts.row_due_date) r.(debts.row_is_paid)).

Definition get_payment (db : Store) (pid : N) : option payments.Payment :=
  r ← db.(payments_tbl) !! pid;
  d ← get_debt db r.(payments.debt_id);
  Some (payments.mkPayment pid d r.(payments.row_amount) r.(payments.user_id)).

(** [BaseModel.id = UUIDField(default=uuid.uuid4)]: a key not yet used. *)
Definition fresh_payment_id (db : Store) : N := fresh (dom db.(payments_tbl)).
Definition fresh_client_id (db : Store) : N := fresh (dom db.(clients_tbl)).

(** ** Lemmas on loading *)

Lemma fresh_payment_id_fresh db : db.(payments_tbl) !! fresh_payment_id db = None.
Proof. pose proof (is_fresh (dom db.(payments_tbl))). by apply not_elem_of_dom. Qed.

Lemma fresh_client_id_fresh db : db.(clients_tbl) !! fresh_client_id db = None.
Proof. pose proof (is_fresh (dom db.(clients_tbl))). by apply not_elem_of_dom. Qed.

(** Unfold the field setters and row builders so that records compute. *)
Ltac unfold_model :=
  unfold debts.row_of, debts.set_id, debts.set_client, debts.set_total_amount,
    debts.set_remaining_amount, debts.set_due_date, debts.set_is_paid,
    payments.set_debt, payments.set_amount, clients.set_balanse,
    set_clients_tbl, set_debts_tbl, set_payments_tbl in *.

Lemma get_debt_inv db k d :
  get_debt db k = Some d →
  ∃ r c, db.(debts_tbl) !! k = Some r ∧ db.(clients_tbl) !! r.(debts.client_id) = Some c ∧
    d = debts.mkDebt (Some k) c r.(debts.row_total_amount) r.(debts.row_remaining_amount)
                     r.(debts.row_due_date) r.(debts.row_is_paid).
Proof.
  unfold get_debt. intros (r & Hr & Hd)%bind_Some.
  apply bind_Some in Hd as (c & Hc & [= <-]). eauto.
Qed.
