(* ===== verification/DebtModel.v ===== *)
(** * DebtModel: [debts/models.py]

    [default_due_date] and the overridden [Debt.save]: the creation-time
    balance increase guarded by [if not self.id], the paid flag, and the
    generic row write.  The theorems give the effect of a save on every
    branch (new instance, existing instance) and show that re-saving an
    existing debt leaves the clients table alone (spec section 8, item 5). *)

From S2P Require Import Prelude Models.

(** [def default_due_date(): return now().date() + timedelta(days=30)] *)
Definition default_due_date (today : date) : date := today + 30.

(** [if not self.id]: Python's truth test on the AutoField value, where
    both [None] and [0] are false. *)
Definition is_new (d : debts.Debt) : bool :=
  match d.(debts.id) with None => true | Some i => bool_decide (i = 0%N) end.

(** [Debt.save] (lines 17-25):
<<
    if not self.id:
        self.remaining_amount = self.total_amount
        self.client.balanse += self.total_amount
        self.client.save()
    if self.remaining_amount == 0:
        self.is_paid = True
    super().save(...)
>> *)
Definition Debt_save (d : debts.Debt) (db : Store) : debts.Debt * Store :=
  let '(d, db) :=
    if is_new d then
      let d := debts.set_remaining_amount d.(debts.total_amount) d in
      let c := clients.set_balanse
                 (d.(debts.client).(clients.balanse) + d.(debts.total_amount))
                 d.(debts.client) in
      (debts.set_client c d, client_save c db)
    else (d, db) in
  let d := if bool_decide (d.(debts.remaining_amount) = 0)
           then debts.set_is_paid true d else d in
  debt_model_save d db.

(** ** Effect of a save *)

(** The row a new debt is stored as. *)
Definition new_debt_row (d : debts.Debt) : debts.Row :=
  debts.mkRow d.(debts.client).(clients.id) d.(debts.total_amount) d.(debts.total_amount)
              d.(debts.due_date) (d.(debts.is_paid) || bool_decide (d.(debts.total_amount) = 0)).

(** The client instance after the creation-time increase. *)
Definition charged_client (d : debts.Debt) : clients.Client :=
  clients.set_balanse (d.(debts.client).(clients.balanse) + d.(debts.total_amount))
                      d.(debts.client).

Lemma paid_update_id d :
  (if bool_decide (d.(debts.remaining_amount) = 0)
   then debts.set_is_paid true d else d).(debts.id) = d.(debts.id).
Proof. by case_bool_decide. Qed.

Lemma paid_update_row d :
  debts.row_of (if bool_decide (d.(debts.remaining_amount) = 0)
                then debts.set_is_paid true d else d) =
  debts.mkRow d.(debts.client).(clients.id) d.(debts.total_amount) d.(debts.remaining_amount)
              d.(debts.due_date) (d.(debts.is_paid) || bool_decide (d.(debts.remaining_amount) = 0)).
Proof.
  destruct d as [? [] ? ? ? []]; unfold debts.row_of; simpl; by case_bool_decide.
Qed.

(** A debt saved for the first time ([id is None]) is inserted under the
    next sequence value with [remaining_amount = total_amount] and
    [is_paid] set when the total is zero, and its client's row holds the
    old balance plus the total.  Nothing else changes. *)
Lemma Debt_save_new d db :
  d.(debts.id) = None →
  (Debt_save d db).2 =
    mkStore (<[d.(debts.client).(clients.id) := charged_client d]> db.(clients_tbl))
            (<[db.(debt_seq) := new_debt_row d]> db.(debts_tbl))
            db.(payments_tbl) (db.(debt_seq) + 1)%N.
Proof.
  intros Hid. destruct d as [id c t r due p]; simpl in Hid; subst id.
  unfold Debt_save, is_new, debt_model_save, new_debt_row, charged_client; simpl.
  unfold_model; simpl; bool_cases; done.
Qed.

(** The instance returned for a new debt carries the allocated id. *)
Lemma Debt_save_new_id d db :
  d.(debts.id) = None → (Debt_save d db).1.(debts.id) = Some db.(debt_seq).
Proof.
  intros Hid. destruct d as [id c t r due p]; simpl in Hid; subst id.
  unfold Debt_save, is_new, debt_model_save; simpl. by case_bool_decide.
Qed.

(** Saving an instance that already has a (non-zero) id only rewrites its
    own row, with the paid flag raised when nothing remains. *)
Lemma Debt_save_existing d db i :
  d.(debts.id) = Some i → i ≠ 0%N →
  (Debt_save d db).2 =
    set_debts_tbl
      (<[i := debts.mkRow d.(debts.client).(clients.id) d.(debts.total_amount)
                (d.(debts.remaining_amount)) d.(debts.due_date)
                (d.(debts.is_paid) || bool_decide (d.(debts.remaining_amount) = 0))]>
         db.(debts_tbl)) db.
Proof.
  intros Hid Hi. destruct d as [id c t r due p]; simpl in Hid; subst id.
  unfold Debt_save, is_new, debt_model_save; simpl. rewrite bool_decide_false by done.
  unfold_model; simpl; bool_cases; done.
Qed.

(** [Debt.save] writes debts and clients only. *)
Lemma Debt_save_payments d db : (Debt_save d db).2.(payments_tbl) = db.(payments_tbl).
Proof. unfold Debt_save, debt_model_save. by repeat case_match; simplify_eq. Qed.

(** C6 (spec 8.5, idempotent re-save): re-saving a debt that already has
    a stored identifier does not change any client's balance: the
    clients table is left as it was. *)
Theorem Debt_resave_keeps_clients d db i :
  d.(debts.id) = Some i → i ≠ 0%N →
  (Debt_save d db).2.(clients_tbl) = db.(clients_tbl).
Proof. intros Hid Hi. by rewrite (Debt_save_existing d db i Hid Hi). Qed.

Lemma Debt_resave_keeps_clients_witness :
  (Debt_save (debts.mkDebt (Some 3%N) (clients.mkClient 7 "Ali" "+998" 100 (Some 1%N)) 100 60 40 false)
             (client_save (clients.mkClient 7 "Ali" "+998" 60 (Some 1%N)) empty_store)).2.(clients_tbl)
  = {[7%N := clients.mkClient 7 "Ali" "+998" 60 (Some 1%N)]}.
Proof. rewrite (Debt_resave_keeps_clients _ _ 3%N); [reflexivity | reflexivity | lia]. Defined.
