(* ===== verification/PaymentModel.v ===== *)
(** * PaymentModel: [payments/models.py]

    The overridden [Payment.save]: the guard [remaining_amount >= amount],
    the in-place decrements of the cached debt and client instances, then
    three writes in this order: the payment row, the debt ([Debt.save],
    which may raise the paid flag) and the client.  The theorems give the
    result on both branches. *)

From S2P Require Import Prelude Models DebtModel.

(** [Payment.save] (lines 17-25):
<<
    if self.debt.remaining_amount >= self.amount:
        self.debt.remaining_amount -= self.amount
        self.debt.client.balanse -= self.amount
    else:
        raise ValueError("Payment exceeds remaining debt amount.")
    super().save(...)
    self.debt.save()
    self.debt.client.save()
>> *)
Definition Payment_save (p : payments.Payment) (db : Store)
    : result (payments.Payment * Store) :=
  let d := p.(payments.debt) in
  check bool_decide (p.(payments.amount) ≤ d.(debts.remaining_amount)) else ValueError;
  let d := debts.set_remaining_amount (d.(debts.remaining_amount) - p.(payments.amount)) d in
  let d := debts.set_client
             (clients.set_balanse (d.(debts.client).(clients.balanse) - p.(payments.amount))
                                  d.(debts.client)) d in
  let p := payments.set_debt d p in
  let db := payment_model_save p db in
  let '(d, db) := Debt_save p.(payments.debt) db in
  let p := payments.set_debt d p in
  Ok (p, client_save p.(payments.debt).(debts.client) db).

(** The debt row after a payment of [a] on the instance [d]. *)
Definition paid_debt_row (d : debts.Debt) (a : Z) : debts.Row :=
  let r := d.(debts.remaining_amount) - a in
  debts.mkRow d.(debts.client).(clients.id) d.(debts.total_amount) r d.(debts.due_date)
              (d.(debts.is_paid) || bool_decide (r = 0)).

(** The client instance after a payment of [a] on the debt [d]. *)
Definition debited_client (d : debts.Debt) (a : Z) : clients.Client :=
  clients.set_balanse (d.(debts.client).(clients.balanse) - a) d.(debts.client).

(** A payment that does not exceed the remaining amount of a stored debt
    writes exactly three rows: the payment, the debt with the amount
    subtracted (paid when nothing remains) and the client with the amount
    subtracted from its balance. *)
Lemma Payment_save_ok p db i :
  p.(payments.debt).(debts.id) = Some i → i ≠ 0%N →
  p.(payments.amount) ≤ p.(payments.debt).(debts.remaining_amount) →
  ∃ p', Payment_save p db = Ok (p',
    mkStore
      (<[p.(payments.debt).(debts.client).(clients.id) :=
           debited_client p.(payments.debt) p.(payments.amount)]> db.(clients_tbl))
      (<[i := paid_debt_row p.(payments.debt) p.(payments.amount)]> db.(debts_tbl))
      (<[p.(payments.id) := payments.mkRow i p.(payments.amount) p.(payments.user)]>
         db.(payments_tbl))
      db.(debt_seq)).
Proof.
  intros Hid Hi Ha. destruct p as [pid [did c t r due paid] a u]; simpl in *; subst did.
  unfold Payment_save; simpl. rewrite bool_decide_true by done.
  unfold Debt_save, is_new, debt_model_save, payment_model_save, client_save,
    paid_debt_row, debited_client; simpl.
  rewrite bool_decide_false by done. unfold_model; simpl.
  bool_cases; eexists; reflexivity.
Qed.

(** The guard: a payment larger than the remaining amount raises
    [ValueError] before anything is written. *)
Lemma Payment_save_overdraw p db :
  p.(payments.debt).(debts.remaining_amount) < p.(payments.amount) →
  Payment_save p db = Err ValueError.
Proof. intros Ha. unfold Payment_save. by rewrite bool_decide_false by lia. Qed.
