(* ===== verification/Invariant.v ===== *)
(** * Invariant: the consistency invariant of the store

    [ledger_ok] is spec section 8 (items 1-3 and the payments invariant of
    section 3) stated over the whole store, with the referential facts the
    arithmetic needs: every client row is keyed by its own id, every debt
    row points at a stored client, every payment row at a stored debt, and
    every debt id lies below the AutoField sequence.  It is decidable, so a
    concrete store is checked by evaluation.  The sums it compares are
    [map_sumZ] over the debts and payments tables. *)

From S2P Require Import Prelude Models.

(** The share of debt row [r] in the balance of client [cid]. *)
Definition debt_share (cid : N) (_ : N) (r : debts.Row) : Z :=
  if bool_decide (r.(debts.client_id) = cid) then r.(debts.row_remaining_amount) else 0.

(** [Σ remaining_amount for debt in client.debts] *)
Definition client_debt_total (t : gmap N debts.Row) (cid : N) : Z :=
  map_sumZ (debt_share cid) t.

Definition payment_share (did : N) (_ : N) (p : payments.Row) : Z :=
  if bool_decide (p.(payments.debt_id) = did) then p.(payments.row_amount) else 0.

(** [Σ amount for payment in debt.payments] *)
Definition debt_paid_total (t : gmap N payments.Row) (did : N) : Z :=
  map_sumZ (payment_share did) t.

Lemma debt_share_same cid k r :
  r.(debts.client_id) = cid → debt_share cid k r = r.(debts.row_remaining_amount).
Proof. intros. unfold debt_share. by rewrite bool_decide_true. Qed.
Lemma debt_share_other cid k r : r.(debts.client_id) ≠ cid → debt_share cid k r = 0.
Proof. intros. unfold debt_share. by rewrite bool_decide_false. Qed.
Lemma payment_share_same did k p :
  p.(payments.debt_id) = did → payment_share did k p = p.(payments.row_amount).
Proof. intros. unfold payment_share. by rewrite bool_decide_true. Qed.
Lemma payment_share_other did k p : p.(payments.debt_id) ≠ did → payment_share did k p = 0.
Proof. intros. unfold payment_share. by rewrite bool_decide_false. Qed.

Record ledger_ok (db : Store) : Prop := {
  ok_client_keys : map_Forall (λ k c, c.(clients.id) = k) db.(clients_tbl);
  ok_balance : map_Forall (λ k c, c.(clients.balanse) = client_debt_total db.(debts_tbl) k)
                 db.(clients_tbl);
  ok_debt_client : map_Forall (λ _ r, is_Some (db.(clients_tbl) !! r.(debts.client_id)))
                     db.(debts_tbl);
  ok_bounds : map_Forall (λ _ r, 0 ≤ r.(debts.row_remaining_amount) ≤ r.(debts.row_total_amount))
                db.(debts_tbl);
  ok_paid : map_Forall (λ _ r, r.(debts.row_is_paid) = bool_decide (r.(debts.row_remaining_amount) = 0))
              db.(debts_tbl);
  ok_payments : map_Forall (λ k r, debt_paid_total db.(payments_tbl) k =
                               r.(debts.row_total_amount) - r.(debts.row_remaining_amount))
                  db.(debts_tbl);
  ok_payment_debt : map_Forall (λ _ p, is_Some (db.(debts_tbl) !! p.(payments.debt_id)))
                      db.(payments_tbl);
  ok_seq : map_Forall (λ k _, (0 < k < db.(debt_seq))%N) db.(debts_tbl);
  ok_seq_pos : (0 < db.(debt_seq))%N
}.

Definition ledger_ok_prop (db : Store) : Prop :=
  map_Forall (λ k c, c.(clients.id) = k) db.(clients_tbl) ∧
  map_Forall (λ k c, c.(clients.balanse) = client_debt_total db.(debts_tbl) k) db.(clients_tbl) ∧
  map_Forall (λ _ r, is_Some (db.(clients_tbl) !! r.(debts.client_id))) db.(debts_tbl) ∧
  map_Forall (λ _ r, 0 ≤ r.(debts.row_remaining_amount) ≤ r.(debts.row_total_amount)) db.(debts_tbl) ∧
  map_Forall (λ _ r, r.(debts.row_is_paid) = bool_decide (r.(debts.row_remaining_amount) = 0))
    db.(debts_tbl) ∧
  map_Forall (λ k r, debt_paid_total db.(payments_tbl) k =
                     r.(debts.row_total_amount) - r.(debts.row_remaining_amount)) db.(debts_tbl) ∧
  map_Forall (λ _ p, is_Some (db.(debts_tbl) !! p.(payments.debt_id))) db.(payments_tbl) ∧
  map_Forall (λ k _, (0 < k < db.(debt_seq))%N) db.(debts_tbl) ∧
  (0 < db.(debt_seq))%N.

Lemma ledger_ok_iff db : ledger_ok db ↔ ledger_ok_prop db.
Proof.
  split; [intros []; unfold ledger_ok_prop; by split_and! | intros (?&?&?&?&?&?&?&?&?); by constructor].
Qed.

(** The invariant is decidable, so it can be evaluated on a concrete store. *)
#[export] Instance ledger_ok_dec db : Decision (ledger_ok db).
Proof.
  destruct (decide (ledger_ok_prop db)) as [H|H]; [left | right];
    by rewrite ledger_ok_iff.
Defined.

Lemma client_debt_total_unref t cid :
  map_Forall (λ _ r, r.(debts.client_id) ≠ cid) t → client_debt_total t cid = 0.
Proof.
  intros Ht. apply map_sumZ_zero. intros i r Hi. unfold debt_share.
  by rewrite bool_decide_false by (apply (Ht i r Hi)).
Qed.

Lemma debt_paid_total_unref t did :
  map_Forall (λ _ p, p.(payments.debt_id) ≠ did) t → debt_paid_total t did = 0.
Proof.
  intros Ht. apply map_sumZ_zero. intros i p Hi. unfold payment_share.
  by rewrite bool_decide_false by (apply (Ht i p Hi)).
Qed.

Lemma ledger_empty : ledger_ok empty_store.
Proof. constructor; try (simpl; lia); apply map_Forall_empty. Qed.

Lemma seq_fresh db : ledger_ok db → db.(debts_tbl) !! db.(debt_seq) = None.
Proof.
  intros Hok. destruct (db.(debts_tbl) !! db.(debt_seq)) as [r|] eqn:Hr; [|done].
  pose proof (ok_seq db Hok _ _ Hr) as Hk. simpl in Hk. lia.
Qed.

Lemma map_Forall_is_Some_insert {K A B} `{Countable K} (m : gmap K A) (t : gmap N B) i x
    (f : A → N) :
  map_Forall (λ _ a, is_Some (t !! f a)) m →
  map_Forall (λ _ a, is_Some (<[i:=x]> t !! f a)) m.
Proof.
  intros Hm j a Hj. apply lookup_insert_is_Some'. right. by apply (Hm j a).
Qed.

Lemma ledger_get_debt db k r :
  ledger_ok db → db.(debts_tbl) !! k = Some r →
  ∃ c, db.(clients_tbl) !! r.(debts.client_id) = Some c ∧
       get_debt db k = Some (debts.mkDebt (Some k) c r.(debts.row_total_amount)
                               r.(debts.row_remaining_amount) r.(debts.row_due_date)
                               r.(debts.row_is_paid)).
Proof.
  intros Hok Hr. destruct (ok_debt_client db Hok k r Hr) as [c Hc].
  exists c. split; [done|]. unfold get_debt. by rewrite Hr; simpl; rewrite Hc.
Qed.

Lemma ledger_ok_payments_at db k r :
  ledger_ok db → db.(debts_tbl) !! k = Some r →
  debt_paid_total db.(payments_tbl) k = r.(debts.row_total_amount) - r.(debts.row_remaining_amount).
Proof. intros Hok Hr. exact (ok_payments db Hok k r Hr). Qed.

