(* ===== verification/Serializers.v ===== *)
(** * Serializers: [*/serializers.py]

    Request data is the parsed JSON body: one [option] per writable field
    ([None] when the key is absent).  [ModelSerializer.is_valid] first runs
    each field's validation ([PrimaryKeyRelatedField] looks the key up in its
    queryset, [DecimalField] checks the digits, [CharField] the length),
    then the serializer's [validate]; [save] calls [create] or [update].  The
    first error found is returned (DRF gathers all field errors into one
    [ValidationError]; the kind of the error is the same). *)

From S2P Require Import Prelude Models DebtModel PaymentModel.

(** ** DRF fields *)

(** [PrimaryKeyRelatedField(queryset=qs)]: the key must name an object of
    [qs]; [required] unless the update is partial. *)
Definition pk_related {A} (qs : N → option A) (pk : N) : result A :=
  of_option (ValidationError InvalidPk) (qs pk).

(** [DecimalField(max_digits=10, decimal_places=2)]. *)
Definition decimal_field (x : Z) : result Z :=
  check decimal_fits x else ValidationError DecimalInvalid; Ok x.

(** [CharField(max_length=n)]. *)
Definition char_field (n : nat) (s : string) : result string :=
  check bool_decide (String.length s ≤ n)%nat else ValidationError MaxLength; Ok s.

(** An optional field: validated when present; when absent, a required
    field is an error and an optional one stays absent. *)
Definition opt_field {A B} (required : bool) (f : A → result B) (x : option A)
    : result (option B) :=
  match x with
  | Some a => b ← f a; Ok (Some b)
  | None => check negb required else ValidationError RequiredField; Ok None
  end.

(** ** [debts/serializers.py] [DebtSerializer] *)

Record DebtData := mkDebtData {
  data_client : option N;
  data_total_amount : option Z;
  data_due_date : option date
}.

Record DebtAttrs := mkDebtAttrs {
  attr_client : option clients.Client;
  attr_total_amount : option Z;
  attr_due_date : option date
}.

(** [__init__] (lines 18-22): the [client] field's queryset is
    [Client.objects.filter(company=request.user.company)]; with
    [company = None] the ORM filters on [company IS NULL]. *)
Definition debt_client_queryset (db : Store) (u : users.User) (k : N)
    : option clients.Client :=
  c ← db.(clients_tbl) !! k;
  if bool_decide (c.(clients.company) = u.(users.company)) then Some c else None.

(** Field validation; [partial] is [True] for [PATCH]. *)
Definition DebtSerializer_fields (db : Store) (u : users.User) (partial : bool)
    (data : DebtData) : result DebtAttrs :=
  c ← opt_field (negb partial) (pk_related (debt_client_queryset db u)) data.(data_client);
  t ← opt_field (negb partial) decimal_field data.(data_total_amount);
  Ok (mkDebtAttrs c t data.(data_due_date)).

(** [validate] (lines 24-33):
<<
    if attrs.get('total_amount') < 0: raise ValidationError(...)
    due_date = attrs.get('due_date')
    if due_date and due_date <= date.today(): raise ValidationError(...)
>>
    [None < 0] raises [TypeError] in Python 3. *)
Definition DebtSerializer_validate (today : date) (attrs : DebtAttrs) : result DebtAttrs :=
  match attrs.(attr_total_amount) with
  | None => raise TypeError
  | Some t =>
      check bool_decide (0 ≤ t) else ValidationError NegativeDebt;
      match attrs.(attr_due_date) with
      | Some dd => check bool_decide (today < dd) else ValidationError DueDateNotFuture;
                   Ok attrs
      | None => Ok attrs
      end
  end.

Definition DebtSerializer_is_valid (db : Store) (u : users.User) (today : date)
    (partial : bool) (data : DebtData) : result DebtAttrs :=
  attrs ← DebtSerializer_fields db u partial data;
  DebtSerializer_validate today attrs.

(** [ModelSerializer.create]: [Debt.objects.create(...)].  A
    fresh instance has no id, [is_paid=False] (field default), the due date
    defaults to [default_due_date()]; [remaining_amount] has no default and
    is assigned by [Debt.save] before the row is written, so the placeholder
    [0] is never stored. *)
Definition DebtSerializer_create (today : date) (attrs : DebtAttrs) (db : Store)
    : result (debts.Debt * Store) :=
  c ← of_option (ValidationError RequiredField) attrs.(attr_client);
  t ← of_option (ValidationError RequiredField) attrs.(attr_total_amount);
  let dd := default (default_due_date today) attrs.(attr_due_date) in
  Ok (Debt_save (debts.mkDebt None c t 0 dd false) db).

(** [ModelSerializer.update]: [setattr] for each validated field, then
    [instance.save()]. *)
Definition DebtSerializer_update (d : debts.Debt) (attrs : DebtAttrs) (db : Store)
    : debts.Debt * Store :=
  let d := match attrs.(attr_client) with Some c => debts.set_client c d | None => d end in
  let d := match attrs.(attr_total_amount) with Some t => debts.set_total_amount t d | None => d end in
  let d := match attrs.(attr_due_date) with Some dd => debts.set_due_date dd d | None => d end in
  Debt_save d db.

(** ** [payments/serializers.py] [PaymentSerializer] *)

Record PaymentData := mkPaymentData {
  data_debt : option N;
  data_amount : option Z
}.

Record PaymentAttrs := mkPaymentAttrs {
  attr_debt : option debts.Debt;
  attr_amount : option Z
}.

(** The [debt] field of a [ModelSerializer] on [Payment] has queryset
    [Debt.objects.all()]: any stored debt, of any company. *)
Definition PaymentSerializer_fields (db : Store) (partial : bool) (data : PaymentData)
    : result PaymentAttrs :=
  d ← opt_field (negb partial) (pk_related (get_debt db)) data.(data_debt);
  a ← opt_field (negb partial) decimal_field data.(data_amount);
  Ok (mkPaymentAttrs d a).

(** [create] (lines 10-15), called by [serializer.save(user=request.user)]
    with [validated_data['user']] already set to the caller:
<<
    if request.user.company == validated_data['debt'].client.company:
        validated_data["user"] = request.user
    return super().create(validated_data)
>>
    [pid] is the [uuid4] default of the new instance. *)
Definition PaymentSerializer_create (ru : users.User) (user_kw : option N) (pid : N)
    (attrs : PaymentAttrs) (db : Store) : result (payments.Payment * Store) :=
  d ← of_option (ValidationError RequiredField) attrs.(attr_debt);
  a ← of_option (ValidationError RequiredField) attrs.(attr_amount);
  let user := if bool_decide (ru.(users.company) = d.(debts.client).(clients.company))
              then Some ru.(users.id) else user_kw in
  u ← of_option IntegrityError user;
  Payment_save (payments.mkPayment pid d a u) db.

(** [ModelSerializer.update] on a payment instance: [setattr], then
    [instance.save()], which runs [Payment.save] again. *)
Definition PaymentSerializer_update (p : payments.Payment) (attrs : PaymentAttrs) (db : Store)
    : result (payments.Payment * Store) :=
  let p := match attrs.(attr_debt) with Some d => payments.set_debt d p | None => p end in
  let p := match attrs.(attr_amount) with Some a => payments.set_amount a p | None => p end in
  Payment_save p db.

(** ** [clients/serializers.py] [ClientSerializer] *)

Record ClientData := mkClientData {
  data_name : option string;
  data_phone : option string;
  data_balanse : option Z;
  data_company : option (option N)
}.

(** Field validation: [name] ([max_length=255]) and [phone]
    ([max_length=20]) are required; [balanse] (default 0) and [company]
    (nullable) are optional and writable: [fields = '__all__'] with only
    [created_at] read-only. *)
Definition ClientSerializer_fields (data : ClientData)
    : result (string * string * Z) :=
  n ← opt_field true (char_field 255) data.(data_name);
  ph ← opt_field true (char_field 20) data.(data_phone);
  b ← opt_field false decimal_field data.(data_balanse);
  match n, ph with
  | Some n, Some ph => Ok (n, ph, default 0 b)
  | _, _ => raise (ValidationError RequiredField)
  end.

(** The two [UniqueConstraint]s of [Client.Meta]: [(company, name)] and
    [(company, phone)]; SQL never equates two [NULL] companies. *)
Definition unique_client_ok (db : Store) (c : clients.Client) : bool :=
  bool_decide (map_Forall (λ _ c',
    c'.(clients.company) = None ∨ c'.(clients.company) ≠ c.(clients.company) ∨
    (c'.(clients.name) ≠ c.(clients.name) ∧ c'.(clients.phone) ≠ c.(clients.phone)))
    db.(clients_tbl)).

(** [create] (lines 14-22):
<<
    user = self.context['request'].user
    if not user.company: raise ValidationError(...)
    validated_data['company'] = user.company
    return super().create(validated_data)
>> *)
Definition ClientSerializer_create (u : users.User) (cid : N) (v : string * string * Z)
    (db : Store) : result (clients.Client * Store) :=
  let '(n, ph, b) := v in
  comp ← of_option (ValidationError NoCompany) u.(users.company);
  let c := clients.mkClient cid n ph b (Some comp) in
  check unique_client_ok db c else IntegrityError;
  Ok (c, client_save c db).

(** ** What a valid debt body is *)

(** The attributes [DebtSerializer] hands to [create]/[update] when it
    accepts a body: a client, when given, is a stored client of the
    caller's company; the total is a non-negative amount that fits the
    column; a due date, when given, is the one sent and lies after today;
    and a full ([PUT]/[POST]) body names its client. *)
Definition debt_attrs_ok (db : Store) (u : users.User) (today : date) (partial : bool)
    (data : DebtData) (a : DebtAttrs) : Prop :=
  (partial = false → is_Some a.(attr_client)) ∧
  (∀ c, a.(attr_client) = Some c →
        ∃ k, data.(data_client) = Some k ∧ db.(clients_tbl) !! k = Some c ∧
             c.(clients.company) = u.(users.company)) ∧
  (∃ t, a.(attr_total_amount) = Some t ∧ data.(data_total_amount) = Some t ∧
        0 ≤ t ∧ decimal_fits t = true) ∧
  a.(attr_due_date) = data.(data_due_date) ∧
  (∀ dd, a.(attr_due_date) = Some dd → today < dd).

(** C15 (type, [DebtSerializer.is_valid]): whatever the body, an accepted
    one yields well-formed attributes ([debt_attrs_ok]): the serializer
    never passes a foreign or missing client, a negative or oversized
    total, or a past due date to the model. *)
Theorem DebtSerializer_is_valid_typed db u today partial data a :
  DebtSerializer_is_valid db u today partial data = Ok a → debt_attrs_ok db u today partial data a.
Proof.
  unfold DebtSerializer_is_valid, DebtSerializer_fields, DebtSerializer_validate, opt_field,
    pk_related, decimal_field, debt_client_queryset.
  destruct (data_client data) as [k|] eqn:Hk, (data_total_amount data) as [t|] eqn:Ht;
    intros H; result_inv H; destruct partial; simpl in *; try discriminate;
    split_and!; intros; simplify_eq/=; eauto; naive_solver.
Qed.

Lemma DebtSerializer_is_valid_typed_witness :
  debt_attrs_ok (client_save (clients.mkClient 0 "Ali" "+998901234567" 0 (Some 1%N)) empty_store)
    (users.mkUser 5 (Some 1%N) users.SELLER None "seller" "pbkdf2" "Ali" "Valiyev" None) 100 false
    (mkDebtData (Some 0%N) (Some 10000) (Some 130))
    (mkDebtAttrs (Some (clients.mkClient 0 "Ali" "+998901234567" 0 (Some 1%N))) (Some 10000) (Some 130)).
Proof. apply (DebtSerializer_is_valid_typed _ _ _ _ (mkDebtData (Some 0%N) (Some 10000) (Some 130))). reflexivity. Defined.
