(* ===== verification/Views.v ===== *)
(** * Views: [*/views.py]

    One definition per view method DRF dispatches to.  Every view has
    [permission_classes = [IsAuthenticated]]: an anonymous request is
    refused before anything else ([authenticated]).  [get_object] looks the
    primary key up in the view's [get_queryset] and raises [NotFound]
    (404) when it is not there.  Handlers that write return the new store;
    list handlers return the queryset as a sub-map of the table (the
    storage order is not part of the contract). *)

From S2P Require Import Prelude Models DebtModel PaymentModel Invariant Serializers.

Record Request := mkRequest {
  req_user : option users.User;       (** [request.user], [None] if anonymous *)
  req_today : date                    (** [date.today()] / [now().date()] *)
}.

(** [permissions.IsAuthenticated]. *)
Definition authenticated (rq : Request) : result users.User :=
  of_option NotAuthenticated rq.(req_user).

(** [client__company=company]: the join from a debt row to its client. *)
Definition debt_of_company (db : Store) (comp : N) (r : debts.Row) : bool :=
  match db.(clients_tbl) !! r.(debts.client_id) with
  | Some c => bool_decide (c.(clients.company) = Some comp)
  | None => false
  end.

(** [debt__client__company=company]: the join from a payment row. *)
Definition payment_of_company (db : Store) (comp : N) (r : payments.Row) : bool :=
  match db.(debts_tbl) !! r.(payments.debt_id) with
  | Some d => debt_of_company db comp d
  | None => false
  end.

(** ** [debts/views.py] *)

(** [DebtListCreateView.get_queryset] (lines 18-35). *)
Definition DebtListCreateView_get_queryset (db : Store) (u : users.User) (today : date)
    (filter_param : option string) : gmap N debts.Row :=
  match u.(users.company) with
  | None => ∅
  | Some comp =>
      let filter_type := default "all"%string filter_param in
      if bool_decide (filter_type = "all"%string) then
        filter (λ kv : N * debts.Row, debt_of_company db comp kv.2 = true) db.(debts_tbl)
      else if bool_decide (filter_type = "overdue"%string) then
        filter (λ kv : N * debts.Row,
                  debt_of_company db comp kv.2 = true ∧ kv.2.(debts.row_due_date) < today ∧
                  kv.2.(debts.row_is_paid) = false) db.(debts_tbl)
      else ∅
  end.

Definition DebtListCreateView_list (db : Store) (rq : Request) (filter_param : option string)
    : result (gmap N debts.Row) :=
  u ← authenticated rq;
  Ok (DebtListCreateView_get_queryset db u rq.(req_today) filter_param).

(** [CreateModelMixin.create]: [is_valid(raise_exception=True)], then
    [perform_create] (lines 37-39): [serializer.save()]. *)
Definition DebtListCreateView_create (db : Store) (rq : Request) (data : DebtData)
    : result (debts.Debt * Store) :=
  u ← authenticated rq;
  attrs ← DebtSerializer_is_valid db u rq.(req_today) false data;
  DebtSerializer_create rq.(req_today) attrs db.

(** ** [payments/views.py] *)

(** [PaymentListCreateView.get_queryset] and [PaymentDetailView.get_queryset]
    (lines 13-17, 30-34). *)
Definition Payment_get_queryset (db : Store) (u : users.User) : gmap N payments.Row :=
  match u.(users.company) with
  | None => ∅
  | Some comp => filter (λ kv : N * payments.Row, payment_of_company db comp kv.2 = true)
                        db.(payments_tbl)
  end.

(** [ListModelMixin.list] of [PaymentListCreateView] ([GET /payments/]). *)
Definition PaymentListCreateView_list (db : Store) (rq : Request) : result (gmap N payments.Row) :=
  u ← authenticated rq;
  Ok (Payment_get_queryset db u).

(** [CreateModelMixin.create] with [perform_create] (lines 19-21):
    [serializer.save(user=self.request.user)]. *)
Definition PaymentListCreateView_create (db : Store) (rq : Request) (data : PaymentData)
    : result (payments.Payment * Store) :=
  u ← authenticated rq;
  attrs ← PaymentSerializer_fields db false data;
  PaymentSerializer_create u (Some u.(users.id)) (fresh_payment_id db) attrs db.

(** ** [clients/views.py] *)

(** [ClientListCreateView.get_queryset] (lines 16-21). *)
Definition ClientListCreateView_list (db : Store) (rq : Request)
    : result (gmap N clients.Client) :=
  u ← authenticated rq;
  match u.(users.company) with
  | Some comp => Ok (filter (λ kv : N * clients.Client, kv.2.(clients.company) = Some comp)
                            db.(clients_tbl))
  | None => raise ValueError
  end.

Definition ClientListCreateView_create (db : Store) (rq : Request) (data : ClientData)
    : result (clients.Client * Store) :=
  u ← authenticated rq;
  v ← ClientSerializer_fields data;
  ClientSerializer_create u (fresh_client_id db) v db.

(** [ClientListDebtsView.get] (lines 29-42). *)
Definition ClientListDebtsView_get (db : Store) (rq : Request) (cid : N)
    : result (clients.Client * gmap N debts.Row) :=
  u ← authenticated rq;
  c ← of_option NotFound (get_client db cid);
  check bool_decide (c.(clients.company) = u.(users.company)) else PermissionDenied;
  Ok (c, filter (λ kv : N * debts.Row, kv.2.(debts.client_id) = cid) db.(debts_tbl)).

(** ** What a successful create did *)

Ltac unfold_handlers :=
  unfold DebtListCreateView_create, PaymentListCreateView_create,
    ClientListCreateView_create, authenticated, DebtSerializer_is_valid,
    DebtSerializer_fields, DebtSerializer_validate, DebtSerializer_create,
    PaymentSerializer_fields, PaymentSerializer_create, ClientSerializer_fields,
    ClientSerializer_create, opt_field, pk_related, decimal_field, char_field,
    debt_client_queryset in *.

Lemma DebtListCreateView_create_Ok db rq data d db' :
  DebtListCreateView_create db rq data = Ok (d, db') →
  ∃ u k c t,
    rq.(req_user) = Some u ∧ data.(data_client) = Some k ∧
    db.(clients_tbl) !! k = Some c ∧ c.(clients.company) = u.(users.company) ∧
    data.(data_total_amount) = Some t ∧ 0 ≤ t ∧ decimal_fits t = true ∧
    (d, db') = Debt_save (debts.mkDebt None c t 0
                 (default (default_due_date rq.(req_today)) data.(data_due_date)) false) db.
Proof.
  intros H. unfold_handlers. destruct rq as [[u|] today]; simpl in *; result_inv H.
  all: do 4 eexists; split_and!; eauto.
Qed.

Lemma PaymentListCreateView_create_Ok db rq data p db' :
  PaymentListCreateView_create db rq data = Ok (p, db') →
  ∃ u k d a,
    rq.(req_user) = Some u ∧ data.(data_debt) = Some k ∧ get_debt db k = Some d ∧
    data.(data_amount) = Some a ∧ decimal_fits a = true ∧
    Payment_save (payments.mkPayment (fresh_payment_id db) d a u.(users.id)) db = Ok (p, db').
Proof.
  intros H. unfold_handlers. destruct rq as [[u|] today]; simpl in *; result_inv H.
  all: do 4 eexists; split_and!; eauto.
Qed.

Lemma ClientListCreateView_create_Ok db rq data c db' :
  ClientListCreateView_create db rq data = Ok (c, db') →
  ∃ u comp n ph,
    rq.(req_user) = Some u ∧ u.(users.company) = Some comp ∧
    data.(data_name) = Some n ∧ data.(data_phone) = Some ph ∧
    c = clients.mkClient (fresh_client_id db) n ph (default 0 data.(data_balanse)) (Some comp) ∧
    unique_client_ok db c = true ∧ db' = client_save c db.
Proof.
  intros H. unfold_handlers. destruct rq as [[u|] today]; simpl in *; result_inv H.
  all: do 4 eexists; split_and!; eauto.
Qed.

(** C5 (spec 8.4, overdraw rejection): a [POST /payments/] by an
    authenticated user naming a stored debt with a well-formed amount larger
    than the debt's [remaining_amount] fails with [ValueError]; the request
    returns no store, so remaining amount, balance and paid flag are those
    of the store it started from. *)
Theorem create_payment_overdraw db rq data u k d a :
  rq.(req_user) = Some u → data.(data_debt) = Some k → get_debt db k = Some d →
  data.(data_amount) = Some a → decimal_fits a = true →
  d.(debts.remaining_amount) < a →
  PaymentListCreateView_create db rq data = Err ValueError.
Proof.
  intros Hu Hk Hd Ha Hfit Hlt. unfold_handlers.
  rewrite Hu, Hk, Ha; simpl. rewrite Hd, Hfit; simpl.
  case_bool_decide; apply Payment_save_overdraw; simpl; lia.
Qed.

(** A settled debt: client 0 of company 1, debt 1 of 100.00 fully paid. *)
Definition settled_client : clients.Client := clients.mkClient 0 "Ali" "+998901234567" 0 (Some 1%N).
Definition settled_store : Store :=
  mkStore {[0%N := settled_client]} {[1%N := debts.mkRow 0 10000 0 130 true]}
          {[7%N := payments.mkRow 1 10000 5]} 2.
Definition settled_rq : Request :=
  mkRequest (Some (users.mkUser 5 (Some 1%N) users.SELLER None "seller" "pbkdf2" "Ali" "Valiyev" None)) 100.

Lemma create_payment_overdraw_witness :
  PaymentListCreateView_create settled_store settled_rq (mkPaymentData (Some 1%N) (Some 1000))
  = Err ValueError.
Proof.
  apply (create_payment_overdraw _ _ _ (users.mkUser 5 (Some 1%N) users.SELLER None "seller" "pbkdf2" "Ali" "Valiyev" None) 1%N
           (debts.mkDebt (Some 1%N) settled_client 10000 0 130 true) 1000);
    [reflexivity | reflexivity | vm_compute; reflexivity | reflexivity | reflexivity | simpl; lia].
Defined.

(** A [POST /payments/] by an authenticated user on a stored debt (any
    company) with a well-formed amount not above the remaining amount
    succeeds and writes exactly the payment row (recording the caller),
    the debt row and the client row. *)
Lemma PaymentListCreateView_create_ok db rq u k d a :
  rq.(req_user) = Some u → get_debt db k = Some d → d.(debts.id) = Some k → k ≠ 0%N →
  decimal_fits a = true → a ≤ d.(debts.remaining_amount) →
  ∃ p, PaymentListCreateView_create db rq (mkPaymentData (Some k) (Some a)) =
    Ok (p, mkStore
      (<[d.(debts.client).(clients.id) := debited_client d a]> db.(clients_tbl))
      (<[k := paid_debt_row d a]> db.(debts_tbl))
      (<[fresh_payment_id db := payments.mkRow k a u.(users.id)]> db.(payments_tbl))
      db.(debt_seq)).
Proof.
  intros Hu Hd Hid Hk Hfit Ha. unfold_handlers. rewrite Hu; simpl. rewrite Hd, Hfit; simpl.
  destruct (Payment_save_ok (payments.mkPayment (fresh_payment_id db) d a u.(users.id)) db k)
    as [p Heq]; [done | done | done |].
  exists p. case_bool_decide; exact Heq.
Qed.

(** A [POST /debts/] by an authenticated user for a client of the user's
    company, with a well-formed non-negative total and no due date,
    succeeds: it is [Debt.save] of a fresh instance due in 30 days. *)
Lemma DebtListCreateView_create_valid db rq u c cl t :
  rq.(req_user) = Some u → db.(clients_tbl) !! c = Some cl →
  cl.(clients.company) = u.(users.company) → decimal_fits t = true → 0 ≤ t →
  DebtListCreateView_create db rq (mkDebtData (Some c) (Some t) None) =
    Ok (Debt_save (debts.mkDebt None cl t 0 (default_due_date rq.(req_today)) false) db).
Proof.
  intros Hu Hc Hcomp Hfit Ht. unfold_handlers. rewrite Hu; simpl. rewrite Hc; simpl.
  rewrite bool_decide_true by done; simpl. rewrite Hfit; simpl.
  by rewrite bool_decide_true by done.
Qed.

(** (spec 8.10): a [POST /debts/] by an authenticated user for a
    client of the user's company with a well-formed negative
    [total_amount] fails with [ValidationError] ("negative debt amount")
    whatever the due date, and returns no store: no client or debt is
    touched. *)
Theorem create_debt_negative db rq u c cl t dd :
  rq.(req_user) = Some u → db.(clients_tbl) !! c = Some cl →
  cl.(clients.company) = u.(users.company) → decimal_fits t = true → t < 0 →
  DebtListCreateView_create db rq (mkDebtData (Some c) (Some t) dd) =
    Err (ValidationError NegativeDebt).
Proof.
  intros Hu Hc Hcomp Hfit Ht. unfold_handlers. rewrite Hu; simpl. rewrite Hc; simpl.
  rewrite bool_decide_true by done; simpl. rewrite Hfit; simpl.
  by rewrite bool_decide_false by lia.
Qed.

Lemma create_debt_negative_witness :
  DebtListCreateView_create settled_store settled_rq (mkDebtData (Some 0%N) (Some (-500)) None)
  = Err (ValidationError NegativeDebt).
Proof.
  apply (create_debt_negative _ _ (users.mkUser 5 (Some 1%N) users.SELLER None "seller" "pbkdf2" "Ali" "Valiyev" None) 0 settled_client);
    [reflexivity | reflexivity | reflexivity | reflexivity | lia].
Defined.

(** C17 (spec 4.2, attribution): a successful [POST /payments/] records the
    caller as the payment's [user], in the returned instance and in the
    stored row, whatever the body says and whatever the company comparison
    of [PaymentSerializer.create] decides ([perform_create] passes
    [user=request.user] in any case). *)
Theorem payment_user_is_caller db rq data p db' :
  PaymentListCreateView_create db rq data = Ok (p, db') →
  ∃ u r, rq.(req_user) = Some u ∧ p.(payments.user) = u.(users.id) ∧
    db'.(payments_tbl) !! p.(payments.id) = Some r ∧ r.(payments.user_id) = u.(users.id).
Proof.
  intros (u & k & d & a & Hu & _ & _ & _ & _ & H)%PaymentListCreateView_create_Ok.
  unfold Payment_save in H. result_inv H.
  destruct (Debt_save _ _) as [d' db1] eqn:Hs. simplify_eq/=.
  pose proof (f_equal (λ x, x.2.(payments_tbl)) Hs) as Hp; simpl in Hp.
  rewrite Debt_save_payments in Hp. simpl in Hp.
  eexists u, _. split_and!; [done | done | rewrite <-Hp; apply lookup_insert_eq | done].
Qed.

Lemma payment_user_is_caller_witness :
  match PaymentListCreateView_create settled_store
          (mkRequest (Some (users.mkUser 9 (Some 2%N) users.MANAGER None "manager" "pbkdf2" "Vali" "Aliyev" None)) 100)
          (mkPaymentData (Some 1%N) (Some 0)) with
  | Ok (p, db') =>
      ∃ u r, Some (users.mkUser 9 (Some 2%N) users.MANAGER None "manager" "pbkdf2" "Vali" "Aliyev" None) = Some u ∧
        p.(payments.user) = u.(users.id) ∧
        db'.(payments_tbl) !! p.(payments.id) = Some r ∧ r.(payments.user_id) = u.(users.id)
  | Err _ => False
  end.
Proof.
  destruct (PaymentListCreateView_create _ _ _) as [[p db']|e] eqn:E;
    [exact (payment_user_is_caller _ _ _ _ _ E) | vm_compute in E; discriminate].
Defined.

(** ** Concrete runs: the scenario of spec section 8, items 6-7 *)

Definition demo_user : users.User := users.mkUser 5 (Some 1%N) users.SELLER None "seller" "pbkdf2" "Ali" "Valiyev" None.
Definition demo_rq : Request := mkRequest (Some demo_user) 100.

(** The store a request leaves behind ([db] itself when it fails). *)
Definition after {A} (r : result (A * Store)) (db : Store) : Store :=
  match r with Ok (_, db') => db' | Err _ => db end.

Definition demo_store1 : Store :=
  after (ClientListCreateView_create empty_store demo_rq
           (mkClientData (Some "Ali"%string) (Some "+998901234567"%string) None None)) empty_store.
Definition demo_store2 : Store :=
  after (DebtListCreateView_create demo_store1 demo_rq (mkDebtData (Some 0%N) (Some 10000) None))
        demo_store1.
Definition demo_store3 : Store :=
  after (PaymentListCreateView_create demo_store2 demo_rq (mkPaymentData (Some 1%N) (Some 4000)))
        demo_store2.

Definition demo_row3 : debts.Row := debts.mkRow 0 10000 6000 130 false.

(** A payment within the remaining amount on a debt of a consistent store:
    its exact effect. *)
Lemma ledger_payment_ok db rq u k r a :
  ledger_ok db → rq.(req_user) = Some u → db.(debts_tbl) !! k = Some r →
  decimal_fits a = true → a ≤ r.(debts.row_remaining_amount) →
  ∃ c p, db.(clients_tbl) !! r.(debts.client_id) = Some c ∧
    PaymentListCreateView_create db rq (mkPaymentData (Some k) (Some a)) =
    Ok (p, mkStore
      (<[c.(clients.id) := clients.set_balanse (c.(clients.balanse) - a) c]> db.(clients_tbl))
      (<[k := debts.mkRow c.(clients.id) r.(debts.row_total_amount)
                (r.(debts.row_remaining_amount) - a) r.(debts.row_due_date)
                (r.(debts.row_is_paid) || bool_decide (r.(debts.row_remaining_amount) - a = 0))]>
         db.(debts_tbl))
      (<[fresh_payment_id db := payments.mkRow k a u.(users.id)]> db.(payments_tbl))
      db.(debt_seq)).
Proof.
  intros Hok Hu Hr Hfit Ha. destruct (ledger_get_debt db k r Hok Hr) as (c & Hc & Hd).
  pose proof (ok_seq db Hok k r Hr) as Hk; simpl in Hk.
  destruct (PaymentListCreateView_create_ok db rq u k _ a Hu Hd) as [p Heq];
    [done | lia | done | done |].
  exists c, p. split; [done|]. exact Heq.
Qed.

(** ** [ClientListDebtsView] *)

(** A store with clients of two companies and one overdue debt each. *)
Definition two_company_store : Store :=
  mkStore {[0%N := clients.mkClient 0 "Ali" "+998901234567" 10000 (Some 1%N);
            1%N := clients.mkClient 1 "Vali" "+998907654321" 5000 (Some 2%N)]}
          {[1%N := debts.mkRow 0 10000 10000 50 false;
            2%N := debts.mkRow 1 5000 5000 50 false]}
          ∅ 3.

(** (functional, [ClientListDebtsView.get]): for an authenticated
    caller and an existing client, [GET /clients/<id>/debts/] answers with
    the client and all debt rows pointing at it when the client's company
    is the caller's, and with [PermissionDenied] otherwise. *)
Theorem client_debts_guard db rq u cid c :
  rq.(req_user) = Some u → get_client db cid = Some c →
  ClientListDebtsView_get db rq cid =
    if bool_decide (c.(clients.company) = u.(users.company))
    then Ok (c, filter (λ kv : N * debts.Row, kv.2.(debts.client_id) = cid) db.(debts_tbl))
    else Err PermissionDenied.
Proof.
  intros Hu Hc. unfold ClientListDebtsView_get, authenticated. rewrite Hu; simpl.
  rewrite Hc; simpl. by case_bool_decide.
Qed.

Lemma client_debts_guard_witness :
  ClientListDebtsView_get two_company_store
    (mkRequest (Some (users.mkUser 5 (Some 1%N) users.SELLER None "seller" "pbkdf2" "Ali" "Valiyev" None)) 100) 1 =
  Err PermissionDenied.
Proof.
  rewrite (client_debts_guard _ _ (users.mkUser 5 (Some 1%N) users.SELLER None "seller" "pbkdf2" "Ali" "Valiyev" None) 1
             (clients.mkClient 1 "Vali" "+998907654321" 5000 (Some 2%N)));
    [vm_compute; reflexivity | reflexivity | reflexivity].
Defined.

(** ** Findings on the create paths

    Inputs the create endpoints accept and the spec rejects: a
    caller-supplied [balanse], payments of any sign and from any company.
    Each theorem states what the code does; where it breaks [ledger_ok] the
    broken conjunct is named. *)

(** C30 (finding, [PaymentSerializer]): [POST /payments/] validates neither
    the sign of the amount (the spec requires [amount > 0]) nor the
    caller's company (the debt field's queryset is [Debt.objects.all()],
    and the company comparison in [create] only chooses a [user] value that
    [perform_create] already set): in a consistent store, every
    authenticated caller's payment of any well-formed amount not above the
    remaining amount, zero and negative ones included, is recorded under
    the caller's name. *)
Theorem payment_create_unchecked db rq u k r a :
  ledger_ok db → rq.(req_user) = Some u → db.(debts_tbl) !! k = Some r →
  decimal_fits a = true → a ≤ r.(debts.row_remaining_amount) →
  ∃ p db', PaymentListCreateView_create db rq (mkPaymentData (Some k) (Some a)) = Ok (p, db') ∧
           db'.(payments_tbl) !! fresh_payment_id db = Some (payments.mkRow k a u.(users.id)).
Proof.
  intros Hok Hu Hr Hfit Ha.
  destruct (ledger_payment_ok db rq u k r a Hok Hu Hr Hfit Ha) as (c & p & _ & Heq).
  eexists _, _; split; [exact Heq|]. simpl. apply lookup_insert_eq.
Qed.

(** A caller of company 2 pays 0 on a debt of company 1. *)
Definition foreign_user : users.User := users.mkUser 9 (Some 2%N) users.MANAGER None "seller" "pbkdf2" "Ali" "Valiyev" None.

Lemma payment_create_unchecked_witness :
  ∃ p db', PaymentListCreateView_create demo_store3 (mkRequest (Some foreign_user) 100)
             (mkPaymentData (Some 1%N) (Some 0)) = Ok (p, db') ∧
           db'.(payments_tbl) !! fresh_payment_id demo_store3 = Some (payments.mkRow 1 0 9).
Proof.
  apply (payment_create_unchecked demo_store3 _ foreign_user 1 demo_row3 0);
    [apply (bool_decide_unpack _); vm_compute; reflexivity | reflexivity
    | vm_compute; reflexivity | reflexivity | simpl; lia].
Defined.

(** C36 (finding, [Payment.save] with the paid flag): in a consistent store,
    a negative payment on a settled debt succeeds and makes it owe again,
    but [Debt.save] only ever sets [is_paid = True]: the debt stays marked
    paid with a non-zero remaining amount. *)
Theorem negative_payment_reopens_paid_debt db rq u k r a :
  ledger_ok db → rq.(req_user) = Some u → db.(debts_tbl) !! k = Some r →
  r.(debts.row_remaining_amount) = 0 → decimal_fits a = true → a < 0 →
  ∃ p db', PaymentListCreateView_create db rq (mkPaymentData (Some k) (Some a)) = Ok (p, db') ∧
           ¬ ledger_ok db'.
Proof.
  intros Hok Hu Hr Hrem Hfit Ha.
  destruct (ledger_payment_ok db rq u k r a Hok Hu Hr Hfit) as (c & p & _ & Heq); [lia|].
  pose proof (ok_paid db Hok k r Hr) as Hp; simpl in Hp.
  eexists _, _; split; [exact Heq|]. intros [_ _ _ _ Hpaid _ _ _ _]; simpl in Hpaid.
  specialize (Hpaid k _ (lookup_insert_eq _ _ _)); simpl in Hpaid.
  rewrite Hp, Hrem in Hpaid. revert Hpaid. bool_cases; done.
Qed.

(** The store after the second payment of the scenario: debt 1 settled. *)
Definition demo_store4 : Store :=
  after (PaymentListCreateView_create demo_store3 demo_rq (mkPaymentData (Some 1%N) (Some 6000)))
        demo_store3.

Lemma negative_payment_reopens_paid_debt_witness :
  ∃ p db', PaymentListCreateView_create demo_store4 demo_rq (mkPaymentData (Some 1%N) (Some (-1000)))
           = Ok (p, db') ∧ ¬ ledger_ok db'.
Proof.
  apply (negative_payment_reopens_paid_debt demo_store4 demo_rq demo_user 1
           (debts.mkRow 0 10000 0 130 true) (-1000));
    [apply (bool_decide_unpack _); vm_compute; reflexivity | reflexivity
    | vm_compute; reflexivity | reflexivity | reflexivity | lia].
Defined.

(** C35 (finding, [ClientSerializer]): [balanse] is a writable field
    ([fields = '__all__']), so in a consistent store a successful
    [POST /clients/] whose body sets a non-zero [balanse] creates a client
    whose balance is not the sum of its (no) debts. *)
Theorem client_create_with_balanse db rq data c db' :
  ledger_ok db → ClientListCreateView_create db rq data = Ok (c, db') →
  default 0 data.(data_balanse) ≠ 0 → ¬ ledger_ok db'.
Proof.
  intros Hok H Hb.
  apply ClientListCreateView_create_Ok in H as (u & comp & n & ph & _ & _ & _ & _ & -> & _ & ->).
  intros [_ Hbal _ _ _ _ _ _ _]. unfold client_save, set_clients_tbl in Hbal; simpl in Hbal.
  specialize (Hbal _ _ (lookup_insert_eq _ _ _)); simpl in Hbal.
  rewrite client_debt_total_unref in Hbal; [done|].
  intros i r Hi Heq. destruct (ok_debt_client db Hok i r Hi) as [? Hc].
  rewrite Heq, fresh_client_id_fresh in Hc. discriminate.
Qed.

Lemma client_create_with_balanse_witness :
  ∃ c db', ClientListCreateView_create empty_store demo_rq
             (mkClientData (Some "Ali"%string) (Some "+998901234567"%string) (Some 50000) None)
           = Ok (c, db') ∧ ¬ ledger_ok db'.
Proof.
  eexists _, _. split; [reflexivity|].
  eapply (client_create_with_balanse empty_store demo_rq
            (mkClientData (Some "Ali"%string) (Some "+998901234567"%string) (Some 50000) None));
    [apply ledger_empty | reflexivity | simpl; lia].
Defined.
