(* ===== verification/DetailViews.v ===== *)
(** * DetailViews: the detail endpoints of [debts/views.py] and [payments/views.py]

    [DebtDetailView] and [PaymentDetailView] ([RetrieveUpdateDestroyAPIView])
    and [DebtDetailPaymentView] ([ListAPIView]): [get_object] looks the
    primary key up in the view's company-scoped [get_queryset] and raises
    [NotFound] (404) when it is not there; [PUT]/[PATCH] run the
    serializer's [update], which calls [save] again; [DELETE] removes the
    row (with its payments, [on_delete=CASCADE]).  The spec puts these
    paths out of scope (section 9: "direct edits ... could violate the
    balance invariant silently"); the theorems of this file show what they
    do to a consistent store. *)

From S2P Require Import Prelude Models DebtModel PaymentModel Invariant Serializers Views.

(** ** [debts/views.py] *)

(** [DebtDetailView.get_queryset] (lines 47-51). *)
Definition DebtDetailView_get_queryset (db : Store) (u : users.User) : gmap N debts.Row :=
  match u.(users.company) with
  | None => ∅
  | Some comp => filter (λ kv : N * debts.Row, debt_of_company db comp kv.2 = true) db.(debts_tbl)
  end.

Definition DebtDetailView_get_object (db : Store) (u : users.User) (pk : N)
    : result debts.Debt :=
  _ ← of_option NotFound (DebtDetailView_get_queryset db u !! pk);
  of_option NotFound (get_debt db pk).

Definition DebtDetailView_retrieve (db : Store) (rq : Request) (pk : N) : result debts.Debt :=
  u ← authenticated rq; DebtDetailView_get_object db u pk.

(** [UpdateModelMixin.update]: [PUT] ([partial=False]) or [PATCH]. *)
Definition DebtDetailView_update (db : Store) (rq : Request) (pk : N) (partial : bool)
    (data : DebtData) : result (debts.Debt * Store) :=
  u ← authenticated rq;
  d ← DebtDetailView_get_object db u pk;
  attrs ← DebtSerializer_is_valid db u rq.(req_today) partial data;
  Ok (DebtSerializer_update d attrs db).

(** [DestroyModelMixin.destroy]: [instance.delete()]; the payments of the
    debt go with it ([on_delete=models.CASCADE]); no client is touched. *)
Definition DebtDetailView_destroy (db : Store) (rq : Request) (pk : N) : result Store :=
  u ← authenticated rq;
  _ ← DebtDetailView_get_object db u pk;
  Ok (mkStore db.(clients_tbl) (delete pk db.(debts_tbl))
        (filter (λ kv : N * payments.Row, kv.2.(payments.debt_id) ≠ pk) db.(payments_tbl))
        db.(debt_seq)).

(** [DebtDetailPaymentView.get_queryset] (lines 59-74). *)
Definition DebtDetailPaymentView_get_queryset (db : Store) (u : users.User) (debt_id : N)
    : gmap N payments.Row :=
  match get_debt db debt_id with
  | None => ∅
  | Some d =>
      match u.(users.company) with
      | None => ∅
      | Some comp =>
          if bool_decide (d.(debts.client).(clients.company) ≠ Some comp) then ∅
          else filter (λ kv : N * payments.Row, kv.2.(payments.debt_id) = debt_id) db.(payments_tbl)
      end
  end.

(** [ListModelMixin.list] of [DebtDetailPaymentView]
    ([GET /debts/<id>/payments/]). *)
Definition DebtDetailPaymentView_list (db : Store) (rq : Request) (debt_id : N)
    : result (gmap N payments.Row) :=
  u ← authenticated rq;
  Ok (DebtDetailPaymentView_get_queryset db u debt_id).

(** ** [payments/views.py] *)

Definition PaymentDetailView_get_object (db : Store) (u : users.User) (pk : N)
    : result payments.Payment :=
  _ ← of_option NotFound (Payment_get_queryset db u !! pk);
  of_option NotFound (get_payment db pk).

(** [PaymentDetailView] [GET]. *)
Definition PaymentDetailView_retrieve (db : Store) (rq : Request) (pk : N) : result payments.Payment :=
  u ← authenticated rq; PaymentDetailView_get_object db u pk.

(** [PaymentDetailView] [PUT]/[PATCH]: [serializer.save()] runs
    [Payment.save] on the stored instance with the new fields. *)
Definition PaymentDetailView_update (db : Store) (rq : Request) (pk : N) (partial : bool)
    (data : PaymentData) : result (payments.Payment * Store) :=
  u ← authenticated rq;
  p ← PaymentDetailView_get_object db u pk;
  attrs ← PaymentSerializer_fields db partial data;
  PaymentSerializer_update p attrs db.

(** [PaymentDetailView] [DELETE]: the row goes, nothing is refunded. *)
Definition PaymentDetailView_destroy (db : Store) (rq : Request) (pk : N) : result Store :=
  u ← authenticated rq;
  _ ← PaymentDetailView_get_object db u pk;
  Ok (set_payments_tbl (delete pk db.(payments_tbl)) db).


(** ** Findings: updates and deletes break the invariant *)

(** C31 (finding, [PaymentDetailView] PUT): in a consistent store, a [PUT]
    on a stored payment of [a > 0] that repeats its own debt and amount
    succeeds (when [a] does not exceed what remains) and runs
    [Payment.save] again: the debt's remaining amount drops by [a] a
    second time while the payment rows are unchanged, so the payments of
    the debt no longer add up to [total_amount - remaining_amount]. *)
Theorem payment_update_reapplies db rq u pid k a uid r :
  ledger_ok db → rq.(req_user) = Some u →
  Payment_get_queryset db u !! pid = Some (payments.mkRow k a uid) →
  db.(debts_tbl) !! k = Some r →
  decimal_fits a = true → 0 < a ≤ r.(debts.row_remaining_amount) →
  ∃ p db', PaymentDetailView_update db rq pid false (mkPaymentData (Some k) (Some a)) = Ok (p, db')
           ∧ ¬ ledger_ok db'.
Proof.
  intros Hok Hu Hq Hr Hfit Ha.
  destruct (ledger_get_debt db k r Hok Hr) as (c & Hc & Hd).
  assert (db.(payments_tbl) !! pid = Some (payments.mkRow k a uid)) as Hp.
  { unfold Payment_get_queryset in Hq. destruct (users.company u); [|done].
    by apply map_lookup_filter_Some in Hq as [? _]. }
  pose proof (ok_seq db Hok k r Hr) as Hk; simpl in Hk.
  pose proof (ledger_ok_payments_at db k r Hok Hr) as Hsum.
  unfold PaymentDetailView_update, PaymentDetailView_get_object, authenticated,
    PaymentSerializer_fields, PaymentSerializer_update, opt_field, pk_related, decimal_field.
  rewrite Hu; simpl. rewrite Hq; simpl. unfold get_payment. rewrite Hp; simpl.
  rewrite Hd, Hfit; simpl.
  destruct (Payment_save_ok (payments.mkPayment pid (debts.mkDebt (Some k) c
      r.(debts.row_total_amount) r.(debts.row_remaining_amount) r.(debts.row_due_date)
      r.(debts.row_is_paid)) a uid) db k) as [p' Heq]; simpl; [done | lia | lia |].
  unfold payments.set_debt, payments.set_amount; simpl. rewrite Heq.
  eexists _, _; split; [reflexivity|]. intros [_ _ _ _ _ Hpay _ _ _]; simpl in Hpay.
  rewrite insert_id in Hpay by done.
  specialize (Hpay k _ (lookup_insert_eq _ _ _)). unfold paid_debt_row in Hpay; simpl in Hpay.
  lia.
Qed.

Lemma payment_update_reapplies_witness :
  ∃ p db', PaymentDetailView_update demo_store3 demo_rq 0 false (mkPaymentData (Some 1%N) (Some 4000))
           = Ok (p, db') ∧ ¬ ledger_ok db'.
Proof.
  apply (payment_update_reapplies demo_store3 demo_rq demo_user 0 1 4000 5 demo_row3);
    [apply (bool_decide_unpack _); vm_compute; reflexivity | reflexivity
    | vm_compute; reflexivity | vm_compute; reflexivity | reflexivity | simpl; lia].
Defined.

Lemma DebtDetailView_get_object_ok db u k r :
  ledger_ok db → DebtDetailView_get_queryset db u !! k = Some r →
  db.(debts_tbl) !! k = Some r ∧
  ∃ comp c, u.(users.company) = Some comp ∧ db.(clients_tbl) !! r.(debts.client_id) = Some c ∧
    c.(clients.company) = Some comp ∧
    DebtDetailView_get_object db u k =
      Ok (debts.mkDebt (Some k) c r.(debts.row_total_amount) r.(debts.row_remaining_amount)
                       r.(debts.row_due_date) r.(debts.row_is_paid)).
Proof.
  intros Hok Hq. unfold DebtDetailView_get_queryset in Hq.
  destruct (users.company u) as [comp|] eqn:Hu; [|done].
  apply map_lookup_filter_Some in Hq as [Hr Hcomp]; simpl in Hcomp.
  split; [done|]. destruct (ledger_get_debt db k r Hok Hr) as (c & Hc & Hd).
  unfold debt_of_company in Hcomp. rewrite Hc in Hcomp. apply bool_decide_eq_true in Hcomp.
  exists comp, c. split_and!; [done..|].
  unfold DebtDetailView_get_object, DebtDetailView_get_queryset. rewrite Hu.
  rewrite map_lookup_filter_Some_2 with (x := r); simpl; [by rewrite Hd|done|].
  unfold debt_of_company. rewrite Hc. by apply bool_decide_eq_true.
Qed.

(** C32 (finding, [DebtDetailView] DELETE): in a consistent store, deleting
    a debt of the caller's company that still has something to pay
    succeeds and leaves the client's [balanse] unchanged, so the balance
    no longer equals the sum of the remaining amounts of the client's
    debts. *)
Theorem debt_destroy_keeps_balance db rq u k r :
  ledger_ok db → rq.(req_user) = Some u →
  DebtDetailView_get_queryset db u !! k = Some r → r.(debts.row_remaining_amount) ≠ 0 →
  ∃ db', DebtDetailView_destroy db rq k = Ok db' ∧ ¬ ledger_ok db'.
Proof.
  intros Hok Hu Hq Hrem.
  destruct (DebtDetailView_get_object_ok db u k r Hok Hq) as [Hr (comp & c' & _ & _ & _ & Hd)].
  destruct (ok_debt_client db Hok k r Hr) as [c Hc].
  pose proof (ok_balance db Hok _ c Hc) as Hb; simpl in Hb.
  unfold client_debt_total in Hb. rewrite (map_sumZ_delete _ _ k r Hr) in Hb.
  rewrite debt_share_same in Hb by done.
  unfold DebtDetailView_destroy, authenticated. rewrite Hu; simpl. rewrite Hd; simpl.
  eexists; split; [reflexivity|]. intros [_ Hbal _ _ _ _ _ _ _]; simpl in Hbal.
  specialize (Hbal _ c Hc); simpl in Hbal. unfold client_debt_total in Hbal. lia.
Qed.

Lemma debt_destroy_keeps_balance_witness :
  ∃ db', DebtDetailView_destroy demo_store3 demo_rq 1 = Ok db' ∧ ¬ ledger_ok db'.
Proof.
  apply (debt_destroy_keeps_balance demo_store3 demo_rq demo_user 1 demo_row3);
    [apply (bool_decide_unpack _); vm_compute; reflexivity | reflexivity
    | vm_compute; reflexivity | simpl; lia].
Defined.

(** C33 (finding, [PaymentDetailView] DELETE): in a consistent store,
    deleting a payment of a non-zero amount succeeds and restores neither
    the debt's remaining amount nor the client's balance, so the payments
    of the debt no longer add up to [total_amount - remaining_amount]. *)
Theorem payment_destroy_keeps_debt db rq u pid k a uid :
  ledger_ok db → rq.(req_user) = Some u →
  Payment_get_queryset db u !! pid = Some (payments.mkRow k a uid) → a ≠ 0 →
  ∃ db', PaymentDetailView_destroy db rq pid = Ok db' ∧ ¬ ledger_ok db'.
Proof.
  intros Hok Hu Hq Ha.
  assert (db.(payments_tbl) !! pid = Some (payments.mkRow k a uid)) as Hp.
  { unfold Payment_get_queryset in Hq. destruct (users.company u); [|done].
    by apply map_lookup_filter_Some in Hq as [? _]. }
  destruct (ok_payment_debt db Hok pid _ Hp) as [r Hr]; simpl in Hr.
  destruct (ledger_get_debt db k r Hok Hr) as (c & _ & Hd).
  pose proof (ledger_ok_payments_at db k r Hok Hr) as Hsum.
  unfold debt_paid_total in Hsum. rewrite (map_sumZ_delete _ _ pid _ Hp) in Hsum.
  rewrite payment_share_same in Hsum by done. simpl in Hsum.
  unfold PaymentDetailView_destroy, PaymentDetailView_get_object, authenticated.
  rewrite Hu; simpl. rewrite Hq; simpl. unfold get_payment. rewrite Hp; simpl. rewrite Hd; simpl.
  eexists; split; [reflexivity|]. intros [_ _ _ _ _ Hpay _ _ _]; simpl in Hpay.
  specialize (Hpay k r Hr); simpl in Hpay. unfold debt_paid_total in Hpay. lia.
Qed.

Lemma payment_destroy_keeps_debt_witness :
  ∃ db', PaymentDetailView_destroy demo_store3 demo_rq 0 = Ok db' ∧ ¬ ledger_ok db'.
Proof.
  apply (payment_destroy_keeps_debt demo_store3 demo_rq demo_user 0 1 4000 5);
    [apply (bool_decide_unpack _); vm_compute; reflexivity | reflexivity
    | vm_compute; reflexivity | lia].
Defined.

(** C37 (finding, [DebtSerializer.validate]): every [PATCH /debts/<pk>/]
    whose body has no [total_amount] fails with [TypeError] (an HTTP 500):
    [attrs.get('total_amount')] is [None] and [None < 0] raises. *)
Theorem debt_patch_without_total db rq u pk d data :
  rq.(req_user) = Some u → DebtDetailView_get_object db u pk = Ok d →
  data.(data_total_amount) = None →
  (∀ k, data.(data_client) = Some k → is_Some (debt_client_queryset db u k)) →
  DebtDetailView_update db rq pk true data = Err TypeError.
Proof.
  intros Hu Hd Ht Hk. unfold DebtDetailView_update, authenticated. rewrite Hu; simpl.
  rewrite Hd; simpl. unfold DebtSerializer_is_valid, DebtSerializer_fields, opt_field, pk_related.
  rewrite Ht. destruct (data_client data) as [k|]; simpl; [|done].
  destruct (Hk k eq_refl) as [c ->]. done.
Qed.

Lemma debt_patch_without_total_witness :
  DebtDetailView_update demo_store3 demo_rq 1 true (mkDebtData None None (Some 200)) = Err TypeError.
Proof.
  apply (debt_patch_without_total _ _ demo_user _ (debts.mkDebt (Some 1%N)
           (clients.mkClient 0 "Ali" "+998901234567" 6000 (Some 1%N)) 10000 6000 130 false));
    [reflexivity | vm_compute; reflexivity | reflexivity | simpl; congruence].
Defined.

(** C34 (finding, [DebtDetailView] PUT, spec section 9): in a consistent
    store, a [PUT] that keeps a debt's client and sets a (valid,
    non-negative) [total_amount] below what remains succeeds: [Debt.save]
    does not touch [remaining_amount] for a stored debt, so the debt now
    has [remaining_amount > total_amount]. *)
Theorem debt_update_total_below_remaining db rq u k r t :
  ledger_ok db → rq.(req_user) = Some u → DebtDetailView_get_queryset db u !! k = Some r →
  decimal_fits t = true → 0 ≤ t < r.(debts.row_remaining_amount) →
  ∃ d db', DebtDetailView_update db rq k false (mkDebtData (Some r.(debts.client_id)) (Some t) None)
             = Ok (d, db') ∧ ¬ ledger_ok db'.
Proof.
  intros Hok Hu Hq Hfit Ht.
  destruct (DebtDetailView_get_object_ok db u k r Hok Hq) as [Hr (comp & c & Hcomp & Hc & Hcc & Hd)].
  pose proof (ok_seq db Hok k r Hr) as Hk; simpl in Hk.
  unfold DebtDetailView_update, authenticated. rewrite Hu; simpl. rewrite Hd; simpl.
  unfold DebtSerializer_is_valid, DebtSerializer_fields, DebtSerializer_validate, opt_field,
    pk_related, decimal_field, debt_client_queryset; simpl.
  rewrite Hc; simpl. rewrite bool_decide_true by congruence; simpl. rewrite Hfit; simpl.
  rewrite bool_decide_true by lia; simpl.
  match goal with |- context [Ok ?res] => exists res.1, res.2 end.
  split; [by rewrite <-surjective_pairing|].
  unfold DebtSerializer_update; simpl. rewrite (Debt_save_existing _ _ k) by (done || lia).
  intros [_ _ _ Hbnd _ _ _ _ _]; simpl in Hbnd.
  specialize (Hbnd k _ (lookup_insert_eq _ _ _)); simpl in Hbnd. lia.
Qed.

Lemma debt_update_total_below_remaining_witness :
  ∃ d db', DebtDetailView_update demo_store3 demo_rq 1 false (mkDebtData (Some 0%N) (Some 1000) None)
             = Ok (d, db') ∧ ¬ ledger_ok db'.
Proof.
  apply (debt_update_total_below_remaining demo_store3 demo_rq demo_user 1 demo_row3 1000);
    [apply (bool_decide_unpack _); vm_compute; reflexivity | reflexivity
    | vm_compute; reflexivity | reflexivity | simpl; lia].
Defined.

(** ** A caller without a company *)

(** C23 (spec_code_divergence, caller without a company): for an
    authenticated user whose [company] is [None], the debt listing, the
    debt detail queryset, the payment listing and the payments of any debt
    are empty (so every detail view answers [NotFound]), while
    [GET /clients/] raises a [ValueError] (a server error) instead of an
    authorization error. *)
Theorem no_company_caller db rq u today f did :
  rq.(req_user) = Some u → u.(users.company) = None →
  DebtListCreateView_get_queryset db u today f = ∅ ∧ DebtDetailView_get_queryset db u = ∅ ∧
  Payment_get_queryset db u = ∅ ∧ DebtDetailPaymentView_get_queryset db u did = ∅ ∧
  ClientListCreateView_list db rq = Err ValueError.
Proof.
  intros Hu Hc. unfold DebtListCreateView_get_queryset, DebtDetailView_get_queryset,
    Payment_get_queryset, DebtDetailPaymentView_get_queryset, ClientListCreateView_list,
    authenticated.
  rewrite Hu, Hc; simpl. rewrite Hc. split_and!; try done. by case_match.
Qed.

Lemma no_company_caller_witness :
  let u := users.mkUser 9 None users.MANAGER None "seller" "pbkdf2" "Ali" "Valiyev" None in
  DebtListCreateView_get_queryset two_company_store u 100 None = ∅ ∧
  DebtDetailView_get_queryset two_company_store u = ∅ ∧
  Payment_get_queryset two_company_store u = ∅ ∧
  DebtDetailPaymentView_get_queryset two_company_store u 1 = ∅ ∧
  ClientListCreateView_list two_company_store (mkRequest (Some u) 100) = Err ValueError.
Proof. intros u. apply (no_company_caller _ (mkRequest (Some u) 100)); reflexivity. Defined.
