(* ===== verification/Access.v ===== *)
(** * Access: the company scoping of the views (spec's Access Scope Guard)

    The code has no single guard: each view filters by
    [request.user.company] on its own ([get_queryset] of the debt and
    payment views, the [client] queryset of [DebtSerializer], the explicit
    comparison in [ClientListDebtsView]).  This file states what those
    filters return: the listing endpoint's [all]/[overdue] filter exactly,
    the company of every row any queryset returns, the company of the
    client a new debt is opened for, and the behaviour for a caller without
    a company. *)

From S2P Require Import Prelude Models DebtModel PaymentModel Serializers Views DetailViews.

(** The company a debt row belongs to, through its client. *)
Definition row_company (db : Store) (r : debts.Row) : option (option N) :=
  clients.company <$> db.(clients_tbl) !! r.(debts.client_id).

Lemma debt_of_company_spec db comp r :
  debt_of_company db comp r = true ↔ row_company db r = Some (Some comp).
Proof.
  unfold debt_of_company, row_company.
  destruct (db.(clients_tbl) !! r.(debts.client_id)); simpl; [|done].
  rewrite bool_decide_eq_true. split; [by intros -> | by intros [= ->]].
Qed.

(** C22 (functional, [DebtListCreateView.get_queryset]): for a caller of
    company [comp], [GET /debts/] (no filter, i.e. [filter=all]) returns
    exactly the debts whose client belongs to [comp]; [?filter=overdue]
    returns exactly those that are also due before today and not paid;
    any other filter value returns nothing. *)
Theorem debt_list_filters db u comp today :
  u.(users.company) = Some comp →
  (∀ k r, DebtListCreateView_get_queryset db u today None !! k = Some r ↔
          db.(debts_tbl) !! k = Some r ∧ row_company db r = Some (Some comp)) ∧
  (∀ k r, DebtListCreateView_get_queryset db u today (Some "overdue"%string) !! k = Some r ↔
          db.(debts_tbl) !! k = Some r ∧ row_company db r = Some (Some comp) ∧
          r.(debts.row_due_date) < today ∧ r.(debts.row_is_paid) = false) ∧
  (∀ s, s ≠ "all"%string → s ≠ "overdue"%string →
        DebtListCreateView_get_queryset db u today (Some s) = ∅).
Proof.
  intros Hu. unfold DebtListCreateView_get_queryset. rewrite Hu. split_and!.
  - intros k r. simpl. rewrite map_lookup_filter_Some; simpl.
    by rewrite debt_of_company_spec.
  - intros k r. simpl. rewrite map_lookup_filter_Some; simpl.
    by rewrite debt_of_company_spec.
  - intros s H1 H2. simpl. by rewrite !bool_decide_false.
Qed.

Lemma debt_list_filters_witness :
  let u := users.mkUser 5 (Some 1%N) users.SELLER None "seller" "pbkdf2" "Ali" "Valiyev" None in
  (∀ k r, DebtListCreateView_get_queryset two_company_store u 100 None !! k = Some r ↔
          two_company_store.(debts_tbl) !! k = Some r ∧
          row_company two_company_store r = Some (Some 1%N)) ∧
  (∀ k r, DebtListCreateView_get_queryset two_company_store u 100 (Some "overdue"%string) !! k = Some r ↔
          two_company_store.(debts_tbl) !! k = Some r ∧
          row_company two_company_store r = Some (Some 1%N) ∧
          r.(debts.row_due_date) < 100 ∧ r.(debts.row_is_paid) = false) ∧
  (∀ s, s ≠ "all"%string → s ≠ "overdue"%string →
        DebtListCreateView_get_queryset two_company_store u 100 (Some s) = ∅).
Proof. intros u. apply (debt_list_filters two_company_store u 1%N 100). reflexivity. Defined.

(** ** Every queryset is scoped to the caller's company *)

Lemma filter_lookup_Some_l `{Countable K} {A} (P : K * A → Prop) `{∀ x, Decision (P x)}
    (m : gmap K A) k x :
  filter P m !! k = Some x → m !! k = Some x ∧ P (k, x).
Proof. by rewrite map_lookup_filter_Some. Qed.

(** C19 (safety, spec's Access Scope Guard): whatever the filter, every
    debt row of [GET /debts/] and of the detail views' queryset belongs, through its
    client, to the caller's company; every payment row of
    [GET /payments/] hangs off a debt of that company; and the payments
    [GET /debts/<id>/payments/] returns are those of debt [id], itself of
    the caller's company.  A caller without a company sees nothing. *)
Theorem querysets_scoped db u today f did k :
  (∀ r, DebtListCreateView_get_queryset db u today f !! k = Some r →
        ∃ comp, u.(users.company) = Some comp ∧ db.(debts_tbl) !! k = Some r ∧
                row_company db r = Some (Some comp)) ∧
  (∀ r, DebtDetailView_get_queryset db u !! k = Some r →
        ∃ comp, u.(users.company) = Some comp ∧ db.(debts_tbl) !! k = Some r ∧
                row_company db r = Some (Some comp)) ∧
  (∀ p, Payment_get_queryset db u !! k = Some p →
        ∃ comp r, u.(users.company) = Some comp ∧ db.(payments_tbl) !! k = Some p ∧
                  db.(debts_tbl) !! p.(payments.debt_id) = Some r ∧
                  row_company db r = Some (Some comp)) ∧
  (∀ p, DebtDetailPaymentView_get_queryset db u did !! k = Some p →
        ∃ comp d, u.(users.company) = Some comp ∧ db.(payments_tbl) !! k = Some p ∧
                  p.(payments.debt_id) = did ∧ get_debt db did = Some d ∧
                  d.(debts.client).(clients.company) = Some comp).
Proof.
  unfold DebtListCreateView_get_queryset, DebtDetailView_get_queryset, Payment_get_queryset,
    DebtDetailPaymentView_get_queryset.
  destruct (users.company u) as [comp|]; [|by split_and!; intros ?; repeat case_match; rewrite lookup_empty].
  split_and!.
  - intros r. repeat case_match; [..|by rewrite lookup_empty];
      intros [? Hr]%filter_lookup_Some_l; simpl in Hr;
      exists comp; rewrite <-debt_of_company_spec; naive_solver.
  - intros r [? Hr]%filter_lookup_Some_l; simpl in Hr.
    exists comp. by rewrite <-debt_of_company_spec.
  - intros p [? Hp]%filter_lookup_Some_l; simpl in Hp. unfold payment_of_company in Hp.
    destruct (debts_tbl db !! payments.debt_id p) as [r|] eqn:?; [|done].
    exists comp, r. by rewrite <-debt_of_company_spec.
  - intros p. destruct (get_debt db did) as [d|]; [|by rewrite lookup_empty].
    case_bool_decide as Hc; [by rewrite lookup_empty|].
    intros [? Hp]%filter_lookup_Some_l; simpl in Hp.
    exists comp, d. split_and!; try done; by apply dec_stable.
Qed.

(** ** Debt creation and the client's debts *)

(** The debt [POST /debts/] stores belongs to the caller's company: its row,
    under the next sequence value, points at a client whose company is the
    caller's ([debt_client_queryset] compares [client.company] with
    [user.company]; a caller without a company can only reach clients
    without one). *)
Lemma Debt_save_new_row d db :
  d.(debts.id) = None →
  (Debt_save d db).2.(debts_tbl) !! db.(debt_seq) = Some (new_debt_row d) ∧
  row_company (Debt_save d db).2 (new_debt_row d) = Some d.(debts.client).(clients.company).
Proof.
  intros Hid. rewrite (Debt_save_new d db Hid). unfold row_company; simpl.
  by rewrite !lookup_insert_eq.
Qed.

(** (safety, spec's Access Scope Guard on creation): a successful
    [POST /debts/] inserts one new row, under the sequence value, whose
    client has the caller's company. *)
Theorem debt_create_scoped db rq data d db' :
  DebtListCreateView_create db rq data = Ok (d, db') →
  ∃ u r, rq.(req_user) = Some u ∧ db'.(debts_tbl) !! db.(debt_seq) = Some r ∧
         row_company db' r = Some u.(users.company).
Proof.
  intros (u & k & c & t & Hu & _ & _ & Hcomp & _ & _ & _ & Hsave)%DebtListCreateView_create_Ok.
  destruct (Debt_save_new_row (debts.mkDebt None c t 0
              (default (default_due_date rq.(req_today)) data.(data_due_date)) false) db)
    as [Hr Hc]; [done|].
  rewrite <-Hsave in Hr, Hc; simpl in *.
  eexists u, _. split_and!; [done | exact Hr | by rewrite Hc, Hcomp].
Qed.

Lemma debt_create_scoped_witness :
  match DebtListCreateView_create settled_store settled_rq (mkDebtData (Some 0%N) (Some 500) None) with
  | Ok (d, db') => ∃ u r, settled_rq.(req_user) = Some u ∧
                     db'.(debts_tbl) !! settled_store.(debt_seq) = Some r ∧
                     row_company db' r = Some u.(users.company)
  | Err _ => False
  end.
Proof.
  destruct (DebtListCreateView_create _ _ _) as [[d db']|e] eqn:E;
    [exact (debt_create_scoped _ _ _ _ _ E) | vm_compute in E; discriminate].
Defined.

