(* ===== verification/Users.v ===== *)
(** * Users: the users app ([users/models.py], [users/serializers.py], [users/views.py])

    [User.save] runs [clean] ([check_email], then [check_username]) before
    the row is written; registration validates, lower-cases the e-mail and
    calls [create_user]; login looks the user up by lower-cased e-mail and
    checks the password.  The users table is a [gmap] from the (uuid)
    primary key to the stored [User].

    Library behaviour the code calls is a parameter of the section:
    [email_ok] ([EmailField]'s validator), [password_ok]
    ([validate_password] with the project's validators) and
    [make_password] (the password hasher; [check_password raw u] holds when
    the stored value is [make_password raw]).  [random.randint(0,9)] is an
    oracle: the list of digits drawn, in order; [uuid4()] likewise. *)

From S2P Require Import Prelude Models Views.

(** ** [str.lower] on ASCII *)

Definition lower_char (a : Ascii.ascii) : Ascii.ascii :=
  let n := Ascii.nat_of_ascii a in
  if (65 <=? n)%nat && (n <=? 90)%nat then Ascii.ascii_of_nat (n + 32) else a.

Fixpoint lower (s : string) : string :=
  match s with
  | EmptyString => EmptyString
  | String a s => String (lower_char a) (lower s)
  end.

(** [str.isspace] on ASCII: [\t \n \v \f \r], [\x1c]-[\x1f] and space. *)
Definition is_space (a : Ascii.ascii) : bool :=
  let n := Ascii.nat_of_ascii a in ((9 <=? n) && (n <=? 13) || (28 <=? n) && (n <=? 32))%nat.

Fixpoint drop_spaces (l : list Ascii.ascii) : list Ascii.ascii :=
  match l with
  | a :: l' => if is_space a then drop_spaces l' else l
  | [] => []
  end.

(** [str.strip()], as [CharField] applies it ([trim_whitespace=True]). *)
Definition strip (s : string) : string :=
  String.string_of_list_ascii
    (rev (drop_spaces (rev (drop_spaces (String.list_ascii_of_string s))))).

(** [strip] leaves alone a string without white space. *)
Lemma strip_clean s : Forall (λ c, is_space c = false) (String.list_ascii_of_string s) → strip s = s.
Proof.
  intros Hall. unfold strip.
  assert (∀ l, Forall (λ c, is_space c = false) l → drop_spaces l = l) as Hdrop
    by (intros [|c l] Hl; [done|]; inversion Hl; simpl; by rewrite H1).
  rewrite (Hdrop _ Hall), Hdrop, rev_involutive; [apply String.string_of_list_ascii_of_string|].
  by apply Forall_rev.
Qed.

Lemma lower_char_idem a : lower_char (lower_char a) = lower_char a.
Proof. destruct a as [[] [] [] [] [] [] [] []]; reflexivity. Qed.

Lemma lower_idem s : lower (lower s) = lower s.
Proof. induction s as [|a s IH]; simpl; [done|]. by rewrite lower_char_idem, IH. Qed.

Lemma string_length_app s t : String.length (s +:+ t) = (String.length s + String.length t)%nat.
Proof. induction s; simpl; auto. Qed.

(** ** The users table *)

Abbreviation user_table := (gmap N users.User).

Definition set_email (e : option string) (u : users.User) : users.User :=
  users.mkUser u.(users.id) u.(users.company) u.(users.user_roles) e u.(users.username)
    u.(users.password) u.(users.first_name) u.(users.last_name) u.(users.phone_number).

Definition set_username (n : string) (u : users.User) : users.User :=
  users.mkUser u.(users.id) u.(users.company) u.(users.user_roles) u.(users.email) n
    u.(users.password) u.(users.first_name) u.(users.last_name) u.(users.phone_number).

(** [User.objects.filter(username=...)] ranges over these. *)
Definition usernames (tbl : user_table) : gset string := map_img (users.username <$> tbl).

Lemma elem_of_usernames tbl t :
  t ∈ usernames tbl ↔ ∃ k u, tbl !! k = Some u ∧ u.(users.username) = t.
Proof.
  unfold usernames. rewrite elem_of_map_img. setoid_rewrite lookup_fmap.
  setoid_rewrite fmap_Some. naive_solver.
Qed.

(** ** [User.clean] *)

(** [check_email] (lines 44-47): [if self.email:] skips [None] and the
    empty string. *)
Definition check_email (u : users.User) : users.User :=
  match u.(users.email) with
  | Some e => if bool_decide (e = EmptyString) then u else set_email (Some (lower e)) u
  | None => u
  end.

Definition digit (n : nat) : string := String (Ascii.ascii_of_nat (48 + n mod 10)) EmptyString.

(** The [while] loop of [check_username] (lines 40-41): append the drawn
    digit while the candidate is taken.  [None] when the draws run out. *)
Fixpoint username_loop (taken : gset string) (t : string) (ds : list nat) : option string :=
  if bool_decide (t ∈ taken) then
    match ds with
    | [] => None
    | d :: ds => username_loop taken (t +:+ digit d) ds
    end
  else Some t.

(** [check_username] (lines 37-42); [tail] is the last group of the drawn
    [uuid4()]. *)
Definition check_username (tbl : user_table) (tail : string) (ds : list nat) (u : users.User)
    : option users.User :=
  if bool_decide (u.(users.username) = EmptyString) then
    t ← username_loop (usernames tbl) ("instagram-" +:+ tail) ds;
    Some (set_username t u)
  else Some u.

Definition clean (tbl : user_table) (tail : string) (ds : list nat) (u : users.User)
    : option users.User :=
  check_username tbl tail ds (check_email u).

(** The unique columns of [User]: [username] (from [AbstractUser]),
    [email] and [phone_number] (nullable, so [NULL] never conflicts). *)
Definition unique_user_ok (tbl : user_table) (u : users.User) : bool :=
  bool_decide (map_Forall (λ k v, k ≠ u.(users.id) →
    v.(users.username) ≠ u.(users.username) ∧
    (v.(users.email) = None ∨ v.(users.email) ≠ u.(users.email)) ∧
    (v.(users.phone_number) = None ∨ v.(users.phone_number) ≠ u.(users.phone_number))) tbl).

(** [User.save] (lines 61-63): [clean], then the row write under the
    primary key, refused by the unique constraints.  The outer [option] is
    [None] when the username loop has not stopped within the draws. *)
Definition User_save (tbl : user_table) (tail : string) (ds : list nat) (u : users.User)
    : option (result (users.User * user_table)) :=
  u ← clean tbl tail ds u;
  Some (if unique_user_ok tbl u then Ok (u, <[u.(users.id) := u]> tbl) else Err IntegrityError).

(** ** The username loop stops *)

(** The taken names at least as long as the candidate. *)
Definition taken_from (taken : gset string) (t : string) : gset string :=
  filter (λ s, String.length t ≤ String.length s)%nat taken.

Lemma taken_from_step taken t d :
  t ∈ taken → taken_from taken (t +:+ digit d) ⊂ taken_from taken t.
Proof.
  intros Ht. unfold taken_from. rewrite string_length_app; simpl. split.
  - intros s. rewrite !elem_of_filter. intros [Hl Hs]. split; [lia | done].
  - intros Hsub. specialize (Hsub t). rewrite !elem_of_filter in Hsub.
    destruct Hsub as [Hl _]; [split; [lia | done] | lia].
Qed.

(** Each candidate is one digit longer than the last, so once the draws
    outnumber the taken names that are long enough, a free name is found,
    whatever digits are drawn; the name found is free. *)
Lemma username_loop_total taken t ds :
  (size (taken_from taken t) ≤ length ds)%nat →
  ∃ n, username_loop taken t ds = Some n ∧ n ∉ taken.
Proof.
  revert t. induction ds as [|d ds IH]; intros t Hsize; simpl; case_bool_decide as Ht; eauto.
  - assert (t ∈ taken_from taken t) by (apply elem_of_filter; auto).
    assert (taken_from taken t ≢ ∅) as Hne by set_solver.
    apply size_non_empty_iff in Hne. simpl in Hsize. lia.
  - apply IH. pose proof (subset_size _ _ (taken_from_step taken t d Ht)). simpl in Hsize. lia.
Qed.

Lemma taken_from_size taken t : (size (taken_from taken t) ≤ size taken)%nat.
Proof. apply subseteq_size. unfold taken_from. intros s. rewrite elem_of_filter. tauto. Qed.

Lemma check_email_id u : (check_email u).(users.id) = u.(users.id).
Proof. unfold check_email. by repeat case_match. Qed.

Lemma check_email_username u : (check_email u).(users.username) = u.(users.username).
Proof. unfold check_email. by repeat case_match. Qed.

(** C26 (termination, [User.check_username]): when [random.randint] draws
    at least as many digits as there are stored usernames, [User.save]
    returns, whatever the digits: [clean] gives a user, which is written
    or refused by a unique constraint; a user saved without a username
    gets one no stored user has, and a given username is kept. *)
Theorem User_save_total tbl tail ds u :
  (size (usernames tbl) ≤ length ds)%nat →
  ∃ u', clean tbl tail ds u = Some u' ∧
    User_save tbl tail ds u =
      Some (if unique_user_ok tbl u' then Ok (u', <[u'.(users.id) := u']> tbl)
            else Err IntegrityError) ∧
    (u.(users.username) = EmptyString → u'.(users.username) ∉ usernames tbl) ∧
    (u.(users.username) ≠ EmptyString → u'.(users.username) = u.(users.username)).
Proof.
  intros Hsize. unfold User_save, clean, check_username. rewrite check_email_username.
  case_bool_decide as Hn.
  - destruct (username_loop_total (usernames tbl) ("instagram-" +:+ tail) ds) as (n & Hl & Hfree).
    { pose proof (taken_from_size (usernames tbl) ("instagram-" +:+ tail)). lia. }
    rewrite Hl; simpl. eexists; split_and!; [done | done | by intros | done].
  - simpl. eexists; split_and!; [done | done | done | by rewrite check_email_username].
Qed.

Definition taken_user : users.User :=
  users.mkUser 1 (Some 1%N) users.SELLER None "instagram-0a1b2c3d4e5f" "pbkdf2" "Ali" "Valiyev" None.

Lemma User_save_total_witness :
  ∃ u', clean {[1%N := taken_user]} "0a1b2c3d4e5f" [3%nat]
          (set_username EmptyString (users.mkUser 2 None users.SELLER None "x" "pbkdf2" "Vali" "Aliyev" None))
        = Some u' ∧
    User_save {[1%N := taken_user]} "0a1b2c3d4e5f" [3%nat]
      (set_username EmptyString (users.mkUser 2 None users.SELLER None "x" "pbkdf2" "Vali" "Aliyev" None)) =
      Some (if unique_user_ok {[1%N := taken_user]} u' then Ok (u', <[u'.(users.id) := u']> {[1%N := taken_user]})
            else Err IntegrityError) ∧
    (EmptyString = EmptyString → u'.(users.username) ∉ usernames {[1%N := taken_user]}) ∧
    (EmptyString ≠ EmptyString → u'.(users.username) = EmptyString).
Proof. apply User_save_total. vm_compute. lia. Defined.

(** ** The users table invariant *)

(** A unique column: two rows with the same non-null value are one row. *)
Definition unique_on {A} (f : users.User → option A) (tbl : user_table) : Prop :=
  ∀ k1 k2 u1 u2, tbl !! k1 = Some u1 → tbl !! k2 = Some u2 →
    f u1 = f u2 → is_Some (f u1) → k1 = k2.

Record users_ok (tbl : user_table) : Prop := {
  uok_keys : map_Forall (λ k u, u.(users.id) = k) tbl;
  uok_lower : map_Forall (λ _ u, ∀ e, u.(users.email) = Some e → lower e = e) tbl;
  uok_email : unique_on users.email tbl;
  uok_username : unique_on (λ u, Some u.(users.username)) tbl;
  uok_phone : unique_on users.phone_number tbl
}.

Lemma unique_on_insert {A} (f : users.User → option A) tbl u :
  unique_on f tbl →
  (∀ k v, tbl !! k = Some v → k ≠ u.(users.id) → f v = None ∨ f v ≠ f u) →
  unique_on f (<[u.(users.id) := u]> tbl).
Proof.
  intros Hu Hnew k1 k2 u1 u2 H1 H2 Heq Hs.
  apply lookup_insert_Some in H1 as [[<- <-]|[Hk1 H1]];
  apply lookup_insert_Some in H2 as [[<- <-]|[Hk2 H2]]; try done.
  - destruct (Hnew k2 u2 H2 (not_eq_sym Hk2)) as [Hn|Hn]; [|done]. rewrite Hn in Heq.
    by rewrite Heq in Hs.
  - destruct (Hnew k1 u1 H1 (not_eq_sym Hk1)) as [Hn|Hn]; [by rewrite Hn in Hs | done].
  - by apply (Hu k1 k2 u1 u2).
Qed.

Lemma unique_user_ok_spec tbl u :
  unique_user_ok tbl u = true →
  ∀ k v, tbl !! k = Some v → k ≠ u.(users.id) →
    v.(users.username) ≠ u.(users.username) ∧
    (v.(users.email) = None ∨ v.(users.email) ≠ u.(users.email)) ∧
    (v.(users.phone_number) = None ∨ v.(users.phone_number) ≠ u.(users.phone_number)).
Proof. unfold unique_user_ok. rewrite bool_decide_eq_true. intros Hall k v Hk. exact (Hall k v Hk). Qed.

Lemma check_email_lower u e : (check_email u).(users.email) = Some e → lower e = e.
Proof.
  unfold check_email. destruct (users.email u) as [e'|] eqn:He; [|by rewrite He].
  case_bool_decide; simpl.
  - rewrite He. by intros [= <-]; subst.
  - intros [= <-]. apply lower_idem.
Qed.

(** What [clean] changes: the e-mail (lower-cased) and, when empty, the
    username. *)
Lemma check_email_password u : (check_email u).(users.password) = u.(users.password).
Proof. unfold check_email. by repeat case_match. Qed.

Lemma clean_Some tbl tail ds u u' :
  clean tbl tail ds u = Some u' →
  u'.(users.id) = u.(users.id) ∧ u'.(users.email) = (check_email u).(users.email) ∧
  u'.(users.password) = u.(users.password).
Proof.
  unfold clean, check_username. case_bool_decide.
  - destruct (username_loop _ _ _); simpl; [|done]. intros [= <-]. simpl.
    by rewrite check_email_id, check_email_password.
  - intros [= <-]. by rewrite check_email_id, check_email_password.
Qed.

Lemma User_save_Ok tbl tail ds u0 u tbl' :
  User_save tbl tail ds u0 = Some (Ok (u, tbl')) →
  clean tbl tail ds u0 = Some u ∧ tbl' = <[u.(users.id) := u]> tbl.
Proof.
  unfold User_save. destruct (clean tbl tail ds u0); simpl; [|done].
  case_match; intros; by simplify_eq.
Qed.

Lemma check_email_lowered u s :
  u.(users.email) = Some s → lower s = s → (check_email u).(users.email) = Some s.
Proof. unfold check_email. intros He Hs. rewrite He. case_bool_decide; simpl; [done|]. by rewrite Hs. Qed.

(** C25 (invariant, [User.save]): a save that succeeds keeps the users
    table consistent: each row under its own id, every stored e-mail
    lower-case, and [username], [email], [phone_number] unique. *)
Theorem User_save_ok tbl tail ds u u' tbl' :
  users_ok tbl → User_save tbl tail ds u = Some (Ok (u', tbl')) → users_ok tbl'.
Proof.
  intros Hok Hs. unfold User_save in Hs.
  destruct (clean tbl tail ds u) as [u0|] eqn:Hc; simpl in Hs; [|done].
  destruct (unique_user_ok tbl u0) eqn:Hq; simplify_eq.
  destruct (clean_Some _ _ _ _ _ Hc) as (Hid & Hem & _).
  pose proof (unique_user_ok_spec _ _ Hq) as Hnew.
  destruct Hok as [Hk Hl He Hn Hp]. split.
  - by apply map_Forall_insert_2.
  - apply map_Forall_insert_2; [|done]. intros e. rewrite Hem. apply check_email_lower.
  - apply unique_on_insert; [done|]. intros k v ? ?. apply (Hnew k v); done.
  - apply unique_on_insert; [done|]. intros k v ? ?. right. intros [=]. by apply (Hnew k v).
  - apply unique_on_insert; [done|]. intros k v ? ?. apply (Hnew k v); done.
Qed.

Lemma users_ok_empty : users_ok ∅.
Proof. split; try apply map_Forall_empty; intros k1 k2 u1 u2; by rewrite lookup_empty. Qed.

Lemma users_ok_singleton k u :
  u.(users.id) = k → (∀ e, u.(users.email) = Some e → lower e = e) → users_ok {[k := u]}.
Proof.
  intros Hid Hl. split; try (apply map_Forall_singleton; done);
    intros k1 k2 u1 u2 H1 H2; apply lookup_singleton_Some in H1 as [<- _];
    by apply lookup_singleton_Some in H2 as [<- _].
Qed.

(** ** Registration and login *)

Section auth.
Context (email_ok username_ok password_ok : string → bool) (make_password : string → string).

(** [AbstractBaseUser.check_password]. *)
Definition check_password (raw : string) (u : users.User) : bool :=
  bool_decide (u.(users.password) = make_password raw).

(** [CharField] with [allow_blank=False]: stripped, then refused when empty. *)
Definition nonblank_field (s : string) : result string :=
  let s := strip s in
  if bool_decide (s = EmptyString) then raise (ValidationError RequiredField) else Ok s.

(** [ChoiceField] over [USER_ROLES]. *)
Definition role_field (s : string) : result users.role :=
  if bool_decide (s = "seller"%string) then Ok users.SELLER
  else if bool_decide (s = "manager"%string) then Ok users.MANAGER
  else raise (ValidationError InvalidChoice).

(** [UniqueValidator(queryset=User.objects.all())]: an exact comparison. *)
Definition unique_field {A} `{EqDecision A} (f : users.User → A) (tbl : user_table) (x : A) : result A :=
  check bool_decide (map_Forall (λ _ v, f v ≠ x) tbl) else ValidationError NotUnique;
  Ok x.

(** The body of [POST /auth/register/]: a key may be absent ([None]); the
    e-mail may also be [null] ([Some None]). *)
Record RegistrationData := mkRegistrationData {
  reg_email : option (option string);
  reg_password : option string;
  reg_confirm_password : option string;
  reg_user_roles : option string;
  reg_username : option string
}.

Record RegistrationAttrs := mkRegistrationAttrs {
  attr_email : option (option string);
  attr_password : string;
  attr_confirm_password : string;
  attr_user_roles : option users.role;
  attr_username : string
}.

(** The fields of [UserRegistrationSerializer] (lines 8-14 of
    [users/serializers.py]): [email] optional, nullable, blank allowed,
    unique; [password] required with [validate_password];
    [confirm_password] required; [user_roles] optional choice; [username]
    required, [UnicodeUsernameValidator], unique. *)
Definition registration_email_field (tbl : user_table) (x : option (option string))
    : result (option (option string)) :=
  match x with
  | Some (Some e) =>
      let e := strip e in
      check (bool_decide (e = EmptyString) || email_ok e) else ValidationError InvalidEmail;
      e ← unique_field users.email tbl (Some e); Ok (Some e)
  | Some None => Ok (Some None)
  | None => Ok None
  end.

Definition UserRegistrationSerializer_fields (tbl : user_table) (data : RegistrationData)
    : result RegistrationAttrs :=
  e ← registration_email_field tbl data.(reg_email);
  pw ← of_option (ValidationError RequiredField) data.(reg_password);
  pw ← nonblank_field pw;
  check password_ok pw else ValidationError WeakPassword;
  cpw ← of_option (ValidationError RequiredField) data.(reg_confirm_password);
  cpw ← nonblank_field cpw;
  r ← match data.(reg_user_roles) with
      | Some s => r ← role_field s; Ok (Some r)
      | None => Ok None
      end;
  n ← of_option (ValidationError RequiredField) data.(reg_username);
  n ← nonblank_field n;
  check bool_decide (String.length n ≤ 150)%nat else ValidationError MaxLength;
  check username_ok n else ValidationError InvalidUsername;
  n ← unique_field users.username tbl n;
  Ok (mkRegistrationAttrs e pw cpw r n).

(** [validate] (lines 16-20): [data['email'].lower()] raises [KeyError]
    when the key is absent and [AttributeError] on [None]. *)
Definition UserRegistrationSerializer_validate (a : RegistrationAttrs) : result (string * RegistrationAttrs) :=
  e ← match a.(attr_email) with
      | None => raise KeyError
      | Some None => raise AttributeError
      | Some (Some e) => Ok (lower e)
      end;
  check bool_decide (a.(attr_password) = a.(attr_confirm_password)) else ValidationError PasswordMismatch;
  Ok (e, a).

Definition fresh_user_id (tbl : user_table) : N := fresh (dom tbl).

(** [create] (lines 22-24) with [UserManager.create_user]: the model's
    defaults ([company=None], [user_roles=SELLER], empty names), the
    hashed password, then [User.save].  [normalize_email] only lower-cases
    the domain, which [validate] has already done. *)
Definition UserRegistrationSerializer_create (tbl : user_table) (tail : string) (ds : list nat)
    (v : string * RegistrationAttrs) : option (result (users.User * user_table)) :=
  let '(e, a) := v in
  User_save tbl tail ds
    (users.mkUser (fresh_user_id tbl) None (default users.SELLER a.(attr_user_roles)) (Some e)
       a.(attr_username) (make_password a.(attr_password)) EmptyString EmptyString None).

(** [UserRegistrationView.post] (lines 10-24 of [users/views.py]). *)
Definition UserRegistrationView_post (tbl : user_table) (tail : string) (ds : list nat)
    (data : RegistrationData) : option (result (users.User * user_table)) :=
  match a ← UserRegistrationSerializer_fields tbl data; UserRegistrationSerializer_validate a with
  | Ok v => UserRegistrationSerializer_create tbl tail ds v
  | Err e => Some (Err e)
  end.

(** [.first()] on an unordered queryset: the row with the least key. *)
Definition first_user (m : user_table) : option users.User :=
  match elements (dom m) with
  | [] => None
  | k :: ks => m !! foldr N.min k ks
  end.

Record LoginData := mkLoginData { login_email : option string; login_password : option string }.

(** [UserLoginSerializer] (lines 27-39): the fields, then [validate]. *)
Definition UserLoginSerializer_validate (tbl : user_table) (data : LoginData) : result users.User :=
  e ← of_option (ValidationError RequiredField) data.(login_email);
  e ← nonblank_field e;
  check email_ok e else ValidationError InvalidEmail;
  pw ← of_option (ValidationError RequiredField) data.(login_password);
  pw ← nonblank_field pw;
  let e := lower e in
  match first_user (filter (λ kv : N * users.User, kv.2.(users.email) = Some e) tbl) with
  | Some u => if check_password pw u then Ok u else raise (ValidationError BadCredentials)
  | None => raise (ValidationError BadCredentials)
  end.

(** [UserLoginView.post] (lines 27-42 of [users/views.py]); the tokens it
    adds are [simplejwt]'s and not modelled. *)
Definition UserLoginView_post (tbl : user_table) (data : LoginData) : result users.User :=
  UserLoginSerializer_validate tbl data.

(** [UserProfileView.get] (lines 53-59). *)
Definition UserProfileView_get (rq : Request) : result users.User := authenticated rq.

(** ** What registration stores, and what login finds *)

Lemma nonblank_field_Ok s s' : nonblank_field s = Ok s' → s' = strip s ∧ strip s ≠ EmptyString.
Proof. unfold nonblank_field. case_bool_decide; intros [=]; auto. Qed.

Lemma UserRegistrationSerializer_fields_Ok tbl data a :
  UserRegistrationSerializer_fields tbl data = Ok a →
  a.(attr_email) = match data.(reg_email) with Some (Some e) => Some (Some (strip e)) | x => x end ∧
  ∃ pw, data.(reg_password) = Some pw ∧ a.(attr_password) = strip pw ∧ strip pw ≠ EmptyString.
Proof.
  unfold UserRegistrationSerializer_fields, registration_email_field, unique_field.
  destruct (reg_email data) as [[e|]|], (reg_password data) as [pw|]; intros H; result_inv H;
    repeat match goal with Hn : nonblank_field _ = Ok _ |- _ =>
                             apply nonblank_field_Ok in Hn as [-> ?] end; eauto.
Qed.

Lemma foldr_min_elem k ks : foldr N.min k ks ∈ k :: ks.
Proof.
  induction ks as [|x ks IH]; simpl; [set_solver|].
  destruct (N.min_spec x (foldr N.min k ks)) as [[_ ->]|[_ ->]]; set_solver.
Qed.

(** A map whose only key is [k] has its value there as [.first()]. *)
Lemma first_user_single (m : user_table) k v :
  m !! k = Some v → (∀ k' v', m !! k' = Some v' → k' = k) → first_user m = Some v.
Proof.
  intros Hk Hall. unfold first_user.
  assert (k ∈ elements (dom m)) as Hin by (apply elem_of_elements, elem_of_dom; eauto).
  destruct (elements (dom m)) as [|k0 ks] eqn:He; [set_solver|].
  assert (foldr N.min k0 ks ∈ dom m) as Hd.
  { apply elem_of_elements. rewrite He. apply foldr_min_elem. }
  apply elem_of_dom in Hd as [v' Hv']. by rewrite (Hall _ _ Hv') in Hv' |- *; rewrite Hk in Hv'; simplify_eq.
Qed.

Lemma foldr_min_le k ks x : x ∈ k :: ks → (foldr N.min k ks ≤ x)%N.
Proof.
  induction ks as [|y ks IH]; simpl; intros Hx.
  - apply list_elem_of_singleton in Hx. lia.
  - rewrite !elem_of_cons in Hx.
    assert (x = k ∨ x ∈ ks → foldr N.min k ks ≤ x)%N as Hrest by (intros; apply IH, elem_of_cons; done).
    destruct Hx as [Hx|[Hx|Hx]]; [pose proof (Hrest (or_introl Hx)) | | pose proof (Hrest (or_intror Hx))];
      lia.
Qed.

(** (Equivalence, [.first()] in [UserLoginSerializer.validate]): the
    fold over the keys that models [.first()] agrees with its declarative
    meaning: it returns [v] exactly when [v] is stored under the least
    primary key of the queryset. *)
Theorem first_user_least (m : user_table) v :
  first_user m = Some v ↔ ∃ k, m !! k = Some v ∧ ∀ k' v', m !! k' = Some v' → (k ≤ k')%N.
Proof.
  unfold first_user. split.
  - destruct (elements (dom m)) as [|k0 ks] eqn:He; [done|]. intros Hv.
    exists (foldr N.min k0 ks). split; [done|]. intros k' v' Hk'.
    apply foldr_min_le. rewrite <-He. apply elem_of_elements, elem_of_dom. eauto.
  - intros (k & Hk & Hleast).
    assert (k ∈ elements (dom m)) as Hin by (apply elem_of_elements, elem_of_dom; eauto).
    destruct (elements (dom m)) as [|k0 ks] eqn:He; [set_solver|].
    assert (foldr N.min k0 ks ∈ dom m) as Hd.
    { apply elem_of_elements. rewrite He. apply foldr_min_elem. }
    apply elem_of_dom in Hd as [v' Hv'].
    pose proof (Hleast _ _ Hv'). pose proof (foldr_min_le k0 ks k Hin).
    by replace (foldr N.min k0 ks) with k by lia.
Qed.

Lemma UserRegistrationView_post_Ok tbl tail ds data u tbl' :
  UserRegistrationView_post tbl tail ds data = Some (Ok (u, tbl')) →
  ∃ e pw r n, data.(reg_email) = Some (Some e) ∧ data.(reg_password) = Some pw ∧
    strip pw ≠ EmptyString ∧
    User_save tbl tail ds (users.mkUser (fresh_user_id tbl) None r (Some (lower (strip e))) n
       (make_password (strip pw)) EmptyString EmptyString None) = Some (Ok (u, tbl')).
Proof.
  unfold UserRegistrationView_post.
  destruct (UserRegistrationSerializer_fields tbl data) as [a|] eqn:Hf; simpl; [|done].
  destruct (UserRegistrationSerializer_fields_Ok _ _ _ Hf) as [Hem (pw & Hpw & Hap & Hne)].
  unfold UserRegistrationSerializer_validate. rewrite Hem.
  destruct (reg_email data) as [[e|]|]; simpl; try done.
  case_bool_decide; simpl; [|done]. rewrite Hap. eauto 10.
Qed.

Lemma nonblank_field_strip s : strip s ≠ EmptyString → nonblank_field s = Ok (strip s).
Proof. intros Hs. unfold nonblank_field. by rewrite bool_decide_false. Qed.

(** C24 (roundtrip, registration then login): after a successful
    [POST /auth/register/] on a consistent users table, [POST /auth/login/]
    with the same password and an e-mail equal to the registered one up to
    surrounding spaces and letter case returns the registered user. *)
Theorem register_then_login tbl tail ds data u tbl' e e' pw :
  users_ok tbl →
  UserRegistrationView_post tbl tail ds data = Some (Ok (u, tbl')) →
  data.(reg_email) = Some (Some e) → data.(reg_password) = Some pw →
  lower (strip e') = lower (strip e) → strip e' ≠ EmptyString → email_ok (strip e') = true →
  UserLoginView_post tbl' (mkLoginData (Some e') (Some pw)) = Ok u.
Proof.
  intros Hok Hreg He Hpw Hlow Hne' Hok'.
  destruct (UserRegistrationView_post_Ok _ _ _ _ _ _ Hreg) as (e0 & pw0 & r & n & He0 & Hpw0 & Hne & Hs).
  rewrite He in He0. rewrite Hpw in Hpw0. simplify_eq.
  pose proof (User_save_ok _ _ _ _ _ _ Hok Hs) as Hok'2.
  apply User_save_Ok in Hs as [Hc ->]. destruct (clean_Some _ _ _ _ _ Hc) as (Hid & Hem & Hpass).
  rewrite (check_email_lowered _ (lower (strip e0))) in Hem by (done || apply lower_idem).
  unfold UserLoginView_post, UserLoginSerializer_validate; simpl.
  rewrite !nonblank_field_strip by done; simpl. rewrite Hok'; simpl. rewrite Hlow.
  rewrite (first_user_single _ u.(users.id) u).
  - unfold check_password. rewrite bool_decide_true; [done|]. by rewrite Hpass.
  - apply map_lookup_filter_Some. by rewrite lookup_insert_eq.
  - intros k' v' [Hk' Hv']%map_lookup_filter_Some. simpl in Hv'.
    apply (uok_email _ Hok'2 k' u.(users.id) v' u); [done | apply lookup_insert_eq | congruence | by eexists].
Qed.


(** A well-formed body passes the fields after [email]. *)
Lemma registration_fields_valid tbl eo eo' pw n :
  registration_email_field tbl eo = Ok eo' →
  strip pw ≠ EmptyString → password_ok (strip pw) = true → strip n ≠ EmptyString →
  (String.length (strip n) ≤ 150)%nat → username_ok (strip n) = true → strip n ∉ usernames tbl →
  UserRegistrationSerializer_fields tbl (mkRegistrationData eo (Some pw) (Some pw) None (Some n)) =
    Ok (mkRegistrationAttrs eo' (strip pw) (strip pw) None (strip n)).
Proof.
  intros Heo Hpw Hpok Hn Hlen Hnok Hfree.
  unfold UserRegistrationSerializer_fields, unique_field; simpl. rewrite Heo; simpl.
  rewrite !nonblank_field_strip by done; simpl. rewrite Hpok; simpl.
  rewrite bool_decide_true by done; simpl. rewrite Hnok; simpl.
  rewrite bool_decide_true; [done|]. intros k' v' Hk' Hv'. apply Hfree, elem_of_usernames. eauto.
Qed.

Lemma unique_user_ok_clash tbl u k v :
  tbl !! k = Some v → k ≠ u.(users.id) → v.(users.email) = u.(users.email) → is_Some v.(users.email) →
  unique_user_ok tbl u = false.
Proof.
  intros Hk Hid He [x Hx]. unfold unique_user_ok. apply bool_decide_false.
  intros Hall. destruct (Hall k v Hk Hid) as (_ & [Hn|Hn] & _); congruence.
Qed.

(** C27 (finding, [UserRegistrationSerializer]): the [UniqueValidator] on
    [email] compares the address as sent, and [validate] lower-cases it only
    afterwards.  On a consistent table holding [ali@x.uz], registering
    [Ali@x.uz] (otherwise well-formed, new username) passes validation and
    fails at the database with [IntegrityError], a server error instead of
    the 400 a duplicate address gets. *)
Theorem register_email_case_conflict tbl tail ds k v e pw n :
  users_ok tbl → tbl !! k = Some v → v.(users.email) = Some (lower (strip e)) →
  lower (strip e) ≠ strip e → email_ok (strip e) = true →
  strip pw ≠ EmptyString → password_ok (strip pw) = true →
  strip n ≠ EmptyString → (String.length (strip n) ≤ 150)%nat → username_ok (strip n) = true →
  strip n ∉ usernames tbl →
  UserRegistrationView_post tbl tail ds
    (mkRegistrationData (Some (Some e)) (Some pw) (Some pw) None (Some n)) = Some (Err IntegrityError).
Proof.
  intros Hok Hk Hv Hup Heok Hpw Hpok Hn Hlen Hnok Hfree.
  assert (strip e ≠ EmptyString) as He0 by (intros Hc; by rewrite Hc in Hup).
  assert (map_Forall (λ _ v0, users.email v0 ≠ Some (strip e)) tbl) as Hue.
  { intros k' v' Hk' Hv'. apply Hup. exact (uok_lower _ Hok k' v' Hk' _ Hv'). }
  unfold UserRegistrationView_post.
  rewrite (registration_fields_valid _ _ (Some (Some (strip e)))) by
    (done || (unfold registration_email_field, unique_field; simpl;
              rewrite bool_decide_false, Heok by done; simpl; by rewrite bool_decide_true)).
  simpl.
  unfold UserRegistrationSerializer_validate; simpl. rewrite bool_decide_true by done; simpl.
  unfold UserRegistrationSerializer_create, User_save, clean, check_username.
  rewrite check_email_username; simpl. rewrite bool_decide_false by done; simpl.
  rewrite (unique_user_ok_clash _ _ k v); [done | done | | | by rewrite Hv].
  - rewrite check_email_id; simpl. intros ->.
    apply (is_fresh (dom tbl)), elem_of_dom. eauto.
  - rewrite Hv, (check_email_lowered _ (lower (strip e))); [done | done | apply lower_idem].
Qed.

(** C29 (finding, [UserRegistrationSerializer.validate]): the model makes
    [email] optional and nullable, but [validate] reads
    [data['email'].lower()]: an otherwise well-formed registration without
    an [email] key fails with [KeyError], and one with [email: null] with
    [AttributeError], both server errors instead of a 400 or a user
    without an address. *)
Theorem register_email_missing tbl tail ds pw n :
  strip pw ≠ EmptyString → password_ok (strip pw) = true →
  strip n ≠ EmptyString → (String.length (strip n) ≤ 150)%nat → username_ok (strip n) = true →
  strip n ∉ usernames tbl →
  UserRegistrationView_post tbl tail ds (mkRegistrationData None (Some pw) (Some pw) None (Some n))
    = Some (Err KeyError) ∧
  UserRegistrationView_post tbl tail ds (mkRegistrationData (Some None) (Some pw) (Some pw) None (Some n))
    = Some (Err AttributeError).
Proof.
  intros. unfold UserRegistrationView_post.
  rewrite (registration_fields_valid _ None None), (registration_fields_valid _ (Some None) (Some None));
    done.
Qed.

End auth.

(** ** Concrete runs *)

Definition demo_hash (s : string) : string := "pbkdf2$" +:+ s.
Definition demo_password_ok (s : string) : bool := bool_decide (8 ≤ String.length s)%nat.

Definition stored_user : users.User :=
  users.mkUser 1 (Some 1%N) users.SELLER (Some "ali@x.uz") "ali" "pbkdf2$secret123" "Ali" "Valiyev" None.

Lemma stored_table_ok : users_ok {[1%N := stored_user]}.
Proof. apply users_ok_singleton; [done|]. intros e [= <-]. reflexivity. Qed.

Lemma User_save_ok_witness :
  match User_save {[1%N := stored_user]} "0a1b2c3d4e5f" []
          (users.mkUser 2 None users.MANAGER (Some "Vali@X.uz") "vali" "pbkdf2$x" "Vali" "Aliyev" None) with
  | Some (Ok (_, tbl')) => users_ok tbl'
  | _ => False
  end.
Proof.
  destruct (User_save _ _ _ _) as [[[u' tbl']|e]|] eqn:E;
    [exact (User_save_ok _ _ _ _ _ _ stored_table_ok E) | vm_compute in E; discriminate..].
Defined.

Lemma register_then_login_witness :
  match UserRegistrationView_post (λ _, true) (λ _, true) demo_password_ok demo_hash ∅ "0a1b2c3d4e5f" []
          (mkRegistrationData (Some (Some " Ali@X.uz")) (Some "secret123") (Some "secret123") None
             (Some "ali")) with
  | Some (Ok (u, tbl')) =>
      UserLoginView_post (λ _, true) demo_hash tbl' (mkLoginData (Some "ALI@x.uz ") (Some "secret123")) = Ok u
  | _ => False
  end.
Proof.
  destruct (UserRegistrationView_post _ _ _ _ _ _ _ _) as [[[u tbl']|e]|] eqn:E;
    [|vm_compute in E; discriminate..].
  eapply register_then_login; [exact users_ok_empty | exact E | reflexivity.. | discriminate | reflexivity].
Defined.

Lemma register_email_case_conflict_witness :
  UserRegistrationView_post (λ _, true) (λ _, true) demo_password_ok demo_hash
    {[1%N := stored_user]} "0a1b2c3d4e5f" []
    (mkRegistrationData (Some (Some "Ali@x.uz")) (Some "secret123") (Some "secret123") None
       (Some "ali2")) = Some (Err IntegrityError).
Proof.
  apply (register_email_case_conflict _ _ _ _ _ _ _ 1%N stored_user);
    [exact stored_table_ok | reflexivity | reflexivity | discriminate | reflexivity | discriminate
    | reflexivity | discriminate | vm_compute; lia | reflexivity
    | apply (bool_decide_unpack _); vm_compute; reflexivity].
Defined.

Lemma register_email_missing_witness :
  UserRegistrationView_post (λ _, true) (λ _, true) demo_password_ok demo_hash
    {[1%N := stored_user]} "0a1b2c3d4e5f" []
    (mkRegistrationData None (Some "secret123") (Some "secret123") None (Some "vali")) = Some (Err KeyError) ∧
  UserRegistrationView_post (λ _, true) (λ _, true) demo_password_ok demo_hash
    {[1%N := stored_user]} "0a1b2c3d4e5f" []
    (mkRegistrationData (Some None) (Some "secret123") (Some "secret123") None (Some "vali"))
    = Some (Err AttributeError).
Proof.
  apply register_email_missing;
    [discriminate | reflexivity | discriminate | vm_compute; lia | reflexivity
    | apply (bool_decide_unpack _); vm_compute; reflexivity].
Defined.

Lemma first_user_least_witness :
  first_user {[3%N := stored_user; 1%N := taken_user]} = Some taken_user ↔
  ∃ k, ({[3%N := stored_user; 1%N := taken_user]} : user_table) !! k = Some taken_user ∧
       ∀ k' v', ({[3%N := stored_user; 1%N := taken_user]} : user_table) !! k' = Some v' → (k ≤ k')%N.
Proof. apply first_user_least. Defined.
