(* ===== verification/Schema.v ===== *)
(** * Schema: the models' fields, the payments migration and the admin

    Three parts of the repository describe the database rather than
    operate on it: the field declarations of the model classes, the
    migration that creates the [payments] table, and the admin classes.
    Django relates them mechanically: [makemigrations] compares the fields
    a model declares with the state its app's migrations build, [migrate]
    creates each table with one column per field of that state, and the
    system checks run at start-up compare the admin options with the
    model's fields.  This file writes the declarations down as data
    ([shared/models.py] [BaseModel], [payments/models.py] [Payment],
    [companies/models.py] [Company], [users/models.py] [User]), the
    operations of [payments/migrations/0001_initial.py], and the options of
    [users/admin.py] and [companies/admin.py]; the three Django mechanisms
    are functions of this file.

    A field is its type with the arguments the sources pass ([on_delete] is
    [CASCADE] everywhere and [choices]/[default] of [user_roles] do not take
    part in what is compared here, so they are left out) and its
    [verbose_name].  A model state maps the lower-cased label
    [app.model] to its list of fields, as Django's [ProjectState] does. *)

From Stdlib Require Import Ascii.
From S2P Require Import Prelude Models Users.

(** ** Field declarations *)

Inductive field_type :=
| UUIDField (primary_key editable : bool)
| DateTimeField (auto_now_add auto_now null : bool)
| DecimalField (max_digits decimal_places : Z)
| ForeignKey (to related_name : string) (null : bool)
| CharField (max_length : Z) (null unique : bool)
| EmailField (null unique : bool)
| BooleanField
| ImageField (upload_to : string).

Record fdef := mkField { f_name : string; f_type : field_type; f_verbose : option string }.

#[export] Instance field_type_eq_dec : EqDecision field_type.
Proof. solve_decision. Defined.
#[export] Instance fdef_eq_dec : EqDecision fdef.
Proof. solve_decision. Defined.

(** [Model._meta.label_lower]: the app label and the lower-cased class name. *)
Definition label_lower (app model : string) : string := app +:+ "." +:+ lower model.

Definition field_names (fs : list fdef) : list string := f_name <$> fs.

(** A model's own field replaces an inherited one of the same name. *)
Definition override (inherited own : list fdef) : list fdef :=
  filter (λ f, f.(f_name) ∉ field_names own) inherited ++ own.

(** [shared/models.py] [BaseModel] (lines 4-10), abstract: its fields are
    copied into every model that inherits it. *)
Definition BaseModel_fields : list fdef :=
  [mkField "id" (UUIDField true false) None;
   mkField "created_at" (DateTimeField true false false) None;
   mkField "updated_at" (DateTimeField false true false) None].

(** [payments/models.py] [Payment] (lines 17-26). *)
Definition Payment_fields : list fdef :=
  BaseModel_fields ++
  [mkField "debt" (ForeignKey (label_lower "debts" "Debt") "payments" false) (Some "Debt");
   mkField "amount" (DecimalField max_digits decimal_places) (Some "Payment Amount");
   mkField "user" (ForeignKey (label_lower "users" "User") "payments" false) (Some "User")].

(** [companies/models.py] [Company] (lines 6-7). *)
Definition Company_fields : list fdef :=
  BaseModel_fields ++ [mkField "name" (CharField 255 false true) None].

(** The concrete fields of Django's [AbstractUser] (with those of
    [AbstractBaseUser] and [PermissionsMixin]); library code. *)
Definition AbstractUser_fields : list fdef :=
  [mkField "password" (CharField 128 false false) (Some "password");
   mkField "last_login" (DateTimeField false false true) (Some "last login");
   mkField "is_superuser" BooleanField (Some "superuser status");
   mkField "username" (CharField 150 false true) (Some "username");
   mkField "first_name" (CharField 150 false false) (Some "first name");
   mkField "last_name" (CharField 150 false false) (Some "last name");
   mkField "email" (EmailField false false) (Some "email address");
   mkField "is_staff" BooleanField (Some "staff status");
   mkField "is_active" BooleanField (Some "active");
   mkField "date_joined" (DateTimeField false false false) (Some "date joined")].

(** [users/models.py] [class User(AbstractUser, BaseModel)] (lines 13-28):
    [email] overrides [AbstractUser.email]. *)
Definition User_fields : list fdef :=
  override AbstractUser_fields
    ([mkField "company" (ForeignKey (label_lower "companies" "Company") "users" true) None;
      mkField "user_roles" (CharField 31 false false) None;
      mkField "email" (EmailField true true) None;
      mkField "phone_number" (CharField 13 true true) None;
      mkField "photo" (ImageField "user_photos/") None] ++ BaseModel_fields).

(** ** Migrations *)

Inductive operation :=
| CreateModel (name : string) (fields : list fdef)
| AddField (model : string) (f : fdef)
| RemoveField (model name : string)
| AlterField (model : string) (f : fdef).

Definition model_state := gmap string (list fdef).

(** [operation.state_forwards] for the models of one app. *)
Definition apply_operation (app : string) (st : model_state) (op : operation) : model_state :=
  match op with
  | CreateModel n fs => <[label_lower app n := fs]> st
  | AddField m f => alter (λ fs, fs ++ [f]) (label_lower app m) st
  | RemoveField m n => alter (filter (λ f, f.(f_name) ≠ n)) (label_lower app m) st
  | AlterField m f =>
      alter (fmap (λ g, if bool_decide (g.(f_name) = f.(f_name)) then f else g)) (label_lower app m) st
  end.

Definition migrate (app : string) (ops : list operation) (st : model_state) : model_state :=
  foldl (apply_operation app) st ops.

(** [payments/migrations/0001_initial.py] (lines 9-31).  It depends on
    [('debts', '0001_initial')], a migration the repository does not
    contain; the state here is that of the [payments] app alone. *)
Definition payments_0001_initial : list operation :=
  [CreateModel "Payment"
     [mkField "id" (UUIDField true false) None;
      mkField "created_at" (DateTimeField true false false) None;
      mkField "updated_at" (DateTimeField false true false) None;
      mkField "amount" (DecimalField 10 2) (Some "Payment Amount");
      mkField "debt" (ForeignKey "debts.debt" "payments" false) (Some "Debt")]].

Definition find_field (fs : list fdef) (n : string) : option fdef :=
  List.find (λ f, bool_decide (f.(f_name) = n)) fs.

(** The field part of [MigrationAutodetector]: [generate_removed_fields],
    [generate_added_fields] and [generate_altered_fields], fields matched by
    name and compared by their deconstruction. *)
Definition autodetect_fields (m : string) (old new : list fdef) : list operation :=
  ((λ f, RemoveField m f.(f_name)) <$> filter (λ f, find_field new f.(f_name) = None) old) ++
  (AddField m <$> filter (λ f, find_field old f.(f_name) = None) new) ++
  omap (λ f, match find_field old f.(f_name) with
             | Some g => if bool_decide (g = f) then None else Some (AlterField m f)
             | None => None
             end) new.

(** [makemigrations] for one model of an app. *)
Definition makemigrations (app model : string) (fs : list fdef) (st : model_state) : list operation :=
  match st !! label_lower app model with
  | Some old => autodetect_fields model old fs
  | None => [CreateModel model fs]
  end.

(** The column of a field: a [ForeignKey] is stored as [<name>_id]. *)
Definition column (f : fdef) : string :=
  match f.(f_type) with
  | ForeignKey _ _ _ => f.(f_name) +:+ "_id"
  | _ => f.(f_name)
  end.

(** The columns an [INSERT] of [Model.save] names, and those [migrate]
    creates for a model. *)
Definition insert_columns (fs : list fdef) : list string := column <$> fs.

Definition table_columns (st : model_state) (label : string) : option (list string) :=
  insert_columns <$> st !! label.

(** ** The admin *)

Record ModelAdmin := mkModelAdmin {
  list_display : list string;
  search_fields : list string;
  list_filter : list string;
  ordering : list string
}.

(** [users/admin.py] [UserAdmin] (lines 5-11). *)
Definition UserAdmin : ModelAdmin :=
  mkModelAdmin ["id"; "username"; "email"; "phone_number"; "user_roles"; "created_at"; "updated_at"]
    ["username"; "email"; "phone_number"] ["user_roles"; "created_at"; "updated_at"] ["-created_at"].

(** [companies/admin.py] [CompanyAdmin] (lines 6-12). *)
Definition CompanyAdmin : ModelAdmin :=
  mkModelAdmin ["id"; "name"; "created_at"; "updated_at"] ["name"] ["created_at"; "updated_at"]
    ["-created_at"].

(** An [ordering] entry is a field name, optionally prefixed by [-]. *)
Definition ordering_field (s : string) : string :=
  match s with
  | String "-"%char s' => s'
  | _ => s
  end.

(** The names of the options that are not fields of the model, with the
    check that reports them: [admin.E108] ([list_display]), [admin.E116]
    ([list_filter]), [admin.E033] ([ordering]); a [search_fields] entry
    that is not a field raises [FieldError] on the first search. *)
Definition admin_errors (fs : list fdef) (a : ModelAdmin) : list (string * string) :=
  let bad l := filter (λ n, n ∉ field_names fs) l in
  ((λ n, ("admin.E108", n)) <$> bad a.(list_display)) ++
  ((λ n, ("FieldError", n)) <$> bad a.(search_fields)) ++
  ((λ n, ("admin.E116", n)) <$> bad a.(list_filter)) ++
  ((λ n, ("admin.E033", n)) <$> bad (ordering_field <$> a.(ordering))).

(** ** What the declarations show *)

(** (Error, [payments/migrations/0001_initial.py]): the migration is
    out of date with the model.  [makemigrations] on the state it builds
    reports exactly one operation, [AddField] of [Payment.user]; every
    other field agrees, argument for argument.  The table [migrate] creates
    therefore has no [user_id] column, while the [INSERT] of
    [Payment.save] names one: on a database built from the repository's
    migrations every [POST /payments/] fails in the database. *)
Theorem payments_migration_lacks_user :
  makemigrations "payments" "Payment" Payment_fields (migrate "payments" payments_0001_initial ∅) =
    [AddField "Payment" (mkField "user" (ForeignKey "users.user" "payments" false) (Some "User"))] ∧
  (∃ cols, table_columns (migrate "payments" payments_0001_initial ∅) (label_lower "payments" "Payment")
             = Some cols ∧ "user_id" ∉ cols) ∧
  "user_id" ∈ insert_columns Payment_fields.
Proof.
  split_and!; [vm_compute; reflexivity | eexists; split; [vm_compute; reflexivity|] |];
    apply (bool_decide_unpack _); vm_compute; reflexivity.
Qed.

(** (type, [users/admin.py], [companies/admin.py]): every name the
    admin classes list in [list_display], [search_fields], [list_filter]
    and [ordering] is a field of their model ([created_at] and
    [updated_at] come from [BaseModel], the rest from [User] and its
    [AbstractUser] base, or from [Company]): Django's admin checks report
    nothing and no search raises [FieldError]. *)
Theorem admin_options_are_fields :
  admin_errors User_fields UserAdmin = [] ∧ admin_errors Company_fields CompanyAdmin = [].
Proof. split; vm_compute; reflexivity. Qed.
