(* ===== verification/Urls.v ===== *)
(** * Urls: the URL configuration of the apps ([*/urls.py])

    Each app's [urlpatterns] is a list of [path(route, view, name=...)].
    Django compiles a route such as ['<int:id>/payments/'] into a regular
    expression ([_route_to_regex]): literal text, and for each
    [<converter:name>] the converter's regex; [resolve] tries the patterns
    in order and returns the view of the first whose expression matches
    the whole path, with the converted values as keyword arguments;
    [reverse] builds a path from a pattern's name and arguments with the
    converters' [to_url].  The routes use two converters:

    - [IntConverter]: regex [[0-9]+], [to_python = int], [to_url = str];
    - [UUIDConverter]: regex
      [[0-9a-f]{8}-[0-9a-f]{4}-[0-9a-f]{4}-[0-9a-f]{4}-[0-9a-f]{12}],
      [to_python = uuid.UUID], [to_url = str].

    Paths are lists of ASCII characters, the value of an argument is a
    natural number (a UUID is its 128-bit [int]).  The project's root
    [urls.py], which mounts these lists under their prefixes, is not part
    of the sources; paths here are relative to the app's prefix.  This
    converters come first, with their round trips, then the routes, the
    resolver and [reverse]. *)

From Stdlib Require Import Ascii.
From stdpp Require Import pretty.
From S2P Require Import Prelude.

(** ** [IntConverter] *)

Definition is_digit (c : ascii) : bool :=
  let n := nat_of_ascii c in (48 <=? n)%nat && (n <=? 57)%nat.

Definition digit_of (c : ascii) : N := N.of_nat (nat_of_ascii c - 48).

(** [int(value)] on a string of decimal digits. *)
Definition digits_value (ds : list ascii) : N := foldl (λ acc c, acc * 10 + digit_of c)%N 0%N ds.

(** The longest prefix of digits: what the greedy [[0-9]+] matches when
    the text that follows in the route does not start with a digit. *)
Fixpoint digit_span (l : list ascii) : list ascii * list ascii :=
  match l with
  | c :: l' => if is_digit c then let '(d, r) := digit_span l' in (c :: d, r) else ([], l)
  | [] => ([], [])
  end.

(** [str(value)] of an [int]: stdpp's [pretty] prints the same digits. *)
Definition int_to_url (n : N) : list ascii := String.list_ascii_of_string (pretty n).

(** ** [UUIDConverter] *)

Definition hex_char (d : N) : ascii :=
  if (d <? 10)%N then ascii_of_N (48 + d) else ascii_of_N (87 + d).

Definition is_lower_hex (c : ascii) : bool :=
  let n := nat_of_ascii c in (48 <=? n)%nat && (n <=? 57)%nat || (97 <=? n)%nat && (n <=? 102)%nat.

(** A digit of [int(s, 16)]: both cases are accepted. *)
Definition hex_value (c : ascii) : option N :=
  let n := N_of_ascii c in
  if (48 <=? n)%N && (n <=? 57)%N then Some (n - 48)%N
  else if (97 <=? n)%N && (n <=? 102)%N then Some (n - 87)%N
  else if (65 <=? n)%N && (n <=? 70)%N then Some (n - 55)%N
  else None.

Fixpoint hex_go (acc : N) (l : list ascii) : option N :=
  match l with
  | [] => Some acc
  | c :: l' => d ← hex_value c; hex_go (acc * 16 + d)%N l'
  end.

(** ['%0<w>x' % n]: the [w] low hexadecimal digits of [n], most
    significant first, written with [N.shiftr] and [N.land]. *)
Fixpoint hex_string (w : nat) (n : N) : list ascii :=
  match w with
  | O => []
  | S w' => hex_string w' (N.shiftr n 4) ++ [hex_char (N.land n 15)]
  end.

(** [UUID.__str__]: [hex = '%032x' % self.int] cut as 8-4-4-4-12. *)
Definition UUID_str (n : N) : list ascii :=
  let h := hex_string 32 n in
  take 8 h ++ "-"%char :: take 4 (drop 8 h) ++ "-"%char :: take 4 (drop 12 h) ++
  "-"%char :: take 4 (drop 16 h) ++ "-"%char :: drop 20 h.

(** [uuid.UUID(hex)]: the dashes removed, exactly 32 digits, [int(hex, 16)].
    (The [urn:]/[uuid:] prefixes and braces it also strips cannot occur in
    text the converter's regex accepted.) *)
Definition UUID_of_hex (s : list ascii) : option N :=
  let h := filter (λ c, c ≠ "-"%char) s in
  if bool_decide (length h = 32%nat) then hex_go 0 h else None.

(** The converter's regex, a fixed sequence of 36 character classes. *)
Inductive slot := HexSlot | DashSlot.

Definition uuid_template : list slot :=
  replicate 8 HexSlot ++ DashSlot :: replicate 4 HexSlot ++ DashSlot :: replicate 4 HexSlot ++
  DashSlot :: replicate 4 HexSlot ++ DashSlot :: replicate 12 HexSlot.

Definition slot_ok (t : slot) (c : ascii) : bool :=
  match t with HexSlot => is_lower_hex c | DashSlot => bool_decide (c = "-"%char) end.

(** The text a fixed sequence of classes matches at the start of [l], and
    what follows it. *)
Fixpoint match_slots (ts : list slot) (l : list ascii) : option (list ascii * list ascii) :=
  match ts, l with
  | [], _ => Some ([], l)
  | t :: ts', c :: l' => if slot_ok t c then '(m, r) ← match_slots ts' l'; Some (c :: m, r) else None
  | _ :: _, [] => None
  end.

(** ** Lemmas on the converters *)

Lemma digit_of_pretty_N_char d : (d < 10)%N → is_digit (pretty_N_char d) = true ∧ digit_of (pretty_N_char d) = d.
Proof.
  intros Hd. assert (d = 0 ∨ d = 1 ∨ d = 2 ∨ d = 3 ∨ d = 4 ∨ d = 5 ∨ d = 6 ∨ d = 7 ∨ d = 8 ∨ d = 9)%N
    as H by lia.
  destruct_or!; subst; split; reflexivity.
Qed.

(** What [pretty_N_go x s] puts in front of [s]: digits whose value is
    [x], as many as [x] has ([10^(n-1) <= x < 10^n]), none for [0]. *)
Lemma pretty_N_go_digits x s :
  ∃ ds, String.list_ascii_of_string (pretty_N_go x s) = ds ++ String.list_ascii_of_string s ∧
        Forall (λ c, is_digit c = true) ds ∧
        foldl (λ acc c, acc * 10 + digit_of c)%N 0%N ds = x ∧ ((0 < x)%N → ds ≠ []) ∧
        (x = 0%N → ds = []) ∧ (x < 10 ^ N.of_nat (length ds))%N ∧
        ((0 < x)%N → (10 ^ N.of_nat (length ds) ≤ 10 * x)%N).
Proof.
  revert s. induction (N.lt_wf_0 x) as [x _ IH]; intros s.
  destruct (decide (x = 0%N)) as [->|Hx].
  { exists []. rewrite pretty_N_go_0. by split_and!. }
  rewrite pretty_N_go_step by lia.
  destruct (IH (x `div` 10)%N ltac:(apply N.div_lt; lia) (String (pretty_N_char (x `mod` 10)) s))
    as (ds & Hds & Hall & Hval & _ & Hzero & Hlt & Hge).
  destruct (digit_of_pretty_N_char (x `mod` 10)%N ltac:(apply N.mod_lt; lia)) as [Hd Hv].
  pose proof (N.div_mod x 10 ltac:(lia)) as Hdm. pose proof (N.mod_lt x 10 ltac:(lia)) as Hmod.
  exists (ds ++ [pretty_N_char (x `mod` 10)]). rewrite Hds, <-app_assoc.
  rewrite length_app, Nat2N.inj_add, N.pow_add_r; simpl.
  split_and!; [done | | | | lia | |].
  - apply Forall_app; auto.
  - rewrite foldl_app, Hval; simpl. rewrite Hv. lia.
  - intros _ (_ & ?)%app_eq_nil. done.
  - nia.
  - intros _. destruct (decide (x `div` 10 = 0)%N) as [H0|H0].
    + rewrite (Hzero H0); simpl. lia.
    + specialize (Hge ltac:(lia)). nia.
Qed.

Lemma int_to_url_spec n :
  ∃ ds, int_to_url n = ds ∧ ds ≠ [] ∧ Forall (λ c, is_digit c = true) ds ∧ digits_value ds = n.
Proof.
  unfold int_to_url, pretty, pretty_N. case_decide as Hn.
  - subst. exists ["0"%char]. split_and!; [done | done | repeat constructor | done].
  - destruct (pretty_N_go_digits n EmptyString) as (ds & Hds & Hall & Hval & Hne & _).
    rewrite Hds, app_nil_r. exists ds. split_and!; auto with lia.
Qed.

Lemma digit_span_app ds r :
  Forall (λ c, is_digit c = true) ds → (∀ c r', r = c :: r' → is_digit c = false) →
  digit_span (ds ++ r) = (ds, r).
Proof.
  intros Hall Hr. induction Hall as [|c ds Hc _ IH]; simpl.
  - destruct r as [|c r']; [done|]. simpl. by rewrite (Hr c r' eq_refl).
  - by rewrite Hc, IH.
Qed.

Lemma hex_char_spec d : (d < 16)%N → is_lower_hex (hex_char d) = true ∧ hex_value (hex_char d) = Some d.
Proof.
  intros Hd. assert (d = 0 ∨ d = 1 ∨ d = 2 ∨ d = 3 ∨ d = 4 ∨ d = 5 ∨ d = 6 ∨ d = 7 ∨ d = 8 ∨ d = 9 ∨
    d = 10 ∨ d = 11 ∨ d = 12 ∨ d = 13 ∨ d = 14 ∨ d = 15)%N as H by lia.
  destruct_or!; subst; split; reflexivity.
Qed.

Lemma hex_go_app acc l1 l2 : hex_go acc (l1 ++ l2) = hex_go acc l1 ≫= λ a, hex_go a l2.
Proof.
  revert acc. induction l1 as [|c l1 IH]; intros acc; simpl; [done|].
  destruct (hex_value c); simpl; [apply IH | done].
Qed.

(** The round trip of the hexadecimal digits, in the manner of
    [le_combine_split]: reading back [w] digits gives [n mod 16^w]. *)
Lemma hex_string_spec w n :
  length (hex_string w n) = w ∧ Forall (λ c, is_lower_hex c = true) (hex_string w n) ∧
  ∀ acc, hex_go acc (hex_string w n) = Some (acc * 16 ^ N.of_nat w + n mod 16 ^ N.of_nat w)%N.
Proof.
  revert n. induction w as [|w IH]; intros n; simpl.
  { split_and!; [done | constructor | intros acc; f_equal; rewrite N.mod_1_r; lia]. }
  destruct (IH (N.shiftr n 4)) as (Hlen & Hall & Hgo).
  assert (N.land n 15 = n mod 16)%N as Hland by (change 15%N with (N.ones 4); by rewrite N.land_ones).
  destruct (hex_char_spec (N.land n 15)) as [Hc Hv]; [rewrite Hland; by apply N.mod_lt|].
  rewrite length_app; simpl. split_and!; [lia | apply Forall_app; auto |].
  intros acc. rewrite hex_go_app, Hgo; simpl. rewrite Hv, Hland, N.shiftr_div_pow2; simpl. f_equal.
  change (2 ^ 4)%N with 16%N. rewrite Nat2N.inj_succ, N.pow_succ_r', N.Div0.mod_mul_r.
  pose proof (N.div_mod n 16). lia.
Qed.

Lemma match_slots_app ts l r :
  Forall2 (λ t c, slot_ok t c = true) ts l → match_slots ts (l ++ r) = Some (l, r).
Proof. induction 1 as [|t c ts l Hc _ IH]; simpl; [by destruct r|]. by rewrite Hc, IH. Qed.

Lemma hex_slots k l :
  length l = k → Forall (λ c, is_lower_hex c = true) l →
  Forall2 (λ t c, slot_ok t c = true) (replicate k HexSlot) l.
Proof. intros <- Hl. induction Hl; simpl; by constructor. Qed.

Lemma filter_no_dash l :
  Forall (λ c, is_lower_hex c = true) l → filter (λ c, c ≠ "-"%char) l = l.
Proof.
  induction 1 as [|c l Hc _ IH]; [done|].
  rewrite filter_cons_True; [by rewrite IH|]. by intros ->.
Qed.

(** The UUID round trip: [str(u)] matches the converter's regex and
    [uuid.UUID] reads it back, for every 128-bit value. *)
Lemma UUID_str_spec n :
  (n < 2 ^ 128)%N →
  Forall2 (λ t c, slot_ok t c = true) uuid_template (UUID_str n) ∧ UUID_of_hex (UUID_str n) = Some n.
Proof.
  intros Hn. unfold UUID_str, UUID_of_hex, uuid_template.
  destruct (hex_string_spec 32 n) as (Hlen & Hall & Hgo). set (h := hex_string 32 n) in *.
  clearbody h. split.
  - assert (∀ k l ts rest, length l = k → Forall (λ c, is_lower_hex c = true) l →
      Forall2 (λ t c, slot_ok t c = true) ts rest →
      Forall2 (λ t c, slot_ok t c = true) (replicate k HexSlot ++ DashSlot :: ts) (l ++ "-"%char :: rest))
      as Hseg by (intros; apply Forall2_app; [by apply hex_slots | by constructor]).
    repeat apply Hseg; try apply hex_slots;
      rewrite ?length_take, ?length_drop; auto using Forall_take, Forall_drop with lia.
  - repeat first [rewrite filter_app | rewrite filter_cons_False by (intros []; done)].
    rewrite !filter_no_dash by auto using Forall_take, Forall_drop.
    rewrite !app_assoc, !take_take_drop, take_drop.
    rewrite bool_decide_true by done. rewrite Hgo. f_equal. rewrite N.mod_small; [lia|].
    change (16 ^ N.of_nat 32)%N with (2 ^ 128)%N. done.
Qed.

(** ** Routes: [_route_to_regex] *)

Inductive converter := IntConverter | UUIDConverter.

#[export] Instance converter_eq_dec : EqDecision converter.
Proof. solve_decision. Defined.

(** A compiled route: literal text and [(?P<name>regex)] groups. *)
Inductive part := Lit (s : list ascii) | Param (c : converter) (name : string).

(** [get_converter]; the [str], [slug] and [path] converters, which no
    route of the sources uses, are refused here. *)
Definition get_converter (s : list ascii) : option converter :=
  if bool_decide (s = String.list_ascii_of_string "int") then Some IntConverter
  else if bool_decide (s = String.list_ascii_of_string "uuid") then Some UUIDConverter
  else None.

(** [str.isidentifier] on ASCII. *)
Definition ident_start (c : ascii) : bool :=
  let n := nat_of_ascii c in (65 <=? n)%nat && (n <=? 90)%nat || (97 <=? n)%nat && (n <=? 122)%nat || (n =? 95)%nat.

Definition is_identifier (l : list ascii) : bool :=
  match l with
  | c :: l' => ident_start c && forallb (λ c, ident_start c || is_digit c) l'
  | [] => false
  end.

Fixpoint break_at (sep : ascii) (l : list ascii) : option (list ascii * list ascii) :=
  match l with
  | [] => None
  | c :: l' => if bool_decide (c = sep) then Some ([], l') else '(a, b) ← break_at sep l'; Some (c :: a, b)
  end.

(** The text between [<] and [>]: [(?:(?P<converter>[^>:]+):)?(?P<parameter>[^>]+)]. *)
Definition route_param (l : list ascii) : option part :=
  match break_at ":"%char l with
  | Some (conv, param) =>
      if bool_decide (conv = []) then None
      else c ← get_converter conv;
           if is_identifier param then Some (Param c (String.string_of_list_ascii param)) else None
  | None => None
  end.

(** The scan of [_route_to_regex] over the route, [acc] holding the text
    read since the last bracket, reversed. *)
Fixpoint parse_route_go (l acc : list ascii) (inside : bool) : option (list part) :=
  match l with
  | [] => if inside then None else Some (if bool_decide (acc = []) then [] else [Lit (rev acc)])
  | c :: l' =>
      if inside then
        if bool_decide (c = ">"%char) then p ← route_param (rev acc); ps ← parse_route_go l' [] false; Some (p :: ps)
        else parse_route_go l' (c :: acc) true
      else if bool_decide (c = "<"%char) then
        ps ← parse_route_go l' [] true; Some (if bool_decide (acc = []) then ps else Lit (rev acc) :: ps)
      else parse_route_go l' (c :: acc) false
  end.

Definition parse_route (route : string) : option (list part) :=
  parse_route_go (String.list_ascii_of_string route) [] false.

(** ** The url configurations *)

Inductive view :=
| ClientListCreateView | ClientListDebtsView
| DebtListCreateView | DebtDetailView | DebtDetailPaymentView
| UserRegistrationView | UserLoginView | TokenRefreshView | UserProfileView.

#[export] Instance view_eq_dec : EqDecision view.
Proof. solve_decision. Defined.

Record urlpattern := path { route : string; pattern_view : view; pattern_name : string }.

(** [clients/urls.py] (lines 1-7). *)
Definition clients_urlpatterns : list urlpattern :=
  [path "" ClientListCreateView "client-list";
   path "<uuid:id>/debts/" ClientListDebtsView "client-debts"].

(** [debts/urls.py] (lines 1-12). *)
Definition debts_urlpatterns : list urlpattern :=
  [path "" DebtListCreateView "debt-list-create";
   path "<int:pk>/" DebtDetailView "debt-detail";
   path "<int:id>/payments/" DebtDetailPaymentView "debt-payments"].

(** [users/urls.py] (lines 1-10). *)
Definition users_urlpatterns : list urlpattern :=
  [path "register/" UserRegistrationView "user-register";
   path "login/" UserLoginView "user-login";
   path "token/refresh/" TokenRefreshView "token-refresh";
   path "me/" UserProfileView "user-profile"].

Definition urlconfs : list (list urlpattern) := [clients_urlpatterns; debts_urlpatterns; users_urlpatterns].

(** ** [resolve] and [reverse] *)

(** What a converter's regex matches at the start of the text, and what
    follows. *)
Definition conv_regex (c : converter) (l : list ascii) : option (list ascii * list ascii) :=
  match c with
  | IntConverter => let '(d, r) := digit_span l in if bool_decide (d = []) then None else Some (d, r)
  | UUIDConverter => match_slots uuid_template l
  end.

(** [to_python]; a [ValueError] is [None], and the pattern does not match. *)
Definition to_python (c : converter) (m : list ascii) : option N :=
  match c with IntConverter => Some (digits_value m) | UUIDConverter => UUID_of_hex m end.

Definition to_url (c : converter) (v : N) : list ascii :=
  match c with IntConverter => int_to_url v | UUIDConverter => UUID_str v end.

(** [RoutePattern.match] of an endpoint: the whole path, then [to_python]
    on every group. *)
Fixpoint match_route (ps : list part) (l : list ascii) : option (gmap string N) :=
  match ps with
  | [] => if bool_decide (l = []) then Some ∅ else None
  | Lit s :: ps' => if bool_decide (s `prefix_of` l) then match_route ps' (drop (length s) l) else None
  | Param c n :: ps' => '(m, r) ← conv_regex c l; v ← to_python c m; kw ← match_route ps' r; Some (<[n := v]> kw)
  end.

(** [URLResolver.resolve]: the first pattern that matches. *)
Definition resolve (pats : list urlpattern) (l : list ascii) : option (view * gmap string N) :=
  foldr (λ p rest, match parse_route p.(route) ≫= λ ps, match_route ps l with
                   | Some kw => Some (p.(pattern_view), kw)
                   | None => rest
                   end) None pats.

Definition params (ps : list part) : list string :=
  omap (λ p, match p with Param _ n => Some n | Lit _ => None end) ps.

(** The candidate [reverse] builds: [to_url] of each argument. *)
Fixpoint render (ps : list part) (kw : gmap string N) : option (list ascii) :=
  match ps with
  | [] => Some []
  | Lit s :: ps' => r ← render ps' kw; Some (s ++ r)
  | Param c n :: ps' => v ← kw !! n; r ← render ps' kw; Some (to_url c v ++ r)
  end.

(** The check of [_reverse_with_prefix]: the candidate matches the
    pattern's regex (without [to_python]). *)
Fixpoint regex_ok (ps : list part) (l : list ascii) : bool :=
  match ps with
  | [] => bool_decide (l = [])
  | Lit s :: ps' => bool_decide (s `prefix_of` l) && regex_ok ps' (drop (length s) l)
  | Param c _ :: ps' => match conv_regex c l with Some (_, r) => regex_ok ps' r | None => false end
  end.

(** [URLResolver.reverse(name, kwargs=kw)] (stdpp's [reverse] is list
    reversal, hence the name): the possibilities for the
    name, tried last pattern first ([_populate] walks the patterns
    [reversed]); one applies when its parameters are exactly the keys of
    [kw] and the candidate passes the check. *)
Definition reverse_url (pats : list urlpattern) (name : string) (kw : gmap string N) : option (list ascii) :=
  foldr (λ p rest,
    if bool_decide (p.(pattern_name) = name) then
      match parse_route p.(route) with
      | Some ps =>
          if bool_decide (dom kw = list_to_set (params ps)) then
            match render ps kw with
            | Some l => if regex_ok ps l then Some l else rest
            | None => rest
            end
          else rest
      | None => rest
      end
    else rest) None (reverse pats).

(** ** Lemmas on the router *)

(** Where a route has an [int] group, the text after it does not start
    with a digit, so the greedy [[0-9]+] needs no backtracking and
    [digit_span] is the regex's match. *)
Fixpoint delimited (ps : list part) : bool :=
  match ps with
  | [] => true
  | Param IntConverter _ :: ps' =>
      match ps' with
      | [] => true
      | Lit (c :: _) :: _ => negb (is_digit c) && delimited ps'
      | _ => false
      end
  | _ :: ps' => delimited ps'
  end.

Lemma conv_roundtrip c v r :
  (c = UUIDConverter → (v < 2 ^ 128)%N) → (c = IntConverter → ∀ a r', r = a :: r' → is_digit a = false) →
  conv_regex c (to_url c v ++ r) = Some (to_url c v, r) ∧ to_python c (to_url c v) = Some v.
Proof.
  intros Hu Hi. destruct c; cbn [conv_regex to_python to_url].
  - destruct (int_to_url_spec v) as (ds & -> & Hne & Hall & Hval).
    rewrite digit_span_app by eauto. rewrite bool_decide_false by done. by rewrite Hval.
  - destruct (UUID_str_spec v (Hu eq_refl)) as [Hslots Hv]. by rewrite match_slots_app.
Qed.

Lemma prefix_app_drop (s r : list ascii) : bool_decide (s `prefix_of` s ++ r) = true ∧ drop (length s) (s ++ r) = r.
Proof. split; [apply bool_decide_true; by eexists | apply drop_app_length]. Qed.

Lemma filter_params_insert (kw : gmap string N) n v (ns : list string) :
  kw !! n = Some v →
  <[n := v]> (filter (λ kv : string * N, kv.1 ∈ ns) kw) = filter (λ kv : string * N, kv.1 ∈ n :: ns) kw.
Proof.
  intros Hn. apply map_eq. intros k. rewrite map_lookup_filter.
  destruct (decide (k = n)) as [->|Hk].
  - rewrite lookup_insert_eq, Hn; simpl. rewrite option_guard_True; [done | set_solver].
  - rewrite lookup_insert_ne, map_lookup_filter by done.
    destruct (kw !! k); simpl; [|done]. apply option_guard_iff. set_solver.
Qed.

Lemma delimited_next c n ps kw r :
  delimited (Param c n :: ps) = true → render ps kw = Some r →
  c = IntConverter → ∀ a r', r = a :: r' → is_digit a = false.
Proof.
  intros Hdel Hr -> a r' ->.
  destruct ps as [|[[|b s]|c' n'] ps]; simpl in Hdel, Hr; try discriminate.
  destruct (render ps kw); simpl in Hr; [|done]. injection Hr as -> _.
  apply andb_prop in Hdel as [Hb _]. by destruct (is_digit a).
Qed.

(** The round trip of one route: the candidate [render] builds passes the
    check of [reverse] and [match_route] reads the arguments back. *)
Lemma route_roundtrip ps kw :
  delimited ps = true → (∀ n, n ∈ params ps → is_Some (kw !! n)) →
  (∀ n v, Param UUIDConverter n ∈ ps → kw !! n = Some v → (v < 2 ^ 128)%N) →
  ∃ l, render ps kw = Some l ∧ regex_ok ps l = true ∧
       match_route ps l = Some (filter (λ kv : string * N, kv.1 ∈ params ps) kw).
Proof.
  induction ps as [|[s|c n] ps IH]; intros Hdel Hdom Hu; simpl.
  - eexists; split_and!; [done | by apply bool_decide_true |].
    rewrite bool_decide_true by done. f_equal. apply map_eq. intros k.
    rewrite map_lookup_filter, lookup_empty. by destruct (kw !! k).
  - destruct (IH Hdel Hdom ltac:(set_solver)) as (r & -> & Hok & Hm); simpl.
    destruct (prefix_app_drop s r) as [Hp Hd].
    eexists; split_and!; [done | by rewrite Hp, Hd |]. by rewrite Hp, Hd.
  - destruct (Hdom n ltac:(set_solver)) as [v Hv]. rewrite Hv; simpl.
    assert (delimited ps = true) as Hdel'
      by (destruct c; [destruct ps as [|[[|??]|??] ?]; simpl in Hdel; try apply andb_prop in Hdel as [_ ?]| ]; done).
    destruct (IH Hdel' ltac:(set_solver) ltac:(set_solver)) as (r & Hr & Hok & Hm). rewrite Hr; simpl.
    destruct (conv_roundtrip c v r) as [Hc Hp].
    { intros ->. apply (Hu n v); [set_solver | done]. }
    { exact (delimited_next c n ps kw r Hdel Hr). }
    eexists; split_and!; [done | by rewrite Hc |]. rewrite Hc; simpl. rewrite Hp; simpl. rewrite Hm; simpl.
    by rewrite filter_params_insert.
Qed.

Lemma resolve_first pats1 p pats2 l ps kw :
  Forall (λ q, (parse_route q.(route) ≫= λ ps, match_route ps l) = None) pats1 →
  parse_route p.(route) = Some ps → match_route ps l = Some kw →
  resolve (pats1 ++ p :: pats2) l = Some (p.(pattern_view), kw).
Proof.
  intros Hfirst Hp Hm. unfold resolve. rewrite foldr_app.
  induction Hfirst as [|q pats1 Hq _ IH]; simpl.
  - by rewrite Hp; simpl; rewrite Hm.
  - by rewrite Hq.
Qed.

Lemma NoDup_fmap_same {A B} (f : A → B) (l : list A) x y :
  NoDup (f <$> l) → x ∈ l → y ∈ l → f x = f y → x = y.
Proof.
  induction l as [|a l IH]; [set_solver|]. rewrite fmap_cons, NoDup_cons.
  intros [Ha Hnd] Hx Hy Hf. apply elem_of_cons in Hx as [->|Hx], Hy as [->|Hy]; auto.
  - destruct Ha. rewrite Hf. by apply list_elem_of_fmap_2.
  - destruct Ha. rewrite <-Hf. by apply list_elem_of_fmap_2.
Qed.

Lemma reverse_unique pats p ps kw l :
  NoDup (pattern_name <$> pats) → p ∈ pats → parse_route p.(route) = Some ps →
  dom kw = list_to_set (params ps) → render ps kw = Some l → regex_ok ps l = true →
  reverse_url pats p.(pattern_name) kw = Some l.
Proof.
  intros Hnd Hp Hps Hdom Hr Hok. unfold reverse_url.
  assert (∀ q, q ∈ reverse pats → q.(pattern_name) = p.(pattern_name) → q = p) as Huniq
    by (intros q Hq; apply (NoDup_fmap_same _ _ _ _ Hnd); [by rewrite elem_of_reverse in Hq | done..]).
  apply elem_of_reverse in Hp. revert Hp Huniq. generalize (reverse pats) as L.
  induction L as [|q L IH]; intros Hp Huniq; [set_solver|]. simpl.
  case_bool_decide as Hn.
  - rewrite (Huniq q ltac:(set_solver) Hn), Hps, bool_decide_true, Hr, Hok by done. done.
  - apply IH; [|set_solver]. apply elem_of_cons in Hp as [->|Hp]; [done|exact Hp].
Qed.

Lemma render_nonempty ps kw l a s : Lit (a :: s) ∈ ps → render ps kw = Some l → l ≠ [].
Proof.
  revert l. induction ps as [|[s'|c n] ps IH]; intros l Hin Hr; [set_solver|..]; simpl in Hr.
  - destruct (render ps kw) as [r|] eqn:E; simpl in Hr; [|done]. injection Hr as <-.
    apply elem_of_cons in Hin as [[= <-]|Hin]; [done|]. intros [_ ->]%app_eq_nil. by apply (IH [] Hin).
  - destruct (kw !! n); simpl in Hr; [|done].
    destruct (render ps kw) as [r|] eqn:E; simpl in Hr; [|done]. injection Hr as <-.
    apply elem_of_cons in Hin as [?|Hin]; [done|]. intros [_ ->]%app_eq_nil. by apply (IH [] Hin).
Qed.

(** Every url configuration: names are unique and every route compiles to
    a [delimited] pattern. *)
Lemma urlconfs_ok pats :
  pats ∈ urlconfs →
  NoDup (pattern_name <$> pats) ∧
  ∀ p, p ∈ pats → ∃ ps, parse_route p.(route) = Some ps ∧ delimited ps = true.
Proof.
  intros Hpats. apply list_elem_of_In in Hpats. simpl in Hpats. destruct_or!; subst; try done;
    (split; [apply (bool_decide_unpack _); vm_compute; reflexivity|]);
    intros p Hp; apply list_elem_of_In in Hp; simpl in Hp; destruct_or!; subst; try done;
    eexists; split; vm_compute; reflexivity.
Qed.

(** [GET <int>/payments/] is not a path of ['<int:pk>/']: the [int] group
    takes the digits, the literal [/] follows, and the path goes on. *)
Lemma debt_detail_not_payments v :
  (parse_route "<int:pk>/" ≫= λ ps, match_route ps (int_to_url v ++ String.list_ascii_of_string "/payments/")) = None.
Proof.
  change (parse_route "<int:pk>/") with (Some [Param IntConverter "pk"; Lit ["/"%char]]).
  cbn [mbind option_bind match_route].
  destruct (conv_roundtrip IntConverter v (String.list_ascii_of_string "/payments/")) as [Hc Hp];
    [done | by intros _ a r' [= <- _] |].
  change (int_to_url v) with (to_url IntConverter v). rewrite Hc. cbn [mbind option_bind]. rewrite Hp. reflexivity.
Qed.

(** [resolve] picks the pattern after the [k] listed before it. *)
Ltac resolve_at k :=
  match goal with
  | |- resolve ?pats _ = _ => eapply (resolve_first (take k pats)); [| vm_compute; reflexivity | eassumption]
  end.

(** C20 (roundtrip, [clients/urls.py], [debts/urls.py], [users/urls.py]):
    for every pattern of the three url configurations and every
    arguments for exactly its parameters (a UUID being a 128-bit value),
    [reverse] by the pattern's name builds a path, and [resolve] maps that
    path back to the pattern's view with the same arguments: no earlier
    pattern captures it, and the converters read back what they wrote. *)
Theorem urls_reverse_resolve pats p ps kw :
  pats ∈ urlconfs → p ∈ pats → parse_route p.(route) = Some ps →
  dom kw = list_to_set (params ps) →
  (∀ n v, Param UUIDConverter n ∈ ps → kw !! n = Some v → (v < 2 ^ 128)%N) →
  ∃ l, reverse_url pats p.(pattern_name) kw = Some l ∧ resolve pats l = Some (p.(pattern_view), kw).
Proof.
  intros Hpats Hp Hps Hdom Hu.
  destruct (urlconfs_ok pats Hpats) as [Hnd Hall].
  destruct (Hall p Hp) as (ps' & Hps' & Hdel). rewrite Hps in Hps'. injection Hps' as <-.
  destruct (route_roundtrip ps kw Hdel) as (l & Hr & Hok & Hm); [|done|].
  { intros n Hn. apply elem_of_dom. rewrite Hdom. by apply elem_of_list_to_set. }
  rewrite map_filter_id in Hm.
  2:{ intros i x Hi. apply (elem_of_dom_2 kw) in Hi. rewrite Hdom in Hi. by apply elem_of_list_to_set in Hi. }
  exists l. split; [by eapply reverse_unique|].
  apply list_elem_of_In in Hpats. simpl in Hpats. destruct_or!; subst; try done;
    apply list_elem_of_In in Hp; simpl in Hp; destruct_or!; subst; try done;
    vm_compute in Hps; injection Hps as <-.
  - resolve_at 0%nat. constructor.
  - resolve_at 1%nat. repeat constructor.
    simpl. rewrite bool_decide_false; [done|]. eapply render_nonempty; [apply list_elem_of_In, in_cons, in_eq | exact Hr].
  - resolve_at 0%nat. constructor.
  - resolve_at 1%nat. repeat constructor.
    simpl. rewrite bool_decide_false; [done|]. eapply render_nonempty; [apply list_elem_of_In, in_cons, in_eq | exact Hr].
  - resolve_at 2%nat. repeat constructor.
    + simpl. rewrite bool_decide_false; [done|]. eapply render_nonempty; [apply list_elem_of_In, in_cons, in_eq | exact Hr].
    + cbn [render] in Hr. destruct (kw !! "id") as [v|]; [|done]. cbn in Hr. injection Hr as <-.
      apply debt_detail_not_payments.
  - apply dom_empty_inv_L in Hdom. subst. vm_compute in Hr. injection Hr as <-.
    resolve_at 0%nat. constructor.
  - apply dom_empty_inv_L in Hdom. subst. vm_compute in Hr. injection Hr as <-.
    resolve_at 1%nat. repeat constructor.
  - apply dom_empty_inv_L in Hdom. subst. vm_compute in Hr. injection Hr as <-.
    resolve_at 2%nat. repeat constructor.
  - apply dom_empty_inv_L in Hdom. subst. vm_compute in Hr. injection Hr as <-.
    resolve_at 3%nat. repeat constructor.
Qed.

Lemma urls_reverse_resolve_witness :
  ∃ l, reverse_url clients_urlpatterns "client-debts" {["id" := 0x3fa85f6457174562b3fc2c963f66afa6%N]} = Some l ∧
       resolve clients_urlpatterns l = Some (ClientListDebtsView, {["id" := 0x3fa85f6457174562b3fc2c963f66afa6%N]}).
Proof.
  apply (urls_reverse_resolve clients_urlpatterns (path "<uuid:id>/debts/" ClientListDebtsView "client-debts")
           [Param UUIDConverter "id"; Lit (String.list_ascii_of_string "/debts/")]).
  - apply list_elem_of_In, in_eq.
  - apply list_elem_of_In, in_cons, in_eq.
  - vm_compute. reflexivity.
  - vm_compute. reflexivity.
  - intros n v _ Hv. apply lookup_singleton_Some in Hv as [_ <-]. vm_compute. reflexivity.
Defined.
