(* ===== verification/Money.v ===== *)
(** * Money: the text form of the [DecimalField] amounts

    Amounts travel as text.  DRF's [DecimalField(max_digits=10,
    decimal_places=2)] renders a value as ['{:f}'.format(value.quantize(
    Decimal('0.01')))], the same text [str()] gives for a stored amount,
    and reads a request's text with [to_internal_value]: [strip()], a
    length limit, [decimal.Decimal(data)], then [validate_precision]
    (at most [max_digits] digits, [decimal_places] decimals and
    [max_digits - decimal_places] whole digits, counted on the
    coefficient's digits and the exponent of [as_tuple()]) and
    [quantize].  [decimal.Decimal] is modelled on the texts
    [[+-]digits[.digits]] (at least one digit); its exponent, underscore,
    [Infinity] and [NaN] forms are not.  The [__str__] methods of [Debt]
    and [Payment] print amounts this way. *)

From Stdlib Require Import Ascii.
From stdpp Require Import pretty.
From S2P Require Import Prelude Models Users Urls.

(** ** Printing *)

Definition two_digits (r : N) : list ascii := [pretty_N_char (r `div` 10); pretty_N_char (r `mod` 10)]%N.

(** The text of an amount of [x] cents. *)
Definition decimal_str (x : Z) : string :=
  let a := Z.to_N (Z.abs x) in
  String.string_of_list_ascii
    ((if x <? 0 then ["-"%char] else []) ++ int_to_url (a `div` 100) ++ "."%char :: two_digits (a `mod` 100)).

(** [Debt.__str__] (lines 27-28 of [debts/models.py]). *)
Definition Debt_str (d : debts.Debt) : string :=
  d.(debts.client).(clients.name) +:+ " - " +:+ decimal_str d.(debts.remaining_amount) +:+ " руб.".

(** [Payment.__str__] (lines 27-28 of [payments/models.py]). *)
Definition Payment_str (p : payments.Payment) : string :=
  "Payment of " +:+ decimal_str p.(payments.amount) +:+ " for " +:+
  p.(payments.debt).(debts.client).(clients.name).

(** ** Reading *)

(** The digits before the point and the digits after it. *)
Definition decimal_digits (neg : bool) (l : list ascii) : option (bool * list ascii * list ascii) :=
  let '(i, rest) := digit_span l in
  match rest with
  | [] => if bool_decide (i = []) then None else Some (neg, i, [])
  | c :: f =>
      if bool_decide (c = "."%char) then
        let '(f', rest') := digit_span f in
        if bool_decide (rest' = [] ∧ i ++ f' ≠ []) then Some (neg, i, f') else None
      else None
  end.

(** The sign, then the digits. *)
Definition decimal_syntax (l : list ascii) : option (bool * list ascii * list ascii) :=
  match l with
  | c :: l' => if bool_decide (c = "-"%char) then decimal_digits true l'
               else if bool_decide (c = "+"%char) then decimal_digits false l' else decimal_digits false l
  | [] => decimal_digits false []
  end.

(** [DecimalField.to_internal_value]: the digit counts of
    [validate_precision] are those of the coefficient [int(i + f)] and of
    the exponent [-len(f)]. *)
Definition DecimalField_to_internal (s : string) : result Z :=
  let s := strip s in
  check bool_decide (String.length s ≤ 1000)%nat else ValidationError MaxLength;
  match decimal_syntax (String.list_ascii_of_string s) with
  | None => raise (ValidationError NotANumber)
  | Some (neg, i, f) =>
      let ndig := length (int_to_url (digits_value (i ++ f))) in
      let places := length f in
      let '(total, whole) :=
        if (places =? 0)%nat then (ndig, ndig)
        else if (places <? ndig)%nat then (ndig, ndig - places)%nat
        else (places, 0%nat) in
      check (total <=? 10)%nat else ValidationError DecimalInvalid;
      check (places <=? 2)%nat else ValidationError DecimalInvalid;
      check (whole <=? 8)%nat else ValidationError DecimalInvalid;
      let cents := Z.of_N (digits_value i * 100 + digits_value f * 10 ^ N.of_nat (2 - places))%N in
      Ok (if neg then - cents else cents)
  end.

(** ** The round trip *)

Lemma digit_not_space c : is_digit c = true → is_space c = false.
Proof.
  unfold is_digit, is_space. set (n := nat_of_ascii c). intros [H1 H2]%andb_prop.
  apply Nat.leb_le in H1, H2.
  rewrite (proj2 (Nat.leb_gt n 13)), (proj2 (Nat.leb_gt n 32)) by lia. by rewrite !andb_false_r.
Qed.

Lemma digit_not_sign c : is_digit c = true → c ≠ "-"%char ∧ c ≠ "+"%char ∧ c ≠ "."%char.
Proof. intros Hc. split_and!; intros ->; discriminate. Qed.

Lemma digits_foldl_acc acc ds :
  foldl (λ acc c, acc * 10 + digit_of c)%N acc ds = (acc * 10 ^ N.of_nat (length ds) + digits_value ds)%N.
Proof.
  unfold digits_value. revert acc. induction ds as [|c ds IH]; intros acc; simpl; [lia|].
  rewrite IH, (IH (0 * 10 + digit_of c)%N), Nat2N.inj_succ, N.pow_succ_r'. nia.
Qed.

Lemma digits_value_app ds1 ds2 :
  digits_value (ds1 ++ ds2) = (digits_value ds1 * 10 ^ N.of_nat (length ds2) + digits_value ds2)%N.
Proof. unfold digits_value at 1. rewrite foldl_app. apply digits_foldl_acc. Qed.

Lemma two_digits_spec r :
  (r < 100)%N → Forall (λ c, is_digit c = true) (two_digits r) ∧ digits_value (two_digits r) = r.
Proof.
  intros Hr.
  destruct (digit_of_pretty_N_char (r `div` 10)) as [Hd1 Hv1]; [apply N.Div0.div_lt_upper_bound; lia|].
  destruct (digit_of_pretty_N_char (r `mod` 10)) as [Hd2 Hv2]; [apply N.mod_lt; lia|].
  split; [by repeat constructor|]. unfold digits_value, two_digits; simpl. rewrite Hv1, Hv2.
  pose proof (N.div_mod r 10). lia.
Qed.

(** [str(n)] has at most [k] digits exactly when [n < 10^k]. *)
Lemma int_to_url_length n k : (1 ≤ k)%nat → (length (int_to_url n) ≤ k)%nat ↔ (n < 10 ^ N.of_nat k)%N.
Proof.
  intros Hk. unfold int_to_url, pretty, pretty_N. case_decide as Hn.
  { subst. simpl. pose proof (N.pow_nonzero 10 (N.of_nat k) ltac:(lia)). split; lia. }
  destruct (pretty_N_go_digits n EmptyString) as (ds & Hds & _ & _ & _ & _ & Hlt & Hge).
  rewrite Hds, app_nil_r. split.
  - intros Hlen. eapply N.lt_le_trans; [exact Hlt|]. apply N.pow_le_mono_r; lia.
  - intros Hn'. destruct (decide (length ds ≤ k)%nat) as [|Hgt]; [done|]. exfalso.
    assert (10 ^ N.of_nat (S k) ≤ 10 ^ N.of_nat (length ds))%N by (apply N.pow_le_mono_r; lia).
    specialize (Hge ltac:(lia)). rewrite Nat2N.inj_succ, N.pow_succ_r' in *. lia.
Qed.

Lemma length_string_of_list_ascii l : String.length (String.string_of_list_ascii l) = length l.
Proof. induction l; simpl; auto. Qed.

Lemma decimal_syntax_str x :
  decimal_syntax (String.list_ascii_of_string (decimal_str x)) =
  Some (x <? 0, int_to_url (Z.to_N (Z.abs x) `div` 100)%N, two_digits (Z.to_N (Z.abs x) `mod` 100)%N).
Proof.
  set (a := Z.to_N (Z.abs x)).
  destruct (int_to_url_spec (a `div` 100)%N) as (ds & Hds & Hne & Hall & _).
  destruct (two_digits_spec (a `mod` 100)%N) as [Htd _]; [apply N.mod_lt; lia|].
  unfold decimal_str. fold a. rewrite String.list_ascii_of_string_of_list_ascii, Hds.
  assert (digit_span (ds ++ "."%char :: two_digits (a `mod` 100)%N) = (ds, "."%char :: two_digits (a `mod` 100)%N))
    as Hsplit by (apply digit_span_app; [done | by intros c r' [= <- _]]).
  assert (digit_span (two_digits (a `mod` 100)%N) = (two_digits (a `mod` 100)%N, [])) as Hfrac.
  { rewrite <-(app_nil_r (two_digits _)) at 1. apply digit_span_app; [done | by intros]. }
  assert (∀ neg, decimal_digits neg (ds ++ "."%char :: two_digits (a `mod` 100)%N) =
                  Some (neg, ds, two_digits (a `mod` 100)%N)) as Hrest.
  { intros neg. unfold decimal_digits. rewrite Hsplit. cbv beta iota. case_bool_decide; [|done].
    rewrite Hfrac. cbv beta iota. case_bool_decide as Hc; [done|].
    destruct Hc. split; [done|]. intros (-> & _)%app_eq_nil. done. }
  unfold decimal_syntax. destruct (x <? 0); cbn [app].
  - case_bool_decide; [apply Hrest | done].
  - destruct ds as [|c ds']; [done|]. inversion Hall as [|? ? Hc _]; subst.
    destruct (digit_not_sign c Hc) as (H1 & H2 & _).
    cbn [app]. do 2 (case_bool_decide; [done|]). apply Hrest.
Qed.

Lemma decimal_str_clean x : strip (decimal_str x) = decimal_str x.
Proof.
  apply strip_clean. unfold decimal_str. rewrite String.list_ascii_of_string_of_list_ascii.
  destruct (int_to_url_spec (Z.to_N (Z.abs x) `div` 100)%N) as (ds & -> & _ & Hall & _).
  destruct (two_digits_spec (Z.to_N (Z.abs x) `mod` 100)%N) as [Htd _]; [apply N.mod_lt; lia|].
  assert (∀ l, Forall (λ c, is_digit c = true) l → Forall (λ c, is_space c = false) l) as Hsp
    by (intros l Hl; eapply Forall_impl; [exact Hl | apply digit_not_space]).
  apply Forall_app; split; [by destruct (x <? 0); repeat constructor|].
  apply Forall_app; split; [by apply Hsp|]. constructor; [done|]. by apply Hsp.
Qed.

(** An amount of cents printed the way DRF and [__str__] print it is
    read back by [DecimalField.to_internal_value] as the same amount
    exactly when it fits the field ([max_digits=10, decimal_places=2]);
    otherwise reading it back fails with a validation error. *)
Theorem decimal_roundtrip x : DecimalField_to_internal (decimal_str x) = Ok x ↔ decimal_fits x = true.
Proof.
  unfold DecimalField_to_internal. rewrite decimal_str_clean.
  set (a := Z.to_N (Z.abs x)).
  assert (x = if x <? 0 then - Z.of_N a else Z.of_N a) as Hx by (subst a; destruct (Z.ltb_spec x 0); lia).
  assert (decimal_fits x = true ↔ (a < 10 ^ 10)%N) as Hfits.
  { unfold decimal_fits, max_digits. rewrite Z.ltb_lt. subst a. lia. }
  destruct (int_to_url_spec (a `div` 100)%N) as (ds & Hds & _ & _ & Hv).
  destruct (two_digits_spec (a `mod` 100)%N) as [_ Htv]; [apply N.mod_lt; lia|].
  assert (digits_value (ds ++ two_digits (a `mod` 100)%N) = a) as Hval.
  { rewrite digits_value_app, Hv, Htv. simpl. pose proof (N.div_mod a 100). lia. }
  assert (length (int_to_url a) ≤ 10 ↔ (a < 10 ^ 10)%N)%nat as Hlen by (apply (int_to_url_length a 10); lia).
  case_bool_decide as Hmax; cycle 1.
  { split; [done|]. intros Hf%Hfits. destruct Hmax.
    unfold decimal_str. rewrite length_string_of_list_ascii, !length_app. fold a. rewrite Hds. simpl.
    assert (length ds ≤ 8)%nat; [|destruct (x <? 0); simpl; lia].
    rewrite <-Hds. apply (int_to_url_length _ 8); [lia|]. apply N.Div0.div_lt_upper_bound. lia. }
  rewrite decimal_syntax_str. fold a. rewrite Hds. cbv beta iota zeta. rewrite Hval.
  cbn [length two_digits]. rewrite Htv. rewrite Hfits, <-Hlen.
  set (n := length (int_to_url a)).
  assert (Z.of_N (digits_value ds * 100 + a `mod` 100 * 10 ^ N.of_nat (2 - 2))%N = Z.of_N a) as Hc.
  { rewrite Hv. simpl. pose proof (N.div_mod a 100). lia. }
  rewrite Hc.
  destruct (Nat.ltb_spec 2 n); simpl;
    repeat case_match; simplify_eq/=; split; intros; rewrite ?Nat.leb_le, ?Nat.leb_gt in *; try lia;
    try (f_equal; rewrite Hx at 2; by destruct (x <? 0)); try discriminate.
Qed.
