(* ===== verification/Render.v ===== *)
(** * Render: what the read endpoints send back

    The serializers that only render: [UserSerializer] (with the model's
    [full_name] property), the [PaymentSerializer] of the debts app used by
    [DebtDetailPaymentView] (every [Payment] field plus [debt_total_amount]
    and [user_email], read through the foreign keys), and the nested
    [DebtSerializer] of the clients app used by [ClientListDebtsView].
    Rendered objects are records; a list response is a map from primary
    key to the rendered object (the order is the storage order, which the
    code does not fix).  Timestamps ([created_at], [updated_at]) are not
    modelled.  The two nested serializers also have write paths
    ([validate] of the clients app's [DebtSerializer], [create] of the
    debts app's [PaymentSerializer]) that no view reaches; they are
    modelled after the read side. *)

From S2P Require Import Prelude Models DebtModel PaymentModel Invariant Serializers Views DetailViews Users.

(** ** [users/models.py] and [UserSerializer] *)

(** The [full_name] property (lines 33-35): [f"{first_name} {last_name}"]. *)
Definition full_name (u : users.User) : string :=
  u.(users.first_name) +:+ " " +:+ u.(users.last_name).

(** [User.__str__] (lines 30-31). *)
Definition User_str (u : users.User) : string := u.(users.username).

(** [UserSerializer.get_full_name] (lines 61-62 of [users/serializers.py]). *)
Definition get_full_name (u : users.User) : string := strip (full_name u).

Record UserOut := mkUserOut {
  uo_id : N;
  uo_email : option string;
  uo_user_roles : users.role;
  uo_full_name : string
}.

(** [UserSerializer] (lines 55-63): [fields = ('id', 'email', 'user_roles',
    'full_name')].  No [SerializerMethodField] is declared, so
    [full_name] is the model property, read as a [ReadOnlyField];
    [get_full_name] is never called. *)
Definition UserSerializer_data (u : users.User) : UserOut :=
  mkUserOut u.(users.id) u.(users.email) u.(users.user_roles) (full_name u).

(** ** [debts/serializers.py] [PaymentSerializer] (read side) *)

Record PaymentOut := mkPaymentOut {
  po_id : N;
  po_debt : N;
  po_amount : Z;
  po_user : N;
  po_debt_total_amount : option Z;           (** [None]: the field is skipped *)
  po_user_email : option (option string)     (** [None]: skipped; [Some None]: null *)
}.

(** Lines 38-55: the model fields, [debt_total_amount] from
    [debt.total_amount] and [user_email] from [user.email].  A read-only
    field whose source object is missing is skipped (DRF's [SkipField]). *)
Definition PaymentSerializer_data (db : Store) (users_tbl : user_table) (pid : N)
    (p : payments.Row) : PaymentOut :=
  mkPaymentOut pid p.(payments.debt_id) p.(payments.row_amount) p.(payments.user_id)
    (debts.row_total_amount <$> db.(debts_tbl) !! p.(payments.debt_id))
    (users.email <$> users_tbl !! p.(payments.user_id)).

(** [GET /debts/<id>/payments/]: the queryset, each row rendered. *)
Definition DebtDetailPaymentView_data (db : Store) (users_tbl : user_table) (rq : Request)
    (debt_id : N) : result (gmap N PaymentOut) :=
  qs ← DebtDetailPaymentView_list db rq debt_id;
  Ok (map_imap (M:=gmap N) (λ k p, Some (PaymentSerializer_data db users_tbl k p)) qs).

(** ** [clients/serializers.py] *)

Record ClientOut := mkClientOut {
  co_id : N;
  co_name : string;
  co_phone : string;
  co_balanse : Z;
  co_company : option N
}.

(** [ClientSerializer] (lines 7-12), [fields = '__all__']. *)
Definition ClientSerializer_data (c : clients.Client) : ClientOut :=
  mkClientOut c.(clients.id) c.(clients.name) c.(clients.phone) c.(clients.balanse)
    c.(clients.company).

Record DebtOut := mkDebtOut {
  do_id : N;
  do_client : option ClientOut;             (** [None]: the client row is missing *)
  do_total_amount : Z;
  do_remaining_amount : Z;
  do_due_date : date;
  do_is_paid : bool
}.

(** The nested [DebtSerializer] (lines 25-33): [client = ClientSerializer()]
    renders the debt's client in full. *)
Definition NestedDebtSerializer_data (db : Store) (did : N) (r : debts.Row) : DebtOut :=
  mkDebtOut did (ClientSerializer_data <$> db.(clients_tbl) !! r.(debts.client_id))
    r.(debts.row_total_amount) r.(debts.row_remaining_amount) r.(debts.row_due_date)
    r.(debts.row_is_paid).

(** [ClientListDebtsView.get] (lines 35-42): [{"client": ..., "debts": ...}]. *)
Definition ClientListDebtsView_data (db : Store) (rq : Request) (cid : N)
    : result (ClientOut * gmap N DebtOut) :=
  '(c, ds) ← ClientListDebtsView_get db rq cid;
  Ok (ClientSerializer_data c, map_imap (M:=gmap N) (λ k r, Some (NestedDebtSerializer_data db k r)) ds).

(** ** The write paths of the two nested serializers

    Neither is reached by a view of the sources ([ClientListDebtsView] and
    [DebtDetailPaymentView] only render), but both are code of the
    repository. *)

(** [DebtSerializer.validate] of the clients app (lines 35-39): the
    negative-amount check of the debts app's serializer without its due
    date check; [attrs.get('total_amount') < 0] raises [TypeError] when the
    amount is absent. *)
Definition NestedDebtSerializer_validate (attrs : DebtAttrs) : result DebtAttrs :=
  match attrs.(attr_total_amount) with
  | None => raise TypeError
  | Some t => check bool_decide (0 ≤ t) else ValidationError NegativeDebt; Ok attrs
  end.

(** [create] of the debts app's [PaymentSerializer] (lines 57-62): with a
    request in the context the caller becomes the payment's user (an
    anonymous [request.user] is truthy, and assigning it to the foreign
    key raises [ValueError]); without one nothing sets [user] and the
    [NOT NULL] column refuses the row. *)
Definition DebtsPaymentSerializer_create (rq : option Request) (pid : N) (attrs : PaymentAttrs)
    (db : Store) : result (payments.Payment * Store) :=
  d ← of_option (ValidationError RequiredField) attrs.(attr_debt);
  a ← of_option (ValidationError RequiredField) attrs.(attr_amount);
  u ← match rq with
      | Some r => match r.(req_user) with Some u => Ok u.(users.id) | None => raise ValueError end
      | None => raise IntegrityError
      end;
  Payment_save (payments.mkPayment pid d a u) db.

(** With the caller passed by [perform_create] ([serializer.save(user=
    request.user)]), the company comparison of the payments app's [create]
    changes nothing: both serializers record the caller. *)
Lemma payment_creates_agree u t pid attrs db :
  PaymentSerializer_create u (Some u.(users.id)) pid attrs db =
  DebtsPaymentSerializer_create (Some (mkRequest (Some u) t)) pid attrs db.
Proof.
  unfold PaymentSerializer_create, DebtsPaymentSerializer_create.
  destruct (attr_debt attrs), (attr_amount attrs); simpl; try done. by case_bool_decide.
Qed.

(** ** What the responses show *)

(** C18 (functional, [GET /debts/<id>/payments/]): in a consistent store,
    for a debt of the caller's company, every payment the endpoint renders
    belongs to that debt and shows its [total_amount], and the rendered
    amounts add up to [total_amount - remaining_amount]: the list shows
    exactly what was paid. *)
Theorem debt_payments_view_adds_up db users_tbl rq u k r c comp out :
  ledger_ok db → rq.(req_user) = Some u → u.(users.company) = Some comp →
  db.(debts_tbl) !! k = Some r → db.(clients_tbl) !! r.(debts.client_id) = Some c →
  c.(clients.company) = Some comp →
  DebtDetailPaymentView_data db users_tbl rq k = Ok out →
  map_Forall (λ _ p, p.(po_debt) = k ∧ p.(po_debt_total_amount) = Some r.(debts.row_total_amount)) out ∧
  map_sumZ (λ _ p, p.(po_amount)) out = r.(debts.row_total_amount) - r.(debts.row_remaining_amount).
Proof.
  intros Hok Hu Hcomp Hr Hc Hcc Hout.
  destruct (ledger_get_debt db k r Hok Hr) as (c' & Hc' & Hd). rewrite Hc in Hc'; simplify_eq.
  unfold DebtDetailPaymentView_data, DebtDetailPaymentView_list, DebtDetailPaymentView_get_queryset,
    authenticated in Hout.
  rewrite Hu in Hout; simpl in Hout. rewrite Hd, Hcomp in Hout; simpl in Hout.
  rewrite bool_decide_false in Hout by (simpl; congruence). simpl in Hout. injection Hout as <-.
  split.
  - intros i p. rewrite map_lookup_imap.
    destruct (filter _ _ !! i) as [q|] eqn:Hq; simpl; [|done]. intros [= <-].
    apply map_lookup_filter_Some in Hq as [_ Hk]; simpl in Hk. simpl. by rewrite Hk, Hr.
  - rewrite map_sumZ_imap, map_sumZ_filter. simpl.
    rewrite <-(ok_payments db Hok k r Hr). reflexivity.
Qed.

(** (functional, [GET /clients/<id>/debts/]): in a consistent store,
    the response of [ClientListDebtsView] agrees with itself: every listed
    debt shows the same client as the top-level [client], and that
    client's [balanse] is the sum of the listed remaining amounts. *)
Theorem client_debts_view_consistent db rq cid co ds :
  ledger_ok db → ClientListDebtsView_data db rq cid = Ok (co, ds) →
  map_Forall (λ _ d, d.(do_client) = Some co) ds ∧
  co.(co_balanse) = map_sumZ (λ _ d, d.(do_remaining_amount)) ds.
Proof.
  intros Hok H. unfold ClientListDebtsView_data, ClientListDebtsView_get, authenticated in H.
  destruct (req_user rq) as [u|]; simpl in H; [|done].
  destruct (get_client db cid) as [c|] eqn:Hc; simpl in H; [|done].
  case_bool_decide; simpl in H; [|done]. injection H as <- <-. unfold get_client in Hc.
  split.
  - intros i d. rewrite map_lookup_imap.
    destruct (filter _ _ !! i) as [r|] eqn:Hr; simpl; [|done]. intros [= <-].
    apply map_lookup_filter_Some in Hr as [_ Hk]; simpl in Hk. simpl. by rewrite Hk, Hc.
  - rewrite map_sumZ_imap, map_sumZ_filter. simpl.
    exact (ok_balance db Hok cid c Hc).
Qed.

(** [clean] leaves the names alone. *)
Lemma clean_names tbl tail ds u u' :
  clean tbl tail ds u = Some u' →
  u'.(users.first_name) = u.(users.first_name) ∧ u'.(users.last_name) = u.(users.last_name).
Proof.
  unfold clean, check_username, check_email.
  repeat case_match; simpl; intros; simplify_eq/=; auto.
  all: match goal with H : (_ ≫= _) = Some _ |- _ => apply bind_Some in H as (? & _ & [= <-]) end; done.
Qed.

(** C28 (finding, [UserSerializer]): registration never sets a name, and
    [UserSerializer] renders the model's [full_name] property unstripped:
    every user created by [POST /auth/register/] is shown (in the
    registration, login and profile responses) with [full_name] a single
    space, where [get_full_name], which strips, would give the empty
    string; that method is never called. *)
Theorem registered_full_name email_ok username_ok password_ok make_password tbl tail ds data u tbl' :
  UserRegistrationView_post email_ok username_ok password_ok make_password tbl tail ds data
    = Some (Ok (u, tbl')) →
  (UserSerializer_data u).(uo_full_name) = " "%string ∧ get_full_name u = EmptyString.
Proof.
  intros (e & pw & r & n & _ & _ & _ & Hs)%UserRegistrationView_post_Ok.
  apply User_save_Ok in Hs as [Hc _]. apply clean_names in Hc as [Hf Hl]. simpl in Hf, Hl.
  unfold get_full_name, UserSerializer_data, full_name; simpl. by rewrite Hf, Hl.
Qed.

Lemma demo_store3_ok : ledger_ok demo_store3.
Proof. apply (bool_decide_unpack _). vm_compute. reflexivity. Qed.

Lemma debt_payments_view_adds_up_witness :
  match DebtDetailPaymentView_data demo_store3 ∅ demo_rq 1 with
  | Ok out =>
      map_Forall (λ _ p, p.(po_debt) = 1%N ∧ p.(po_debt_total_amount) = Some demo_row3.(debts.row_total_amount)) out ∧
      map_sumZ (λ _ p, p.(po_amount)) out = demo_row3.(debts.row_total_amount) - demo_row3.(debts.row_remaining_amount)
  | Err _ => False
  end.
Proof.
  destruct (DebtDetailPaymentView_data _ _ _ _) as [out|e] eqn:E; [|vm_compute in E; discriminate].
  apply (debt_payments_view_adds_up demo_store3 ∅ demo_rq demo_user 1 demo_row3
           (clients.mkClient 0 "Ali" "+998901234567" 6000 (Some 1%N)) 1);
    [exact demo_store3_ok | reflexivity | reflexivity | vm_compute; reflexivity
    | vm_compute; reflexivity | reflexivity | exact E].
Defined.

Lemma client_debts_view_consistent_witness :
  match ClientListDebtsView_data demo_store3 demo_rq 0 with
  | Ok (co, ds) =>
      map_Forall (λ _ d, d.(do_client) = Some co) ds ∧
      co.(co_balanse) = map_sumZ (λ _ d, d.(do_remaining_amount)) ds
  | Err _ => False
  end.
Proof.
  destruct (ClientListDebtsView_data _ _ _) as [[co ds]|e] eqn:E; [|vm_compute in E; discriminate].
  exact (client_debts_view_consistent _ _ _ _ _ demo_store3_ok E).
Defined.

Lemma registered_full_name_witness :
  match UserRegistrationView_post (λ _, true) (λ _, true) demo_password_ok demo_hash ∅ "0a1b2c3d4e5f" []
          (mkRegistrationData (Some (Some "ali@x.uz")) (Some "secret123") (Some "secret123") None
             (Some "ali")) with
  | Some (Ok (u, _)) => (UserSerializer_data u).(uo_full_name) = " "%string ∧ get_full_name u = EmptyString
  | _ => False
  end.
Proof.
  destruct (UserRegistrationView_post _ _ _ _ _ _ _ _) as [[[u tbl']|e]|] eqn:E;
    [exact (registered_full_name _ _ _ _ _ _ _ _ _ _ E) | vm_compute in E; discriminate..].
Defined.
