(* ===== verification/Tokens.v ===== *)
(** * Tokens: the JWT part of the users app

    [rest_framework_simplejwt] is library code; what the sources use of it
    is the interface [JwtBackend]: [RefreshToken.for_user(user)], a token's
    [access_token], [str(token)], the constructor [RefreshToken(s)] that
    parses and verifies a string (raising [TokenError]) and the [user_id]
    claim.  [JwtLaws] states what the library promises of them and what
    the theorems use: a refresh token issued for a user parses back, an
    access token is refused where a refresh token is expected (its
    [token_type] claim differs), both carry the user's id, and the string
    of a token is never blank nor has white space (a JWT is base64url text
    and dots).  Expiry, [jti] and the blacklist depend on the clock and are
    not modelled.

    On top of the interface: [User.token] ([users/models.py]), the
    response of [UserLoginView] and [UserProfileView] and the
    [TokenRefreshSerializer]/[TokenRefreshView] pair ([users/serializers.py],
    [users/views.py]).  [TokenRefreshView] declares no
    [permission_classes], so the project's [DEFAULT_PERMISSION_CLASSES]
    decide; the settings are not part of the sources, so that check is the
    parameter [default_permission]. *)

From Stdlib Require Import Ascii.
From stdpp Require Import pretty.
From S2P Require Import Prelude Models Views Users Render Urls Money.

Class JwtBackend (T : Type) := {
  for_user : users.User → T;           (** [RefreshToken.for_user(user)] *)
  access_token : T → T;                (** [refresh.access_token] *)
  token_str : T → string;              (** [str(token)] *)
  refresh_of_str : string → option T;  (** [RefreshToken(s)]; [None]: [TokenError] *)
  token_user_id : T → N                (** the [user_id] claim *)
}.

Class JwtLaws (T : Type) `{!JwtBackend T} := {
  refresh_of_str_for_user u : refresh_of_str (token_str (for_user u)) = Some (for_user u);
  refresh_of_str_access t : refresh_of_str (token_str (access_token t)) = None;
  token_user_for_user u : token_user_id (for_user u) = u.(users.id);
  token_user_access t : token_user_id (access_token t) = token_user_id t;
  token_str_clean t : token_str t ≠ EmptyString ∧
                      Forall (λ c, is_space c = false) (String.list_ascii_of_string (token_str t))
}.

Section jwt.
Context `{Hjwt : JwtLaws T}.
Context (email_ok : string → bool) (make_password : string → string) (default_permission : Request → bool).

Record TokenPair := mkTokenPair { tp_access : string; tp_refresh_token : string }.

(** [User.token] (lines 49-54 of [users/models.py]). *)
Definition User_token (u : users.User) : TokenPair :=
  let refresh := for_user u in mkTokenPair (token_str (access_token refresh)) (token_str refresh).

Record LoginResponse := mkLoginResponse { lr_user : UserOut; lr_access : string; lr_refresh : string }.

(** [UserLoginView.post] (lines 27-42 of [users/views.py]): the serializer,
    then one refresh token and its access token. *)
Definition UserLoginView_response (tbl : user_table) (data : LoginData) : result LoginResponse :=
  u ← UserLoginView_post email_ok make_password tbl data;
  let refresh := for_user u in
  Ok (mkLoginResponse (UserSerializer_data u) (token_str (access_token refresh)) (token_str refresh)).

(** [UserProfileView.get] (lines 53-59): the caller, rendered. *)
Definition UserProfileView_data (rq : Request) : result UserOut :=
  u ← UserProfileView_get rq; Ok (UserSerializer_data u).

(** [TokenRefreshSerializer] (lines 42-51 of [users/serializers.py]): the
    required [CharField], then [RefreshToken(...)] inside a [try] whose
    [except Exception] turns every failure into the validation error. *)
Definition TokenRefreshSerializer_validate (refresh : option string) : result string :=
  s ← of_option (ValidationError RequiredField) refresh;
  s ← nonblank_field s;
  match refresh_of_str s with
  | Some t => Ok (token_str (access_token t))
  | None => raise (ValidationError InvalidToken)
  end.

(** [TokenRefreshView.post] (lines 44-50 of [users/views.py]). *)
Definition TokenRefreshView_post (rq : Request) (refresh : option string) : result string :=
  check default_permission rq else NotAuthenticated;
  TokenRefreshSerializer_validate refresh.

(** ** Lemmas *)

Lemma nonblank_token t : nonblank_field (token_str t) = Ok (token_str t).
Proof.
  destruct (token_str_clean t) as [Hne Hall]. unfold nonblank_field.
  rewrite strip_clean by done. by rewrite bool_decide_false.
Qed.

(** C21 (roundtrip, [POST /auth/login/] then [POST /auth/token/refresh/]):
    the refresh token a successful login returns is accepted by the
    refresh endpoint (when the project's default permission lets the
    request through), which answers with an access token for the user the
    login rendered; the access token the login returned is refused there
    with the serializer's validation error. *)
Theorem login_then_refresh tbl data r rq :
  UserLoginView_response tbl data = Ok r → default_permission rq = true →
  (∃ t, refresh_of_str r.(lr_refresh) = Some t ∧
        TokenRefreshView_post rq (Some r.(lr_refresh)) = Ok (token_str (access_token t)) ∧
        token_user_id (access_token t) = r.(lr_user).(uo_id)) ∧
  TokenRefreshView_post rq (Some r.(lr_access)) = Err (ValidationError InvalidToken).
Proof.
  unfold UserLoginView_response. intros Hr Hperm.
  destruct (UserLoginView_post _ _ _ _) as [u|]; simpl in Hr; [|done]. injection Hr as <-. simpl.
  unfold TokenRefreshView_post, TokenRefreshSerializer_validate. rewrite Hperm; simpl.
  rewrite !nonblank_token; simpl. rewrite refresh_of_str_for_user, refresh_of_str_access.
  split; [|done]. exists (for_user u). split_and!; [done.. |].
  by rewrite token_user_access, token_user_for_user.
Qed.

End jwt.

(** ** A concrete backend *)

(** Tokens as their type and [user_id] claim, printed [r<id>] or [a<id>]. *)
#[export] Instance demo_jwt : JwtBackend (bool * N) := {
  for_user u := (true, u.(users.id));
  access_token t := (false, t.2);
  token_str t := String (if t.1 then "r"%char else "a"%char) (pretty t.2);
  refresh_of_str s :=
    match String.list_ascii_of_string s with
    | "r"%char :: ds => if bool_decide (ds ≠ []) && forallb is_digit ds then Some (true, digits_value ds) else None
    | _ => None
    end;
  token_user_id t := t.2
}.

#[export] Instance demo_jwt_laws : JwtLaws (bool * N).
Proof.
  split; try done.
  - intros u. cbn [refresh_of_str demo_jwt token_str for_user fst snd String.list_ascii_of_string].
    destruct (int_to_url_spec u.(users.id)) as (ds & Hds & Hne & Hall & Hval). unfold int_to_url in Hds.
    rewrite Hds, bool_decide_true by done. simpl. rewrite (proj2 (forallb_forall _ _)); [by rewrite Hval|].
    intros c Hc. by apply (proj1 (Forall_forall _ _) Hall), list_elem_of_In.
  - intros [b n]. cbn [token_str demo_jwt fst snd]. split; [done|].
    destruct (int_to_url_spec n) as (ds & Hds & _ & Hall & _). unfold int_to_url in Hds.
    cbn [String.list_ascii_of_string]. rewrite Hds. constructor; [by destruct b|].
    eapply Forall_impl; [exact Hall | apply digit_not_space].
Qed.

Lemma login_then_refresh_witness :
  match UserLoginView_response (λ _, true) demo_hash {[1%N := stored_user]}
          (mkLoginData (Some "ali@x.uz") (Some "secret123")) with
  | Ok r =>
      (∃ t, refresh_of_str r.(lr_refresh) = Some t ∧
            TokenRefreshView_post (λ _, true) (mkRequest None 0) (Some r.(lr_refresh)) = Ok (token_str (access_token t)) ∧
            token_user_id (access_token t) = r.(lr_user).(uo_id)) ∧
      TokenRefreshView_post (λ _, true) (mkRequest None 0) (Some r.(lr_access)) = Err (ValidationError InvalidToken)
  | Err _ => False
  end.
Proof.
  destruct (UserLoginView_response _ _ _ _) as [r|e] eqn:E; [|vm_compute in E; discriminate].
  exact (login_then_refresh (λ _, true) demo_hash (λ _, true) _ _ _ _ E eq_refl).
Defined.
