(* ===== verification/Ledger.v ===== *)
(** * Ledger: the operations that keep the invariant

    [core_step] is the transition relation of the three create endpoints
    the spec keeps: [POST /clients/] without a [balanse] in the body (or
    with 0), [POST /debts/], and [POST /payments/] with a non-negative
    amount.  The code checks neither condition; the findings of [Views]
    and [DetailViews] show what breaks without them.  [reachable] stores
    are those the empty database reaches by [core_step]; the invariant
    holds on all of them. *)

From S2P Require Import Prelude Models DebtModel PaymentModel Serializers Views Invariant.

(** ** The operations in scope *)

Inductive core_step : Store → Store → Prop :=
| step_create_client db rq data c db' :
    default 0 data.(data_balanse) = 0 →
    ClientListCreateView_create db rq data = Ok (c, db') → core_step db db'
| step_create_debt db rq data d db' :
    DebtListCreateView_create db rq data = Ok (d, db') → core_step db db'
| step_create_payment db rq data p db' :
    0 ≤ default 0 data.(data_amount) →
    PaymentListCreateView_create db rq data = Ok (p, db') → core_step db db'.

Definition reachable (db : Store) : Prop := rtc core_step empty_store db.

(** ** Creating a client *)

Lemma create_client_ok db c :
  ledger_ok db → db.(clients_tbl) !! c.(clients.id) = None → c.(clients.balanse) = 0 →
  ledger_ok (client_save c db).
Proof.
  intros [Hkeys Hbal Hdc Hbnd Hpaid Hpay Hpd Hseq Hpos] Hfresh Hb. unfold client_save, set_clients_tbl.
  constructor; simpl; try done.
  - by apply map_Forall_insert_2.
  - apply map_Forall_insert_2; [|done]. rewrite Hb, client_debt_total_unref; [done|].
    intros i r Hi Heq. destruct (Hdc i r Hi) as [? Hc]. congruence.
  - intros i r Hi. apply lookup_insert_is_Some'. right. by apply (Hdc i r).
Qed.

(** ** Creating a debt *)

(** [Debt.save] of a fresh instance for a stored client with a
    non-negative total keeps the invariant. *)
Lemma create_debt_ok db c t dd :
  ledger_ok db → db.(clients_tbl) !! c.(clients.id) = Some c → 0 ≤ t →
  ledger_ok (Debt_save (debts.mkDebt None c t 0 dd false) db).2.
Proof.
  intros Hok Hc Ht. pose proof (seq_fresh db Hok) as Hseq0.
  destruct Hok as [Hkeys Hbal Hdc Hbnd Hpaid Hpay Hpd Hseq Hpos].
  rewrite Debt_save_new by done.
  unfold new_debt_row, charged_client, clients.set_balanse; simpl.
  constructor; simpl.
  - by apply map_Forall_insert_2.
  - intros j cj Hj. unfold client_debt_total. rewrite map_sumZ_insert_fresh by done.
    apply lookup_insert_Some in Hj as [[<- <-]|[Hne Hj]]; simpl.
    + rewrite debt_share_same by done.
      pose proof (Hbal _ _ Hc) as Hb. simpl in Hb. unfold client_debt_total in Hb. simpl. lia.
    + rewrite debt_share_other by done. by apply (Hbal _ _ Hj).
  - apply map_Forall_insert_2; simpl.
    + rewrite lookup_insert_eq. by eexists.
    + by apply map_Forall_is_Some_insert.
  - apply map_Forall_insert_2; [simpl; lia | done].
  - apply map_Forall_insert_2; [simpl | done]. done.
  - apply map_Forall_insert_2; [|done]. simpl.
    rewrite debt_paid_total_unref; [lia|].
    intros i p Hi Heq. destruct (Hpd i p Hi) as [? Hr]. congruence.
  - by apply map_Forall_is_Some_insert.
  - apply map_Forall_insert_2; [lia|].
    eapply map_Forall_impl; [done|]. simpl. intros; lia.
  - lia.
Qed.

(** ** Recording a payment *)

(** [Payment.save] of a fresh payment of a non-negative amount on a
    stored debt keeps the invariant (when it succeeds). *)
Lemma create_payment_ok db k d a pid u p db' :
  ledger_ok db → get_debt db k = Some d → 0 ≤ a → db.(payments_tbl) !! pid = None →
  Payment_save (payments.mkPayment pid d a u) db = Ok (p, db') → ledger_ok db'.
Proof.
  intros Hok Hd Ha Hpid Hsave.
  apply get_debt_inv in Hd as (r & c & Hr & Hc & ->).
  destruct Hok as [Hkeys Hbal Hdc Hbnd Hpaid Hpay Hpd Hseq Hpos].
  pose proof (Hkeys _ _ Hc) as Hcid; simpl in Hcid.
  pose proof (Hbnd _ _ Hr) as Hb; pose proof (Hpaid _ _ Hr) as Hp;
    pose proof (Hpay _ _ Hr) as Hpk; pose proof (Hseq _ _ Hr) as Hk; simpl in *.
  destruct (decide (a ≤ r.(debts.row_remaining_amount))) as [Hle|Hgt];
    [|rewrite Payment_save_overdraw in Hsave by (simpl; lia); discriminate].
  destruct (Payment_save_ok (payments.mkPayment pid (debts.mkDebt (Some k) c
      r.(debts.row_total_amount) r.(debts.row_remaining_amount) r.(debts.row_due_date)
      r.(debts.row_is_paid)) a u) db k) as [p' Heq];
    simpl; [done | lia | done |].
  rewrite Heq in Hsave. injection Hsave as <- <-.
  unfold debited_client, paid_debt_row, clients.set_balanse; simpl.
  constructor; simpl.
  - apply map_Forall_insert_2; [done|]. done.
  - intros j cj Hj. unfold client_debt_total. rewrite (map_sumZ_insert_update _ _ k _ r) by done.
    apply lookup_insert_Some in Hj as [[<- <-]|[Hne Hj]]; simpl.
    + rewrite !debt_share_same by (simpl; congruence).
      pose proof (Hbal _ _ Hc) as Hbc. unfold client_debt_total in Hbc. simpl in Hbc. rewrite Hcid. simpl. lia.
    + rewrite !debt_share_other by (simpl; congruence).
      pose proof (Hbal _ _ Hj) as Hbj. unfold client_debt_total in Hbj. simpl in *. lia.
  - apply map_Forall_insert_2; simpl.
    + rewrite lookup_insert_eq. by eexists.
    + by apply map_Forall_is_Some_insert.
  - apply map_Forall_insert_2; [simpl; lia | done].
  - apply map_Forall_insert_2; [simpl | done].
    destruct r as [? ? rem ? paid]; simpl in *. subst paid. bool_cases; done.
  - intros j rj Hj. unfold debt_paid_total. rewrite map_sumZ_insert_fresh by done.
    apply lookup_insert_Some in Hj as [[<- <-]|[Hne Hj]]; simpl.
    + rewrite payment_share_same by done. unfold debt_paid_total in Hpk. simpl. lia.
    + rewrite payment_share_other by (simpl; congruence).
      pose proof (Hpay _ _ Hj) as Hpj. unfold debt_paid_total in Hpj. simpl in *. lia.
  - apply map_Forall_insert_2; simpl.
    + rewrite lookup_insert_eq. by eexists.
    + by apply map_Forall_is_Some_insert.
  - by apply map_Forall_insert_2.
  - done.
Qed.

(** ** Every reachable store is consistent *)

Lemma core_step_ok db db' : ledger_ok db → core_step db db' → ledger_ok db'.
Proof.
  intros Hok Hstep. revert Hok.
  destruct Hstep as [db0 rq data c db1 Hb H | db0 rq data d db1 H | db0 rq data p db1 Ha H];
    intros Hok.
  - apply ClientListCreateView_create_Ok in H as (u & comp & n & ph & _ & _ & _ & _ & -> & _ & ->).
    apply create_client_ok; [done | apply fresh_client_id_fresh | done].
  - apply DebtListCreateView_create_Ok in H as (u & k & c & t & _ & _ & Hc & _ & _ & Ht & _ & Heq).
    pose proof (ok_client_keys db0 Hok _ _ Hc) as Hk; simpl in Hk.
    apply (f_equal snd) in Heq; simpl in Heq; subst db1.
    apply create_debt_ok; [done | congruence | done].
  - apply PaymentListCreateView_create_Ok in H as (u & k & d & a & _ & _ & Hd & Hamt & _ & H).
    rewrite Hamt in Ha; simpl in Ha.
    eapply create_payment_ok; [done | exact Hd | done | apply fresh_payment_id_fresh | exact H].
Qed.

Lemma reachable_ledger_ok db : reachable db → ledger_ok db.
Proof.
  unfold reachable. intros H.
  apply (rtc_ind_r (R:=core_step) (λ db, ledger_ok db) empty_store); [apply ledger_empty | | exact H].
  intros y z _ Hyz IH. by eapply core_step_ok.
Qed.

(** ** Loading from a consistent store *)

(** What a successful [POST /payments/] did to the debts table of a
    consistent store: one stored row rewritten by [Payment.save]. *)
Lemma payment_step_debts db rq data p db' :
  ledger_ok db → PaymentListCreateView_create db rq data = Ok (p, db') →
  ∃ k r c a, db.(debts_tbl) !! k = Some r ∧ db.(clients_tbl) !! r.(debts.client_id) = Some c ∧
    data.(data_amount) = Some a ∧ a ≤ r.(debts.row_remaining_amount) ∧
    db'.(debts_tbl) = <[k := paid_debt_row (debts.mkDebt (Some k) c r.(debts.row_total_amount)
        r.(debts.row_remaining_amount) r.(debts.row_due_date) r.(debts.row_is_paid)) a]> db.(debts_tbl).
Proof.
  intros Hok H.
  apply PaymentListCreateView_create_Ok in H as (u & k & d & a & _ & _ & Hd & Hamt & _ & H).
  apply get_debt_inv in Hd as (r & c & Hr & Hc & ->).
  destruct (decide (a ≤ r.(debts.row_remaining_amount))) as [Hle|Hgt];
    [|rewrite Payment_save_overdraw in H by (simpl; lia); discriminate].
  pose proof (ok_seq _ Hok k r Hr) as Hk; simpl in Hk.
  destruct (Payment_save_ok (payments.mkPayment (fresh_payment_id db) (debts.mkDebt (Some k) c
      r.(debts.row_total_amount) r.(debts.row_remaining_amount) r.(debts.row_due_date)
      r.(debts.row_is_paid)) a u.(users.id)) db k) as [p' Heq]; simpl; [done | lia | done |].
  rewrite Heq in H. injection H as _ <-. eexists k, r, c, a. auto.
Qed.

(** ** A reachable store: the scenario of spec section 8, items 6-7 *)

Lemma demo_store3_reachable : reachable demo_store3.
Proof.
  apply (rtc_l _ _ demo_store1).
  { eapply (step_create_client _ demo_rq
      (mkClientData (Some "Ali"%string) (Some "+998901234567"%string) None None));
      reflexivity. }
  apply (rtc_l _ _ demo_store2).
  { eapply (step_create_debt _ demo_rq (mkDebtData (Some 0%N) (Some 10000) None)); reflexivity. }
  apply (rtc_l _ _ demo_store3); [|apply rtc_refl].
  eapply (step_create_payment _ demo_rq (mkPaymentData (Some 1%N) (Some 4000)));
    [simpl; lia | reflexivity].
Qed.

(** C1 (spec 8.1, balance invariant): in every store the empty database
    reaches by [core_step], that is by [POST /clients/] without a
    [balanse] in the body (or with 0), [POST /debts/], and [POST /payments/]
    with a non-negative amount, each client's [balanse] equals the sum of
    the [remaining_amount]s of its debts.  A [POST /clients/] with a
    non-zero [balanse], which the code accepts, breaks it ([Views]). *)
Theorem balance_invariant db k c :
  reachable db → db.(clients_tbl) !! k = Some c →
  c.(clients.balanse) = client_debt_total db.(debts_tbl) k.
Proof. intros Hr Hc. exact (ok_balance db (reachable_ledger_ok db Hr) k c Hc). Qed.

Lemma balance_invariant_witness :
  demo_store3.(clients_tbl) !! 0%N = Some (clients.mkClient 0 "Ali" "+998901234567" 6000 (Some 1%N)) ∧
  6000 = client_debt_total demo_store3.(debts_tbl) 0.
Proof.
  split; [vm_compute; reflexivity|].
  apply (balance_invariant demo_store3 0 (clients.mkClient 0 "Ali" "+998901234567" 6000 (Some 1%N)));
    [apply demo_store3_reachable | vm_compute; reflexivity].
Defined.

(** C2 (spec 8.2, remaining-amount bounds): in every reachable store each
    debt row has [0 <= remaining_amount <= total_amount]. *)
Theorem remaining_bounds db k r :
  reachable db → db.(debts_tbl) !! k = Some r →
  0 ≤ r.(debts.row_remaining_amount) ≤ r.(debts.row_total_amount).
Proof. intros Hr Hk. exact (ok_bounds db (reachable_ledger_ok db Hr) k r Hk). Qed.

(** C3 (spec 8.3, paid-flag consistency): in every reachable store each
    debt row has [is_paid == (remaining_amount == 0)]. *)
Theorem paid_flag_consistent db k r :
  reachable db → db.(debts_tbl) !! k = Some r →
  r.(debts.row_is_paid) = bool_decide (r.(debts.row_remaining_amount) = 0).
Proof. intros Hr Hk. exact (ok_paid db (reachable_ledger_ok db Hr) k r Hk). Qed.

(** C4 (spec section 3, Payment invariant): in every reachable store the
    amounts of the payments recorded against a debt add up to
    [total_amount - remaining_amount]. *)
Theorem payments_sum db k r :
  reachable db → db.(debts_tbl) !! k = Some r →
  debt_paid_total db.(payments_tbl) k = r.(debts.row_total_amount) - r.(debts.row_remaining_amount).
Proof. intros Hr Hk. exact (ok_payments db (reachable_ledger_ok db Hr) k r Hk). Qed.

Lemma remaining_bounds_witness :
  demo_store3.(debts_tbl) !! 1%N = Some demo_row3 ∧ 0 ≤ 6000 ≤ 10000.
Proof.
  split; [vm_compute; reflexivity|].
  apply (remaining_bounds demo_store3 1%N demo_row3);
    [apply demo_store3_reachable | vm_compute; reflexivity].
Defined.

Lemma paid_flag_consistent_witness :
  demo_store3.(debts_tbl) !! 1%N = Some demo_row3 ∧ false = bool_decide (6000 = 0).
Proof.
  split; [vm_compute; reflexivity|].
  apply (paid_flag_consistent demo_store3 1%N demo_row3);
    [apply demo_store3_reachable | vm_compute; reflexivity].
Defined.

Lemma payments_sum_witness :
  demo_store3.(debts_tbl) !! 1%N = Some demo_row3 ∧
  debt_paid_total demo_store3.(payments_tbl) 1 = 10000 - 6000.
Proof.
  split; [vm_compute; reflexivity|].
  apply (payments_sum demo_store3 1%N demo_row3);
    [apply demo_store3_reachable | vm_compute; reflexivity].
Defined.
