(* ===== verification/Bounds.v ===== *)
(** * Bounds: the [DecimalField(max_digits=10, decimal_places=2)] columns

    Amounts are cents; a column holds [|x| < 10^10] ([decimal_fits]).  A
    debt's [total_amount] is validated by the serializer's [DecimalField]
    before it is stored, and [remaining_amount] stays between 0 and the
    total, so both always fit.  A client's [balanse] is a sum computed by
    [Debt.save] ([self.client.balanse += self.total_amount]) and checked by
    nothing: two large debts of one client give a balance the column cannot
    hold. *)

From S2P Require Import Prelude Models DebtModel PaymentModel Invariant Serializers Views Ledger.

(** The columns of a debt row: [total_amount] and [remaining_amount] are
    [DecimalField(max_digits=10, decimal_places=2)]. *)
Definition row_fits (r : debts.Row) : bool :=
  decimal_fits r.(debts.row_total_amount) && decimal_fits r.(debts.row_remaining_amount).

(** The [balanse] column of a client row, the same [DecimalField]. *)
Definition client_fits (c : clients.Client) : bool := decimal_fits c.(clients.balanse).

(** Every stored total passed the field check. *)
Definition totals_fit (db : Store) : Prop :=
  map_Forall (λ _ r, decimal_fits r.(debts.row_total_amount) = true) db.(debts_tbl).

(** A row after one in-scope operation is a row that was there, with the
    same total, or the new debt's row, whose total was validated. *)
Lemma core_step_totals_fit db db' :
  ledger_ok db → core_step db db' → totals_fit db → totals_fit db'.
Proof.
  intros Hok Hstep Hfit k r' Hr'. destruct Hstep as [db0 rq data c db1 _ H | db0 rq data d db1 H | db0 rq data p db1 Ha H].
  - apply ClientListCreateView_create_Ok in H as (u & comp & n & ph & _ & _ & _ & _ & -> & _ & ->).
    exact (Hfit k r' Hr').
  - apply DebtListCreateView_create_Ok in H as (u & k0 & c & t & _ & _ & _ & _ & _ & _ & Ht & Heq).
    apply (f_equal snd) in Heq; simpl in Heq; subst db1.
    rewrite Debt_save_new in Hr' by done; simpl in Hr'.
    apply lookup_insert_Some in Hr' as [[_ <-]|[_ Hr']]; [done | exact (Hfit k r' Hr')].
  - destruct (payment_step_debts _ _ _ _ _ Hok H) as (k0 & r0 & c & a & Hr0 & _ & _ & _ & Hdb).
    rewrite Hdb in Hr'.
    apply lookup_insert_Some in Hr' as [[_ <-]|[_ Hr']]; [exact (Hfit k0 r0 Hr0) | exact (Hfit k r' Hr')].
Qed.

Lemma reachable_totals_fit db : reachable db → totals_fit db.
Proof.
  unfold reachable. intros H.
  apply (rtc_ind_r (R:=core_step) (λ db, ledger_ok db ∧ totals_fit db) empty_store);
    [split; [apply ledger_empty | apply map_Forall_empty] | | exact H].
  intros y z _ Hyz [Hok Hfit]. split; [by eapply core_step_ok | by eapply core_step_totals_fit].
Qed.

Lemma decimal_fits_below x y : 0 ≤ x ≤ y → decimal_fits y = true → decimal_fits x = true.
Proof. unfold decimal_fits. rewrite !Z.ltb_lt. lia. Qed.

Lemma reachable_rows_fit db :
  reachable db → map_Forall (λ _ r, row_fits r = true) db.(debts_tbl).
Proof.
  intros Hreach k r Hr. pose proof (reachable_totals_fit db Hreach k r Hr) as Ht.
  pose proof (ok_bounds db (reachable_ledger_ok db Hreach) k r Hr) as Hb; simpl in *.
  unfold row_fits. rewrite Ht, (decimal_fits_below _ _ Hb Ht). done.
Qed.

(** C16 (bounds, [DecimalField] columns of [Debt]): in every reachable
    store each debt row fits its columns: [total_amount] and
    [remaining_amount] have at most [max_digits=10] digits, so the write of
    [Debt.save] and [Payment.save] never needs more than the column has. *)
Theorem debt_amounts_fit db :
  reachable db → map_Forall (λ _ r, row_fits r = true) db.(debts_tbl).
Proof. apply reachable_rows_fit. Qed.

Lemma debt_amounts_fit_witness : map_Forall (λ _ r, row_fits r = true) demo_store3.(debts_tbl).
Proof. apply debt_amounts_fit, demo_store3_reachable. Defined.

(** The largest total the field accepts, in cents: 99 999 999.99. *)
Definition max_total : Z := 10 ^ max_digits - 1.

Definition big_debt : DebtData := mkDebtData (Some 0%N) (Some max_total) None.

Definition overflow_store1 : Store := after (DebtListCreateView_create demo_store1 demo_rq big_debt) demo_store1.
Definition overflow_store2 : Store :=
  after (DebtListCreateView_create overflow_store1 demo_rq big_debt) overflow_store1.

Lemma debt_step db db' :
  after (DebtListCreateView_create db demo_rq big_debt) db = db' →
  (∃ d, DebtListCreateView_create db demo_rq big_debt = Ok (d, db')) →
  core_step db db'.
Proof. intros _ [d H]. exact (step_create_debt _ _ _ _ _ H). Qed.

Lemma overflow_store2_reachable : reachable overflow_store2.
Proof.
  apply (rtc_l _ _ demo_store1).
  { eapply (step_create_client _ demo_rq
      (mkClientData (Some "Ali"%string) (Some "+998901234567"%string) None None)); reflexivity. }
  apply (rtc_l _ _ overflow_store1); [apply (debt_step _ _ eq_refl); eexists; vm_compute; reflexivity|].
  apply rtc_once, (debt_step _ _ eq_refl). eexists; vm_compute; reflexivity.
Qed.

(** (Bounds, [Client.balanse]): the balance is a sum that nothing
    checks: from the empty store, two debts of the largest total the field
    accepts, for one client, give a reachable store whose debt rows all fit
    their columns while the client's [balanse] does not fit its own. *)
Theorem balance_exceeds_column :
  ∃ db c, reachable db ∧ db.(clients_tbl) !! 0%N = Some c ∧ client_fits c = false ∧
    map_Forall (λ _ r, row_fits r = true) db.(debts_tbl).
Proof.
  exists overflow_store2, (clients.mkClient 0 "Ali" "+998901234567" (2 * max_total) (Some 1%N)).
  split_and!; [exact overflow_store2_reachable | vm_compute; reflexivity | vm_compute; reflexivity |].
  apply reachable_rows_fit, overflow_store2_reachable.
Qed.
