(* ===== verification/Lifecycle.v ===== *)
(** * Lifecycle: the debt state machine (spec section 4.4)

    A debt is [OPEN] while something remains and [PAID] once
    [remaining_amount] reaches zero; the spec allows [OPEN -> OPEN],
    [OPEN -> PAID] and keeps [PAID] terminal.  The code has no state field
    of its own: the state is the row's [is_paid] flag, which [Debt.save]
    raises when [remaining_amount == 0].  This file shows that along any
    run of the in-scope operations from a reachable store every stored debt
    row keeps its client, total and due date, its remaining amount never
    grows, and its state follows the spec's transitions; a paid row does not
    change at all. *)

From S2P Require Import Prelude Models DebtModel PaymentModel Invariant Serializers Views Ledger Bounds.

Inductive debt_state := OPEN | PAID.

#[export] Instance debt_state_eq_dec : EqDecision debt_state.
Proof. solve_decision. Defined.

Definition state_of (r : debts.Row) : debt_state :=
  if r.(debts.row_is_paid) then PAID else OPEN.

(** The transitions of spec section 4.4. *)
Inductive debt_trans : debt_state → debt_state → Prop :=
| trans_open_open : debt_trans OPEN OPEN
| trans_open_paid : debt_trans OPEN PAID
| trans_paid_paid : debt_trans PAID PAID.

#[export] Hint Constructors debt_trans : ledger.

(** How a stored row may change: same client, total and due date, no
    larger remaining amount, an allowed transition, and no change at all
    once paid. *)
Record row_evolves (r r' : debts.Row) : Prop := {
  ev_client : r'.(debts.client_id) = r.(debts.client_id);
  ev_total : r'.(debts.row_total_amount) = r.(debts.row_total_amount);
  ev_due : r'.(debts.row_due_date) = r.(debts.row_due_date);
  ev_remaining : r'.(debts.row_remaining_amount) ≤ r.(debts.row_remaining_amount);
  ev_state : debt_trans (state_of r) (state_of r');
  ev_frozen : r.(debts.row_is_paid) = true → r' = r
}.

Lemma debt_trans_refl s : debt_trans s s.
Proof. destruct s; constructor. Qed.

Lemma debt_trans_trans s1 s2 s3 : debt_trans s1 s2 → debt_trans s2 s3 → debt_trans s1 s3.
Proof. intros H1 H2. inversion H1; subst; inversion H2; subst; constructor. Qed.

Lemma row_evolves_refl r : row_evolves r r.
Proof. split; auto using debt_trans_refl; lia. Qed.

Lemma row_evolves_trans r1 r2 r3 : row_evolves r1 r2 → row_evolves r2 r3 → row_evolves r1 r3.
Proof.
  intros [H1 H2 H3 H4 H5 H6] [G1 G2 G3 G4 G5 G6]. split; try congruence; [lia | |].
  - eauto using debt_trans_trans.
  - intros Hp. rewrite (G6 (ltac:(by rewrite H6))). auto.
Qed.

(** The row a payment of [0 <= a <= remaining] writes, from a consistent
    store, evolves from the stored one. *)
Lemma paid_row_evolves r c k a :
  r.(debts.row_is_paid) = bool_decide (r.(debts.row_remaining_amount) = 0) →
  c.(clients.id) = r.(debts.client_id) → 0 ≤ a ≤ r.(debts.row_remaining_amount) →
  row_evolves r (paid_debt_row (debts.mkDebt (Some k) c r.(debts.row_total_amount)
     r.(debts.row_remaining_amount) r.(debts.row_due_date) r.(debts.row_is_paid)) a).
Proof.
  intros Hp Hc Ha. destruct r as [cid tot rem due paid]; simpl in *. subst paid.
  unfold paid_debt_row, state_of; simpl. split; simpl; try done; [lia | |].
  - repeat case_bool_decide; simpl; constructor.
  - case_bool_decide; [|done]. intros _. subst. by replace a with 0 by lia.
Qed.

(** One in-scope operation on a consistent store: every stored debt row is
    still there and has evolved. *)
Lemma core_step_rows db db' k r :
  ledger_ok db → core_step db db' → db.(debts_tbl) !! k = Some r →
  ∃ r', db'.(debts_tbl) !! k = Some r' ∧ row_evolves r r'.
Proof.
  intros Hok Hstep Hr. destruct Hstep as [db0 rq data c db1 _ H | db0 rq data d db1 H | db0 rq data p db1 Ha H].
  - apply ClientListCreateView_create_Ok in H as (u & comp & n & ph & _ & _ & _ & _ & -> & _ & ->).
    eauto using row_evolves_refl.
  - apply DebtListCreateView_create_Ok in H as (u & k0 & c & t & _ & _ & _ & _ & _ & _ & _ & Heq).
    apply (f_equal snd) in Heq; simpl in Heq; subst db1.
    rewrite Debt_save_new by done; simpl.
    pose proof (ok_seq _ Hok k r Hr) as Hk; simpl in Hk.
    rewrite lookup_insert_ne by lia. eauto using row_evolves_refl.
  - destruct (payment_step_debts _ _ _ _ _ Hok H) as (k0 & r0 & c & a & Hr0 & Hc & Hamt & Hle & ->).
    rewrite Hamt in Ha; simpl in Ha.
    destruct (decide (k = k0)) as [->|Hne].
    + rewrite lookup_insert_eq. rewrite Hr0 in Hr; simplify_eq.
      eexists; split; [done|]. apply paid_row_evolves; [exact (ok_paid _ Hok _ _ Hr0) | | lia].
      exact (ok_client_keys _ Hok _ _ Hc).
    + rewrite lookup_insert_ne by done. eauto using row_evolves_refl.
Qed.

Lemma rtc_core_step_rows db db' k r :
  ledger_ok db → rtc core_step db db' → db.(debts_tbl) !! k = Some r →
  ∃ r', db'.(debts_tbl) !! k = Some r' ∧ row_evolves r r'.
Proof.
  intros Hok Hrtc. revert r. induction Hrtc as [db|db1 db2 db3 Hs _ IH]; intros r Hr.
  - eauto using row_evolves_refl.
  - destruct (core_step_rows db1 db2 k r Hok Hs Hr) as (r2 & Hr2 & Hev).
    destruct (IH (core_step_ok _ _ Hok Hs) r2 Hr2) as (r3 & Hr3 & Hev').
    eauto using row_evolves_trans.
Qed.

(** C13 (spec 4.4, debt state machine): along any run of the in-scope
    operations (client creation, debt creation, non-negative payments) from
    a reachable store, every stored debt row stays stored, keeps its
    client, total and due date, never sees its remaining amount grow, moves
    only [OPEN -> OPEN], [OPEN -> PAID] or [PAID -> PAID], and does not
    change at all once paid. *)
Theorem debt_lifecycle db db' k r :
  reachable db → rtc core_step db db' → db.(debts_tbl) !! k = Some r →
  ∃ r', db'.(debts_tbl) !! k = Some r' ∧ row_evolves r r'.
Proof. intros Hreach. apply rtc_core_step_rows, reachable_ledger_ok, Hreach. Qed.

Lemma debt_lifecycle_witness :
  ∃ r', demo_store4.(debts_tbl) !! 1%N = Some r' ∧ row_evolves demo_row3 r'.
Proof.
  apply (debt_lifecycle demo_store3); [exact demo_store3_reachable | | vm_compute; reflexivity].
  unfold demo_store4, after.
  destruct (PaymentListCreateView_create _ _ _) as [[p db']|e] eqn:E; [|vm_compute in E; discriminate].
  apply rtc_once. eapply (step_create_payment _ demo_rq (mkPaymentData (Some 1%N) (Some 6000)));
    [simpl; lia | exact E].
Defined.

(** ** Every debt can be settled *)

(** C14 (liveness, spec 4.4): from any reachable store, any authenticated
    caller can take every stored debt to [PAID] in one in-scope step: a
    [POST /payments/] of exactly its remaining amount (which always fits
    the amount field and is never negative) succeeds, and the row it
    leaves is paid with nothing remaining. *)
Theorem debt_can_be_settled db rq u k r :
  reachable db → rq.(req_user) = Some u → db.(debts_tbl) !! k = Some r →
  ∃ db' r', core_step db db' ∧ db'.(debts_tbl) !! k = Some r' ∧
    state_of r' = PAID ∧ r'.(debts.row_remaining_amount) = 0.
Proof.
  intros Hreach Hu Hr. pose proof (reachable_ledger_ok db Hreach) as Hok.
  pose proof (ok_bounds db Hok k r Hr) as Hb; simpl in Hb.
  pose proof (reachable_rows_fit db Hreach k r Hr) as Hfit; simpl in Hfit.
  apply andb_true_iff in Hfit as [_ Hfit].
  destruct (ledger_payment_ok db rq u k r r.(debts.row_remaining_amount) Hok Hu Hr Hfit)
    as (c & p & _ & Heq); [lia|].
  eexists _, _. split_and!.
  - eapply (step_create_payment _ rq (mkPaymentData (Some k) (Some r.(debts.row_remaining_amount))));
      [simpl; lia | exact Heq].
  - simpl. apply lookup_insert_eq.
  - unfold state_of; simpl. by rewrite bool_decide_true, orb_true_r by lia.
  - simpl. lia.
Qed.

Lemma debt_can_be_settled_witness :
  ∃ db' r', core_step demo_store3 db' ∧ db'.(debts_tbl) !! 1%N = Some r' ∧
    state_of r' = PAID ∧ r'.(debts.row_remaining_amount) = 0.
Proof.
  apply (debt_can_be_settled demo_store3 demo_rq demo_user 1 demo_row3);
    [exact demo_store3_reachable | reflexivity | vm_compute; reflexivity].
Defined.
