(* ===== verification/Spec.v ===== *)
(** * Spec: the abstract ledger of spec section 4 and its refinement

    [LedgerSpec] is the interface a bookkeeping engine offers its callers
    (spec section 4.1 [createDebt], 4.2 [applyPayment]): balances, debts as
    [(client, total, remaining, is_paid)], and the two operations.
    [LedgerLaws] is the contract: on a valid state, creating a debt of
    [t >= 0] for a visible client adds [t] to its balance and opens a debt
    with [remaining = total = t]; a payment [0 < a <= remaining] subtracts
    [a] from both and sets [is_paid] exactly when nothing remains; a
    payment above the remaining amount fails with the engine's
    "insufficient remaining" error.

    The scenario of spec section 8 (items 6-9) is proved once, against the
    interface ([Section scenario]).  The code is an instance: the state is
    the [Store], validity is [ledger_ok], the operations are the handlers
    of [POST /debts/] and [POST /payments/] for a fixed caller; the
    instance's laws are the refinement theorems. *)

From S2P Require Import Prelude Models DebtModel PaymentModel Invariant Serializers Views Ledger.

(** ** The interface *)

(** A debt as the spec sees it: client, total, remaining, paid. *)
Definition abs_debt : Type := N * Z * Z * bool.

Class LedgerSpec (S : Type) := {
  l_valid : S → Prop;
  l_balance : S → N → option Z;
  l_debt : S → N → option abs_debt;
  l_create_debt : S → N → Z → result (N * S);
  l_apply_payment : S → N → Z → result S;
  l_insufficient : error
}.

Class LedgerLaws (S : Type) `{LedgerSpec S} := {
  law_create_ok s c b t :
    l_valid s → l_balance s c = Some b → 0 ≤ t → decimal_fits t = true →
    ∃ i s', l_create_debt s c t = Ok (i, s') ∧ l_valid s' ∧
      l_balance s' c = Some (b + t) ∧ l_debt s' i = Some (c, t, t, bool_decide (t = 0)) ∧
      (∀ c', c' ≠ c → l_balance s' c' = l_balance s c') ∧
      (∀ j, j ≠ i → l_debt s' j = l_debt s j);
  law_create_negative s c t :
    l_valid s → t < 0 → ∃ e, l_create_debt s c t = Err e;
  law_pay_ok s i c tot rem p b a :
    l_valid s → l_debt s i = Some (c, tot, rem, p) → l_balance s c = Some b →
    0 < a ≤ rem → decimal_fits a = true →
    ∃ s', l_apply_payment s i a = Ok s' ∧ l_valid s' ∧
      l_debt s' i = Some (c, tot, rem - a, bool_decide (rem - a = 0)) ∧
      l_balance s' c = Some (b - a) ∧
      (∀ c', c' ≠ c → l_balance s' c' = l_balance s c') ∧
      (∀ j, j ≠ i → l_debt s' j = l_debt s j);
  law_pay_over s i c tot rem p a :
    l_valid s → l_debt s i = Some (c, tot, rem, p) → rem < a → decimal_fits a = true →
    l_apply_payment s i a = Err l_insufficient
}.

(** ** Spec section 8, items 6-9, from the contract alone *)

Section scenario.
Context {S : Type} `{LedgerLaws S}.

Lemma scenario_steps s c :
  l_valid s → l_balance s c = Some 0 →
  ∃ i s1 s2 s3,
    l_create_debt s c 10000 = Ok (i, s1) ∧
    l_balance s1 c = Some 10000 ∧ l_debt s1 i = Some (c, 10000, 10000, false) ∧
    l_apply_payment s1 i 4000 = Ok s2 ∧
    l_balance s2 c = Some 6000 ∧ l_debt s2 i = Some (c, 10000, 6000, false) ∧
    l_apply_payment s2 i 6000 = Ok s3 ∧
    l_balance s3 c = Some 0 ∧ l_debt s3 i = Some (c, 10000, 0, true) ∧
    l_apply_payment s3 i 1000 = Err l_insufficient.
Proof.
  intros Hv Hb.
  destruct (law_create_ok s c 0 10000 Hv Hb) as (i & s1 & Hc & Hv1 & Hb1 & Hd1 & _ & _);
    [lia | reflexivity |].
  destruct (law_pay_ok s1 i c 10000 10000 _ 10000 4000 Hv1 Hd1 Hb1) as
    (s2 & Hp2 & Hv2 & Hd2 & Hb2 & _ & _); [lia | reflexivity |].
  destruct (law_pay_ok s2 i c 10000 6000 _ 6000 6000 Hv2 Hd2 Hb2) as
    (s3 & Hp3 & Hv3 & Hd3 & Hb3 & _ & _); [lia | reflexivity |].
  exists i, s1, s2, s3. simpl in *. split_and!; try done.
  by apply (law_pay_over s3 i c 10000 0 true).
Qed.
End scenario.

(** ** The code as an instance: [POST /debts/] and [POST /payments/] for a
    fixed caller [u] on day [today] *)

Definition code_rq (u : users.User) (today : date) : Request := mkRequest (Some u) today.

(** The balance of a client the caller's debt serializer can see. *)
Definition code_balance (u : users.User) (db : Store) (c : N) : option Z :=
  cl ← db.(clients_tbl) !! c;
  if bool_decide (cl.(clients.company) = u.(users.company)) then Some cl.(clients.balanse) else None.

Definition code_debt (db : Store) (i : N) : option abs_debt :=
  (λ r : debts.Row, (r.(debts.client_id), r.(debts.row_total_amount),
                     r.(debts.row_remaining_amount), r.(debts.row_is_paid))) <$> db.(debts_tbl) !! i.

Definition code_create_debt (u : users.User) (today : date) (db : Store) (c : N) (t : Z)
    : result (N * Store) :=
  match DebtListCreateView_create db (code_rq u today) (mkDebtData (Some c) (Some t) None) with
  | Ok (d, db') => Ok (default 0%N d.(debts.id), db')
  | Err e => Err e
  end.

Definition code_apply_payment (u : users.User) (today : date) (db : Store) (i : N) (a : Z)
    : result Store :=
  match PaymentListCreateView_create db (code_rq u today) (mkPaymentData (Some i) (Some a)) with
  | Ok (_, db') => Ok db'
  | Err e => Err e
  end.

#[export] Instance code_ledger (u : users.User) (today : date) : LedgerSpec Store := {|
  l_valid := ledger_ok;
  l_balance := code_balance u;
  l_debt := code_debt;
  l_create_debt := code_create_debt u today;
  l_apply_payment := code_apply_payment u today;
  l_insufficient := ValueError
|}.

Lemma code_balance_Some u db c b :
  code_balance u db c = Some b →
  ∃ cl, db.(clients_tbl) !! c = Some cl ∧ cl.(clients.company) = u.(users.company) ∧
        cl.(clients.balanse) = b.
Proof.
  unfold code_balance. intros (cl & Hc & Hb)%bind_Some.
  case_bool_decide; [|done]. injection Hb as <-. eauto.
Qed.

Lemma code_create_law u today db c b t :
  ledger_ok db → code_balance u db c = Some b → 0 ≤ t → decimal_fits t = true →
  ∃ i db', code_create_debt u today db c t = Ok (i, db') ∧ ledger_ok db' ∧
    code_balance u db' c = Some (b + t) ∧ code_debt db' i = Some (c, t, t, bool_decide (t = 0)) ∧
    (∀ c', c' ≠ c → code_balance u db' c' = code_balance u db c') ∧
    (∀ j, j ≠ i → code_debt db' j = code_debt db j).
Proof.
  intros Hok Hb Ht Hfit. apply code_balance_Some in Hb as (cl & Hc & Hcomp & <-).
  pose proof (ok_client_keys db Hok c cl Hc) as Hk; simpl in Hk.
  pose proof (seq_fresh db Hok) as Hseq.
  unfold code_create_debt.
  rewrite (DebtListCreateView_create_valid db (code_rq u today) u c cl t) by done.
  set (d := debts.mkDebt None cl t 0 (default_due_date (req_today (code_rq u today))) false).
  pose proof (Debt_save_new_id d db eq_refl) as Hid.
  pose proof (Debt_save_new d db eq_refl) as Hdb.
  destruct (Debt_save d db) as [d' db'] eqn:E; simpl in Hid, Hdb. rewrite Hid; simpl.
  exists (debt_seq db), db'. split; [done|]. split.
  { replace db' with (Debt_save d db).2 by (by rewrite E).
    apply create_debt_ok; [done | by rewrite Hk | done]. }
  subst db'. unfold code_balance, code_debt, new_debt_row, charged_client, d; simpl.
  split_and!.
  - rewrite Hk, lookup_insert_eq; simpl. by rewrite bool_decide_true.
  - rewrite lookup_insert_eq; simpl. by rewrite Hk.
  - intros c' Hne. rewrite lookup_insert_ne by congruence. done.
  - intros j Hne. rewrite lookup_insert_ne by congruence. done.
Qed.

Lemma code_debt_Some db i c tot rem p :
  code_debt db i = Some (c, tot, rem, p) →
  ∃ r, db.(debts_tbl) !! i = Some r ∧ r.(debts.client_id) = c ∧ r.(debts.row_total_amount) = tot ∧
       r.(debts.row_remaining_amount) = rem ∧ r.(debts.row_is_paid) = p.
Proof.
  unfold code_debt. intros (r & Hr & Heq)%fmap_Some. injection Heq as -> -> -> ->. eauto 10.
Qed.

Lemma code_pay_law u today db i c tot rem p b a :
  ledger_ok db → code_debt db i = Some (c, tot, rem, p) → code_balance u db c = Some b →
  0 < a ≤ rem → decimal_fits a = true →
  ∃ db', code_apply_payment u today db i a = Ok db' ∧ ledger_ok db' ∧
    code_debt db' i = Some (c, tot, rem - a, bool_decide (rem - a = 0)) ∧
    code_balance u db' c = Some (b - a) ∧
    (∀ c', c' ≠ c → code_balance u db' c' = code_balance u db c') ∧
    (∀ j, j ≠ i → code_debt db' j = code_debt db j).
Proof.
  intros Hok Hd Hb Ha Hfit.
  apply code_debt_Some in Hd as (r & Hr & <- & <- & <- & <-).
  apply code_balance_Some in Hb as (cl & Hc & Hcomp & <-).
  pose proof (ok_client_keys db Hok _ cl Hc) as Hk; simpl in Hk.
  pose proof (ok_paid db Hok i r Hr) as Hp; simpl in Hp.
  destruct (ledger_payment_ok db (code_rq u today) u i r a Hok eq_refl Hr Hfit) as
    (c' & p' & Hc' & Heq); [lia|].
  rewrite Hc in Hc'. injection Hc' as <-.
  unfold code_apply_payment. rewrite Heq.
  eexists; split; [reflexivity|]. split.
  { eapply core_step_ok; [done|]. eapply step_create_payment; [|exact Heq]; simpl; lia. }
  unfold code_balance, code_debt; simpl. split_and!.
  - rewrite lookup_insert_eq; simpl. rewrite Hk, Hp. f_equal. bool_cases; done.
  - rewrite Hk, lookup_insert_eq; simpl. by rewrite bool_decide_true.
  - intros c'' Hne. rewrite lookup_insert_ne by congruence. done.
  - intros j Hne. rewrite lookup_insert_ne by congruence. done.
Qed.

Lemma code_pay_over u today db i c tot rem p a :
  ledger_ok db → code_debt db i = Some (c, tot, rem, p) → rem < a → decimal_fits a = true →
  code_apply_payment u today db i a = Err ValueError.
Proof.
  intros Hok Hd Ha Hfit. apply code_debt_Some in Hd as (r & Hr & _ & _ & <- & _).
  destruct (ledger_get_debt db i r Hok Hr) as (cl & _ & Hget).
  unfold code_apply_payment, PaymentListCreateView_create, authenticated,
    PaymentSerializer_fields, PaymentSerializer_create, opt_field, pk_related, decimal_field.
  cbn -[Payment_save]. rewrite Hget, Hfit. cbn -[Payment_save].
  case_bool_decide; cbn -[Payment_save]; (rewrite Payment_save_overdraw; [done | simpl; lia]).
Qed.

Lemma code_create_negative u today db c t :
  t < 0 → ∃ e, code_create_debt u today db c t = Err e.
Proof.
  intros Ht. unfold code_create_debt, DebtListCreateView_create, authenticated,
    DebtSerializer_is_valid, DebtSerializer_fields, DebtSerializer_validate, opt_field,
    pk_related, decimal_field; simpl.
  destruct (debt_client_queryset db u c); simpl; [|by eexists].
  destruct (decimal_fits t); simpl; [|by eexists].
  rewrite bool_decide_false by lia. by eexists.
Qed.

#[export] Instance code_ledger_laws u today : @LedgerLaws Store (code_ledger u today).
Proof.
  constructor; simpl.
  - intros. by apply code_create_law.
  - intros s c t _ Ht. by apply code_create_negative.
  - intros. eapply code_pay_law; eauto.
  - intros s i c tot rem p a Hv Hd Ha Hfit. by apply (code_pay_over u today s i c tot rem p a).
Qed.

(** ** The refinement theorems *)

(** C8 (refinement of spec 4.1 [createDebt]): from a consistent store, a
    [POST /debts/] of a well-formed total [t >= 0] for a client the caller
    can see succeeds; the new debt has [remaining = total = t] and
    [is_paid = (t == 0)], the client's balance grows by [t], the store
    stays consistent, and no other client or debt changes. *)
Theorem code_create_refines u today db c b t :
  ledger_ok db → code_balance u db c = Some b → 0 ≤ t → decimal_fits t = true →
  ∃ i db', code_create_debt u today db c t = Ok (i, db') ∧ ledger_ok db' ∧
    code_balance u db' c = Some (b + t) ∧ code_debt db' i = Some (c, t, t, bool_decide (t = 0)) ∧
    (∀ c', c' ≠ c → code_balance u db' c' = code_balance u db c') ∧
    (∀ j, j ≠ i → code_debt db' j = code_debt db j).
Proof. apply code_create_law. Qed.

Lemma code_create_refines_witness :
  ∃ i db', code_create_debt demo_user 100 demo_store3 0 2500 = Ok (i, db') ∧ ledger_ok db' ∧
    code_balance demo_user db' 0 = Some (6000 + 2500) ∧
    code_debt db' i = Some (0%N, 2500, 2500, bool_decide (2500 = 0)) ∧
    (∀ c', c' ≠ 0%N → code_balance demo_user db' c' = code_balance demo_user demo_store3 c') ∧
    (∀ j, j ≠ i → code_debt db' j = code_debt demo_store3 j).
Proof.
  apply (code_create_refines demo_user 100 demo_store3 0 6000 2500);
    [apply (bool_decide_unpack _); vm_compute; reflexivity | vm_compute; reflexivity
    | lia | reflexivity].
Defined.

(** C9 (refinement of spec 4.2 [applyPayment]): from a consistent store, a
    [POST /payments/] of a well-formed amount [0 < a <= remaining] on a
    debt whose client the caller can see succeeds; the debt's remaining
    amount and the client's balance both drop by [a], [is_paid] becomes
    [remaining - a == 0], the store stays consistent, and no other client
    or debt changes. *)
Theorem code_pay_refines u today db i c tot rem p b a :
  ledger_ok db → code_debt db i = Some (c, tot, rem, p) → code_balance u db c = Some b →
  0 < a ≤ rem → decimal_fits a = true →
  ∃ db', code_apply_payment u today db i a = Ok db' ∧ ledger_ok db' ∧
    code_debt db' i = Some (c, tot, rem - a, bool_decide (rem - a = 0)) ∧
    code_balance u db' c = Some (b - a) ∧
    (∀ c', c' ≠ c → code_balance u db' c' = code_balance u db c') ∧
    (∀ j, j ≠ i → code_debt db' j = code_debt db j).
Proof. apply code_pay_law. Qed.

Lemma code_pay_refines_witness :
  ∃ db', code_apply_payment demo_user 100 demo_store3 1 6000 = Ok db' ∧ ledger_ok db' ∧
    code_debt db' 1 = Some (0%N, 10000, 6000 - 6000, bool_decide (6000 - 6000 = 0)) ∧
    code_balance demo_user db' 0 = Some (6000 - 6000) ∧
    (∀ c', c' ≠ 0%N → code_balance demo_user db' c' = code_balance demo_user demo_store3 c') ∧
    (∀ j, j ≠ 1%N → code_debt db' j = code_debt demo_store3 j).
Proof.
  apply (code_pay_refines demo_user 100 demo_store3 1 0 10000 6000 false 6000 6000);
    [apply (bool_decide_unpack _); vm_compute; reflexivity | vm_compute; reflexivity
    | vm_compute; reflexivity | lia | reflexivity].
Defined.

(** C7 (spec section 8, items 6-9): from any consistent store, for a client
    of the caller's company with balance 0, the code runs the spec's
    scenario: a debt of 100.00 raises the balance to 100.00 with
    [remaining = 100.00] and [is_paid = False]; paying 40.00 leaves 60.00
    on both, unpaid; paying 60.00 leaves 0 on both and sets [is_paid];
    a further payment of 10.00 fails with [ValueError]. *)
Theorem code_scenario u today db c :
  ledger_ok db → code_balance u db c = Some 0 →
  ∃ i db1 db2 db3,
    code_create_debt u today db c 10000 = Ok (i, db1) ∧
    code_balance u db1 c = Some 10000 ∧ code_debt db1 i = Some (c, 10000, 10000, false) ∧
    code_apply_payment u today db1 i 4000 = Ok db2 ∧
    code_balance u db2 c = Some 6000 ∧ code_debt db2 i = Some (c, 10000, 6000, false) ∧
    code_apply_payment u today db2 i 6000 = Ok db3 ∧
    code_balance u db3 c = Some 0 ∧ code_debt db3 i = Some (c, 10000, 0, true) ∧
    code_apply_payment u today db3 i 1000 = Err ValueError.
Proof. apply (scenario_steps (H0 := code_ledger_laws u today)). Qed.

Lemma code_scenario_witness :
  ∃ i db1 db2 db3,
    code_create_debt demo_user 100 demo_store1 0 10000 = Ok (i, db1) ∧
    code_balance demo_user db1 0 = Some 10000 ∧ code_debt db1 i = Some (0%N, 10000, 10000, false) ∧
    code_apply_payment demo_user 100 db1 i 4000 = Ok db2 ∧
    code_balance demo_user db2 0 = Some 6000 ∧ code_debt db2 i = Some (0%N, 10000, 6000, false) ∧
    code_apply_payment demo_user 100 db2 i 6000 = Ok db3 ∧
    code_balance demo_user db3 0 = Some 0 ∧ code_debt db3 i = Some (0%N, 10000, 0, true) ∧
    code_apply_payment demo_user 100 db3 i 1000 = Err ValueError.
Proof.
  apply (code_scenario demo_user 100 demo_store1 0);
    [apply (bool_decide_unpack _); vm_compute; reflexivity | vm_compute; reflexivity].
Defined.
