(* ===== verification/Race.v ===== *)
(** * Race: concurrent payment requests (spec section 5)

    A [POST /payments/] request runs in three phases against the shared
    database, with no transaction or row lock between them; each phase
    ends at a query of the code:
    - load ([is_valid]): authentication and field validation, whose
      [PrimaryKeyRelatedField] fetches the [Debt] row into an instance;
    - fetch ([PaymentSerializer.create], line 13 of
      [payments/serializers.py]): [validated_data['debt'].client] fetches
      the debt's [Client] row on first access, from the database as it is
      then;
    - commit ([Payment.save]): the guard [remaining_amount >= amount] is
      evaluated on the loaded debt and the rows are overwritten from the
      instances (the payment, then the debt, then the client).
    The three writes of the commit run as one step: no theorem below needs
    a request to stop between them.

    [run] executes a schedule: a list of request indices, each occurrence
    advancing that request by one phase (a scheduler step in the manner of
    a thread pool: an index out of range, or a finished request,
    stutters).  Serial schedules are the handler itself; a schedule in
    which both requests load before either commits loses an update. *)

From S2P Require Import Prelude Models DebtModel PaymentModel Invariant Serializers Views Ledger.

(** ** The three phases of [PaymentListCreateView.create] *)

Definition payment_load (db : Store) (rq : Request) (data : PaymentData)
    : result (users.User * PaymentAttrs) :=
  u ← authenticated rq;
  attrs ← PaymentSerializer_fields db false data;
  Ok (u, attrs).

(** The client row of a debt instance, fetched on first access to
    [debt.client]. *)
Definition fetch_client (db : Store) (d : debts.Debt) : result debts.Debt :=
  c ← of_option DoesNotExist (db.(clients_tbl) !! d.(debts.client).(clients.id));
  Ok (debts.set_client c d).

Definition payment_fetch (db : Store) (x : users.User * PaymentAttrs)
    : result (users.User * PaymentAttrs) :=
  match x.2.(attr_debt) with
  | Some d => d' ← fetch_client db d; Ok (x.1, mkPaymentAttrs (Some d') x.2.(attr_amount))
  | None => Ok x
  end.

Definition payment_commit (db : Store) (x : users.User * PaymentAttrs)
    : result (payments.Payment * Store) :=
  PaymentSerializer_create x.1 (Some x.1.(users.id)) (fresh_payment_id db) x.2 db.

(** ** Schedules *)

Inductive phase :=
| Fresh
| Loaded (x : users.User * PaymentAttrs)
| Fetched (x : users.User * PaymentAttrs)
| Done (r : result payments.Payment).

Definition req_step (db : Store) (rd : Request * PaymentData) (ph : phase) : Store * phase :=
  match ph with
  | Fresh =>
      match payment_load db rd.1 rd.2 with
      | Ok x => (db, Loaded x)
      | Err e => (db, Done (Err e))
      end
  | Loaded x =>
      match payment_fetch db x with
      | Ok x' => (db, Fetched x')
      | Err e => (db, Done (Err e))
      end
  | Fetched x =>
      match payment_commit db x with
      | Ok (p, db') => (db', Done (Ok p))
      | Err e => (db, Done (Err e))
      end
  | Done r => (db, Done r)
  end.

Fixpoint run (reqs : list (Request * PaymentData)) (sched : list nat) (db : Store)
    (phs : list phase) : Store * list phase :=
  match sched with
  | [] => (db, phs)
  | i :: s =>
      match reqs !! i, phs !! i with
      | Some rd, Some ph => let '(db', ph') := req_step db rd ph in run reqs s db' (<[i := ph']> phs)
      | _, _ => run reqs s db phs
      end
  end.

Definition run_all (reqs : list (Request * PaymentData)) (sched : list nat) (db : Store)
    : Store * list phase :=
  run reqs sched db (replicate (length reqs) Fresh).

#[local] Arguments fetch_client : simpl never.

(** ** The phases run back to back *)

(** Client rows are stored under their own ids. *)
Definition clients_keyed (db : Store) : Prop := map_Forall (λ k c, c.(clients.id) = k) db.(clients_tbl).

Lemma fetch_client_at db d c :
  db.(clients_tbl) !! d.(debts.client).(clients.id) = Some c → fetch_client db d = Ok (debts.set_client c d).
Proof. intros Hc. unfold fetch_client. by rewrite Hc. Qed.

Lemma payment_fetch_at db u d c a :
  db.(clients_tbl) !! d.(debts.client).(clients.id) = Some c →
  payment_fetch db (u, mkPaymentAttrs (Some d) a) = Ok (u, mkPaymentAttrs (Some (debts.set_client c d)) a).
Proof. intros Hc. unfold payment_fetch; simpl. by rewrite (fetch_client_at _ _ c). Qed.

(** The debt of [get_debt] carries the client row it would fetch. *)
Lemma fetch_client_get_debt db k d : clients_keyed db → get_debt db k = Some d → fetch_client db d = Ok d.
Proof.
  intros Hkeys. unfold get_debt.
  destruct (db.(debts_tbl) !! k) as [r|]; simpl; [|done].
  destruct (db.(clients_tbl) !! r.(debts.client_id)) as [c|] eqn:Hc; simpl; [|done].
  intros [= <-]. rewrite (fetch_client_at _ _ c); [done|]. simpl. by rewrite (Hkeys _ _ Hc).
Qed.

Lemma payment_fetch_loaded db rq data x :
  clients_keyed db → payment_load db rq data = Ok x → payment_fetch db x = Ok x.
Proof.
  intros Hkeys Hl. unfold payment_load in Hl.
  destruct (authenticated rq) as [u|]; simpl in Hl; [|done].
  destruct (PaymentSerializer_fields db false data) as [attrs|] eqn:Hf; simpl in Hl; [|done].
  injection Hl as <-. unfold payment_fetch; simpl.
  destruct (attr_debt attrs) as [d|] eqn:Hd; [|done].
  unfold PaymentSerializer_fields, opt_field, pk_related in Hf.
  destruct (data_debt data) as [k|]; simpl in Hf.
  - destruct (get_debt db k) as [d'|] eqn:Hg; simpl in Hf; [|done].
    destruct (data_amount data) as [z|]; [destruct (decimal_field z)|]; simpl in Hf; simplify_eq/=;
      rewrite (fetch_client_get_debt db k d Hkeys Hg); simpl; done.
  - destruct (data_amount data) as [z|]; [destruct (decimal_field z)|]; simpl in Hf; by simplify_eq/=.
Qed.

(** On a store whose clients are keyed, the three phases back to back
    are the handler. *)
Lemma payment_phases db rq data :
  clients_keyed db →
  PaymentListCreateView_create db rq data =
    (x ← payment_load db rq data; x' ← payment_fetch db x; payment_commit db x').
Proof.
  intros Hkeys. destruct (payment_load db rq data) as [x|e] eqn:Hl; simpl.
  - rewrite (payment_fetch_loaded db rq data x Hkeys Hl); simpl. revert Hl.
    unfold PaymentListCreateView_create, payment_load, payment_commit.
    destruct (authenticated rq); simpl; [|done].
    by destruct (PaymentSerializer_fields db false data); intros; simplify_eq/=.
  - revert Hl. unfold PaymentListCreateView_create, payment_load.
    destruct (authenticated rq); simpl; [|by intros [= ->]].
    destruct (PaymentSerializer_fields db false data); simpl; by intros [= ->].
Qed.

(** A request that runs alone, load, fetch and commit, is the handler. *)
Lemma run_serial_one db rq data :
  clients_keyed db →
  run_all [(rq, data)] [0%nat; 0%nat; 0%nat] db =
  match PaymentListCreateView_create db rq data with
  | Ok (p, db') => (db', [Done (Ok p)])
  | Err e => (db, [Done (Err e)])
  end.
Proof.
  intros Hkeys. rewrite payment_phases by done. unfold run_all; simpl.
  destruct (payment_load db rq data) as [x|e]; simpl; [|done].
  destruct (payment_fetch db x) as [x'|e]; simpl; [|done].
  by destruct (payment_commit db x') as [[p db']|e].
Qed.

(** ** The lost update *)

Lemma payment_load_ok db rq u k d a :
  rq.(req_user) = Some u → get_debt db k = Some d → decimal_fits a = true →
  payment_load db rq (mkPaymentData (Some k) (Some a)) = Ok (u, mkPaymentAttrs (Some d) (Some a)).
Proof.
  intros Hu Hd Hfit. unfold payment_load, authenticated, PaymentSerializer_fields, opt_field,
    pk_related, decimal_field. rewrite Hu; simpl. by rewrite Hd, Hfit.
Qed.

Lemma payment_commit_ok db u d a k :
  d.(debts.id) = Some k → k ≠ 0%N → a ≤ d.(debts.remaining_amount) →
  ∃ p, payment_commit db (u, mkPaymentAttrs (Some d) (Some a)) =
    Ok (p, mkStore
      (<[d.(debts.client).(clients.id) := debited_client d a]> db.(clients_tbl))
      (<[k := paid_debt_row d a]> db.(debts_tbl))
      (<[fresh_payment_id db := payments.mkRow k a u.(users.id)]> db.(payments_tbl))
      db.(debt_seq)).
Proof.
  intros Hid Hk Ha. unfold payment_commit, PaymentSerializer_create; simpl.
  destruct (Payment_save_ok (payments.mkPayment (fresh_payment_id db) d a u.(users.id)) db k)
    as [p Heq]; [done | done | done |].
  exists p. case_bool_decide; exact Heq.
Qed.

(** The loaded debt instance of a consistent store, with the row and the
    client it was built from. *)
Lemma ledger_loaded_debt db k r :
  ledger_ok db → db.(debts_tbl) !! k = Some r →
  ∃ c, db.(clients_tbl) !! r.(debts.client_id) = Some c ∧ c.(clients.id) = r.(debts.client_id) ∧
    get_debt db k = Some (debts.mkDebt (Some k) c r.(debts.row_total_amount) r.(debts.row_remaining_amount)
                                       r.(debts.row_due_date) r.(debts.row_is_paid)) ∧
    k ≠ 0%N.
Proof.
  intros Hok Hr. destruct (ledger_get_debt db k r Hok Hr) as (c & Hc & Hd).
  exists c. split_and!; [done | exact (ok_client_keys db Hok _ c Hc) | done |].
  pose proof (ok_seq db Hok k r Hr). simpl in *. lia.
Qed.

(** C10 (finding, spec section 5, lost update): from a consistent store, two
    payments [a1 > 0] and [a2] on the same debt, each within its remaining
    amount, scheduled so that both requests load the debt before either
    commits (the first then fetches its client and commits, then the
    second), both succeed (even when [a1 + a2] exceeds what remains); the
    debt row ends with [remaining - a2], the first decrement is lost, and
    the store is no longer consistent. *)
Theorem lost_update db rq1 rq2 u1 u2 k r a1 a2 :
  ledger_ok db → rq1.(req_user) = Some u1 → rq2.(req_user) = Some u2 →
  db.(debts_tbl) !! k = Some r → decimal_fits a1 = true → decimal_fits a2 = true →
  0 < a1 ≤ r.(debts.row_remaining_amount) → a2 ≤ r.(debts.row_remaining_amount) →
  ∃ p1 p2 db',
    run_all [(rq1, mkPaymentData (Some k) (Some a1)); (rq2, mkPaymentData (Some k) (Some a2))]
            [0%nat; 1%nat; 0%nat; 0%nat; 1%nat; 1%nat] db = (db', [Done (Ok p1); Done (Ok p2)]) ∧
    (∃ r', db'.(debts_tbl) !! k = Some r' ∧
           r'.(debts.row_remaining_amount) = r.(debts.row_remaining_amount) - a2) ∧
    ¬ ledger_ok db'.
Proof.
  intros Hok Hu1 Hu2 Hr Hf1 Hf2 Ha1 Ha2.
  destruct (ledger_loaded_debt db k r Hok Hr) as (c & Hc & Hcid & Hd & Hk).
  pose proof (ledger_ok_payments_at db k r Hok Hr) as Hsum.
  set (d := debts.mkDebt (Some k) c r.(debts.row_total_amount) r.(debts.row_remaining_amount)
                         r.(debts.row_due_date) r.(debts.row_is_paid)) in *.
  destruct (payment_commit_ok db u1 d a1 k) as [p1 Hc1]; [done | done | simpl; lia |].
  set (db1 := mkStore _ _ _ _) in Hc1.
  set (d' := debts.set_client (debited_client d a1) d).
  destruct (payment_commit_ok db1 u2 d' a2 k) as [p2 Hc2]; [done | done | done |].
  unfold run_all; simpl.
  rewrite (payment_load_ok db rq1 u1 k d a1) by done; simpl.
  rewrite (payment_load_ok db rq2 u2 k d a2) by done; simpl.
  rewrite (payment_fetch_at db u1 d c) by (simpl; by rewrite Hcid); simpl.
  change (debts.set_client c d) with d. rewrite Hc1; simpl.
  rewrite (payment_fetch_at db1 u2 d (debited_client d a1)) by apply lookup_insert_eq; simpl.
  change (debts.set_client (debited_client d a1) d) with d'. rewrite Hc2; simpl.
  eexists _, _, _; split; [reflexivity|]. split.
  { eexists; split; [apply lookup_insert_eq | done]. }
  intros [_ _ _ _ _ Hpay _ _ _]; simpl in Hpay.
  specialize (Hpay k _ (lookup_insert_eq _ _ _)). simpl in Hpay.
  unfold debt_paid_total in Hpay, Hsum.
  rewrite map_sumZ_insert_fresh in Hpay by apply fresh_payment_id_fresh.
  rewrite map_sumZ_insert_fresh in Hpay by apply fresh_payment_id_fresh.
  rewrite !payment_share_same in Hpay by done. simpl in Hpay. lia.
Qed.

Lemma lost_update_witness :
  ∃ p1 p2 db',
    run_all [(demo_rq, mkPaymentData (Some 1%N) (Some 6000)); (demo_rq, mkPaymentData (Some 1%N) (Some 6000))]
            [0%nat; 1%nat; 0%nat; 0%nat; 1%nat; 1%nat] demo_store3 = (db', [Done (Ok p1); Done (Ok p2)]) ∧
    (∃ r', db'.(debts_tbl) !! 1%N = Some r' ∧ r'.(debts.row_remaining_amount) = 6000 - 6000) ∧
    ¬ ledger_ok db'.
Proof.
  apply (lost_update demo_store3 demo_rq demo_rq demo_user demo_user 1 demo_row3 6000 6000);
    [apply (bool_decide_unpack _); vm_compute; reflexivity | reflexivity | reflexivity
    | vm_compute; reflexivity | reflexivity | reflexivity | simpl; lia | simpl; lia].
Defined.

(** ** Payments on two debts of one client

    Spec section 5 asks for payments against the same debt to be
    serialized.  [Payment.save] also writes the client row, from the
    client instance [PaymentSerializer.create] fetched, so two payments
    against different debts of one client race on the balance when both
    fetch the client before either commits: a lock per debt would not
    help. *)

(** C11 (finding, spec section 5): from a consistent store, two payments
    [a1 > 0] and [a2] on two different debts of the same client, each
    within its debt's remaining amount, scheduled so that both requests
    load their debt and fetch the client before either commits, both
    succeed and both debt rows are decremented, but the client's
    [balanse] ends [a1] above the sum of its remaining amounts: the second
    commit writes the balance it computed from the client fetched before
    the first commit. *)
Theorem balance_lost_update db rq1 rq2 u1 u2 k1 k2 r1 r2 a1 a2 :
  ledger_ok db → rq1.(req_user) = Some u1 → rq2.(req_user) = Some u2 → k1 ≠ k2 →
  db.(debts_tbl) !! k1 = Some r1 → db.(debts_tbl) !! k2 = Some r2 →
  r1.(debts.client_id) = r2.(debts.client_id) →
  decimal_fits a1 = true → decimal_fits a2 = true →
  0 < a1 ≤ r1.(debts.row_remaining_amount) → a2 ≤ r2.(debts.row_remaining_amount) →
  ∃ p1 p2 db' c',
    run_all [(rq1, mkPaymentData (Some k1) (Some a1)); (rq2, mkPaymentData (Some k2) (Some a2))]
            [0%nat; 1%nat; 0%nat; 1%nat; 0%nat; 1%nat] db = (db', [Done (Ok p1); Done (Ok p2)]) ∧
    (∃ r1', db'.(debts_tbl) !! k1 = Some r1' ∧
            r1'.(debts.row_remaining_amount) = r1.(debts.row_remaining_amount) - a1) ∧
    (∃ r2', db'.(debts_tbl) !! k2 = Some r2' ∧
            r2'.(debts.row_remaining_amount) = r2.(debts.row_remaining_amount) - a2) ∧
    db'.(clients_tbl) !! r1.(debts.client_id) = Some c' ∧
    c'.(clients.balanse) = client_debt_total db'.(debts_tbl) r1.(debts.client_id) + a1 ∧
    ¬ ledger_ok db'.
Proof.
  intros Hok Hu1 Hu2 Hne Hr1 Hr2 Hcid Hf1 Hf2 Ha1 Ha2.
  destruct (ledger_loaded_debt db k1 r1 Hok Hr1) as (c & Hc & Hkey & Hd1 & Hk1).
  destruct (ledger_loaded_debt db k2 r2 Hok Hr2) as (c2 & Hc2 & _ & Hd2 & Hk2).
  rewrite <-Hcid, Hc in Hc2. injection Hc2 as <-.
  pose proof (ok_balance db Hok _ c Hc) as Hbal.
  set (d1 := debts.mkDebt (Some k1) c r1.(debts.row_total_amount) r1.(debts.row_remaining_amount)
                          r1.(debts.row_due_date) r1.(debts.row_is_paid)) in *.
  set (d2 := debts.mkDebt (Some k2) c r2.(debts.row_total_amount) r2.(debts.row_remaining_amount)
                          r2.(debts.row_due_date) r2.(debts.row_is_paid)) in *.
  destruct (payment_commit_ok db u1 d1 a1 k1) as [p1 Hc1]; [done | done | simpl; lia |].
  set (db1 := mkStore _ _ _ _) in Hc1.
  destruct (payment_commit_ok db1 u2 d2 a2 k2) as [p2 Hc2]; [done | done | done |].
  unfold run_all; simpl.
  rewrite (payment_load_ok db rq1 u1 k1 d1 a1) by done; simpl.
  rewrite (payment_load_ok db rq2 u2 k2 d2 a2) by done; simpl.
  rewrite (payment_fetch_at db u1 d1 c) by (simpl; by rewrite Hkey); simpl.
  rewrite (payment_fetch_at db u2 d2 c) by (simpl; by rewrite Hkey); simpl.
  change (debts.set_client c d1) with d1. change (debts.set_client c d2) with d2.
  rewrite Hc1; simpl. rewrite Hc2; simpl.
  assert (client_debt_total (<[k2 := paid_debt_row d2 a2]> (<[k1 := paid_debt_row d1 a1]> db.(debts_tbl)))
            r1.(debts.client_id) = client_debt_total db.(debts_tbl) r1.(debts.client_id) - a1 - a2) as Htot.
  { unfold client_debt_total.
    rewrite (map_sumZ_insert_update _ _ k2 _ r2) by (by rewrite lookup_insert_ne).
    rewrite (map_sumZ_insert_update _ _ k1 _ r1) by done.
    rewrite !debt_share_same by (simpl; congruence). simpl. lia. }
  eexists _, _, _, _; split; [reflexivity|]. split; [|split].
  { eexists; split; [simpl; rewrite lookup_insert_ne by done; apply lookup_insert_eq | done]. }
  { eexists; split; [simpl; apply lookup_insert_eq | done]. }
  simpl. rewrite Hkey. split; [apply lookup_insert_eq|].
  simpl. rewrite Htot. split; [simpl in *; lia|].
  intros Hok'. pose proof (ok_balance _ Hok' r1.(debts.client_id) _ (lookup_insert_eq _ _ _)) as Hb'.
  simpl in Hb'. rewrite Htot in Hb'. simpl in *. lia.
Qed.

(** A second debt of 50.00 for the client of [demo_store3]. *)
Definition two_debt_store : Store :=
  after (DebtListCreateView_create demo_store3 demo_rq (mkDebtData (Some 0%N) (Some 5000) None)) demo_store3.

Lemma balance_lost_update_witness :
  ∃ p1 p2 db' c',
    run_all [(demo_rq, mkPaymentData (Some 1%N) (Some 1000)); (demo_rq, mkPaymentData (Some 2%N) (Some 2000))]
            [0%nat; 1%nat; 0%nat; 1%nat; 0%nat; 1%nat] two_debt_store = (db', [Done (Ok p1); Done (Ok p2)]) ∧
    (∃ r1', db'.(debts_tbl) !! 1%N = Some r1' ∧ r1'.(debts.row_remaining_amount) = 6000 - 1000) ∧
    (∃ r2', db'.(debts_tbl) !! 2%N = Some r2' ∧ r2'.(debts.row_remaining_amount) = 5000 - 2000) ∧
    db'.(clients_tbl) !! 0%N = Some c' ∧
    c'.(clients.balanse) = client_debt_total db'.(debts_tbl) 0%N + 1000 ∧
    ¬ ledger_ok db'.
Proof.
  apply (balance_lost_update two_debt_store demo_rq demo_rq demo_user demo_user 1 2
           (debts.mkRow 0 10000 6000 130 false) (debts.mkRow 0 5000 5000 130 false) 1000 2000);
    [apply (bool_decide_unpack _); vm_compute; reflexivity | reflexivity | reflexivity | lia
    | vm_compute; reflexivity | vm_compute; reflexivity | reflexivity | reflexivity | reflexivity
    | simpl; lia | simpl; lia].
Defined.

(** ** Serial schedules are safe *)

(** Each request, in order, loads, fetches and commits before the next
    starts. *)
Definition serial_schedule (from n : nat) : list nat := flat_map (λ i, [i; i; i]) (seq from n).

(** A fresh request that runs three times in a row is the handler. *)
Lemma run_fresh_thrice reqs i s db phs rq data :
  clients_keyed db → reqs !! i = Some (rq, data) → phs !! i = Some Fresh →
  run reqs (i :: i :: i :: s) db phs =
  match PaymentListCreateView_create db rq data with
  | Ok (p, db') => run reqs s db' (<[i := Done (Ok p)]> phs)
  | Err e => run reqs s db (<[i := Done (Err e)]> phs)
  end.
Proof.
  intros Hkeys Hr Hp. rewrite payment_phases by done. simpl. rewrite Hr, Hp; simpl.
  assert (∀ ph, <[i := ph]> phs !! i = Some ph) as Hat
    by (intros; apply list_lookup_insert_eq; eapply lookup_lt_Some; eauto).
  destruct (payment_load db rq data) as [x|e]; simpl; rewrite Hat; simpl;
    [|rewrite list_insert_insert_eq, Hat; simpl; by rewrite !list_insert_insert_eq].
  destruct (payment_fetch db x) as [x'|e]; simpl; rewrite list_insert_insert_eq, Hat; simpl;
    [|by rewrite !list_insert_insert_eq].
  destruct (payment_commit db x') as [[p db']|e]; simpl; by rewrite !list_insert_insert_eq.
Qed.

Lemma run_serial_ok reqs k from db phs :
  (k + from = length reqs)%nat → length phs = length reqs →
  (∀ j, (from ≤ j)%nat → (j < length reqs)%nat → phs !! j = Some Fresh) →
  Forall (λ rd : Request * PaymentData, 0 ≤ default 0 rd.2.(data_amount)) reqs →
  ledger_ok db → ledger_ok (run reqs (serial_schedule from k) db phs).1.
Proof.
  revert from db phs. induction k as [|k IH]; intros from db phs Hk Hlen Hfresh Hall Hok; [done|].
  change (serial_schedule from (S k)) with (from :: from :: from :: serial_schedule (S from) k).
  destruct (lookup_lt_is_Some_2 reqs from) as [[rq data] Hr]; [lia|].
  rewrite (run_fresh_thrice _ _ _ _ _ rq data) by (exact (ok_client_keys db Hok) || done || (apply Hfresh; lia)).
  assert (∀ r, length (<[from := r]> phs) = length reqs) as Hlen' by (intros; by rewrite length_insert).
  assert (∀ r j, (S from ≤ j)%nat → (j < length reqs)%nat → <[from := r]> phs !! j = Some Fresh)
    as Hfresh'.
  { intros r j ? ?. rewrite list_lookup_insert_ne by lia. apply Hfresh; lia. }
  destruct (PaymentListCreateView_create db rq data) as [[p db']|e] eqn:Hc.
  - apply IH; [lia | done | auto | done |].
    apply (core_step_ok db); [done|]. eapply step_create_payment; [|exact Hc].
    exact (proj1 (Forall_lookup _ _) Hall _ _ Hr).
  - apply IH; [lia | done | auto | done | done].
Qed.

(** C12 (safety, spec section 5): the lost updates need an interleaving.
    From a consistent store, running any list of payment requests with
    non-negative amounts one after the other (each loads, fetches and
    commits before the next loads) leaves the store consistent, whichever of them
    succeed. *)
Theorem serial_payments_ok reqs db :
  Forall (λ rd : Request * PaymentData, 0 ≤ default 0 rd.2.(data_amount)) reqs →
  ledger_ok db → ledger_ok (run_all reqs (serial_schedule 0 (length reqs)) db).1.
Proof.
  intros Hall Hok. unfold run_all. apply run_serial_ok; [lia | apply length_replicate | | done | done].
  intros j _ Hj. by apply lookup_replicate_2.
Qed.

Lemma serial_payments_ok_witness :
  ledger_ok (run_all [(demo_rq, mkPaymentData (Some 1%N) (Some 6000)); (demo_rq, mkPaymentData (Some 1%N) (Some 6000))]
               (serial_schedule 0 2) demo_store3).1.
Proof.
  apply (serial_payments_ok [(demo_rq, mkPaymentData (Some 1%N) (Some 6000));
                             (demo_rq, mkPaymentData (Some 1%N) (Some 6000))]);
    [repeat constructor; simpl; lia | apply (bool_decide_unpack _); vm_compute; reflexivity].
Defined.
